(** * tidal-dl-mcp: session cache, process supervisor and batch fan-out

    A shallow embedding of the parts of the repository that carry the
    session lifecycle and the process bridge:

    - [src/tidal_api/app.py]: [get_or_create_session],
      [invalidate_session_cache], [batch_search] with its inner
      [search_single], [get_batch_recommendations], [get_user_playlists];
      also [search], [create_playlist], [add_tracks_to_playlist],
      [delete_playlist], [get_playlist_tracks] and the download routes;
    - [src/tidal_api/utils.py]: [bound_limit], [format_track_data];
    - [src/tidal_api/download_utils.py]: [find_tdn_executable],
      [build_tidal_url], [execute_tdn_download],
      [execute_tdn_download_favorites];
    - [src/mcp_server/utils.py]: [start_flask_app], [shutdown_flask_app],
      [_wait_for_port], [find_uv_executable];
    - [src/mcp_server/server.py]: [batch_search_tidal],
      [create_playlist_from_songs], [get_favorite_tracks],
      [_get_tidal_recommendations], [recommend_tracks].

    Calls into the outside world (the clock, the credential file, the
    streaming client, the child process, the loopback socket) are answered
    by an explicit world value handed to each function; what a Python
    function does to module-level variables is returned as the new state. *)

From Stdlib Require Import ZArith QArith Lqa Lia String DecimalString List
  Permutation Sorted Floats.
From stdpp Require Import base option list sorting gmap.
Import ListNotations.

Local Open Scope string_scope.
Local Open Scope list_scope.

(** ** Python results: a value returned or an exception raised *)

Module Py.

(** An exception is kept as the text [str(e)] that the handlers of the
    source print or store. *)
Definition exn := string.

Inductive outcome (A : Type) : Type :=
| Return (a : A)
| Raise (e : exn).
Arguments Return {A} a.
Arguments Raise {A} e.

Definition bind {A B} (m : outcome A) (k : A -> outcome B) : outcome B :=
  match m with
  | Return a => k a
  | Raise e => Raise e
  end.

(** [try: body  except Exception as e: handler e] *)
Definition try_except {A} (body : outcome A) (handler : exn -> outcome A)
  : outcome A :=
  match body with
  | Return a => Return a
  | Raise e => handler e
  end.

End Py.

Import Py.

#[global] Instance outcome_ret : MRet outcome := fun _ a => Return a.
#[global] Instance outcome_bind : MBind outcome := fun _ _ k m => Py.bind m k.

(** Strict comparison of two clock readings: [x < y] on Python floats,
    read as rationals. *)
Definition Qltb (x y : Q) : bool := negb (Qle_bool y x).

(** ** The session cache of [src/tidal_api/app.py] *)

Module SessionCache.
Section WithSession.

(** [BrowserSession] objects are opaque handles owned by the client
    library. *)
Variable BrowserSession : Type.

(** The two module-level variables guarded by [_session_lock]. *)
Record cache : Type := Cache {
  _cached_session : option BrowserSession;
  _session_last_validated : Q
}.

(** [SESSION_CACHE_TTL = 300] *)
Definition SESSION_CACHE_TTL : Q := 300.

(** Initial values of the module-level variables. *)
Definition initial : cache :=
  {| _cached_session := None; _session_last_validated := 0 |}.

(** What one call can observe outside the cache: the clock, whether
    [SESSION_FILE] exists, the object built by [BrowserSession()] and the
    answer of [login_session_file_auto] on it.  The last two may raise. *)
Record world : Type := World {
  time_time : Q;
  session_file_exists : bool;
  new_BrowserSession : outcome BrowserSession;
  login_session_file_auto : BrowserSession -> outcome bool
}.

(** The interactions with the credential file, in program order. *)
Inductive event : Type :=
| FileExists          (* SESSION_FILE.exists() *)
| NewSession          (* BrowserSession() *)
| LoginSessionFile.   (* session.login_session_file_auto(SESSION_FILE) *)

Record run (A : Type) : Type := Run {
  result : outcome A;
  after : cache;
  trace : list event
}.
Arguments Run {A}.
Arguments result {A}.
Arguments after {A}.
Arguments trace {A}.

(** The test of line 48:
    [_cached_session and (now - _session_last_validated) < SESSION_CACHE_TTL] *)
Definition cache_fresh (c : cache) (now : Q) : bool :=
  match _cached_session c with
  | Some _ => Qltb (now - _session_last_validated c) SESSION_CACHE_TTL
  | None => false
  end.

(** The [try] block of lines 56-61: [Some session] when the login
    succeeded, [None] when it fell through the [if]. *)
Definition validate (w : world) : outcome (option BrowserSession) * list event :=
  match new_BrowserSession w with
  | Raise e => (Raise e, [NewSession])
  | Return session =>
      match login_session_file_auto w session with
      | Raise e => (Raise e, [NewSession; LoginSessionFile])
      | Return true => (Return (Some session), [NewSession; LoginSessionFile])
      | Return false => (Return None, [NewSession; LoginSessionFile])
      end
  end.

Definition get_or_create_session (w : world) (c : cache)
  : run (option BrowserSession) :=
  let now := time_time w in
  if cache_fresh c now then
    Run (Return (_cached_session c)) c []
  else if negb (session_file_exists w) then
    Run (Return None)
        {| _cached_session := None;
           _session_last_validated := _session_last_validated c |}
        [FileExists]
  else
    let '(attempt, evs) := validate w in
    (* except Exception as e: print(...) *)
    match try_except attempt (fun _ => Return None) with
    | Return (Some session) =>
        Run (Return (Some session))
            {| _cached_session := Some session;
               _session_last_validated := now |}
            (FileExists :: evs)
    | Return None =>
        Run (Return None)
            {| _cached_session := None;
               _session_last_validated := _session_last_validated c |}
            (FileExists :: evs)
    | Raise e =>
        Run (Raise e) c (FileExists :: evs)
    end.

Definition invalidate_session_cache (c : cache) : cache :=
  {| _cached_session := None; _session_last_validated := 0 |}.

(** The validation hook was called during a run. *)
Definition validated {A} (r : run A) : Prop := In LoginSessionFile (trace r).

End WithSession.

Arguments Cache {BrowserSession}.
Arguments World {BrowserSession}.
Arguments _cached_session {BrowserSession}.
Arguments _session_last_validated {BrowserSession}.
Arguments time_time {BrowserSession}.
Arguments session_file_exists {BrowserSession}.
Arguments new_BrowserSession {BrowserSession}.
Arguments login_session_file_auto {BrowserSession}.
Arguments result {BrowserSession A}.
Arguments after {BrowserSession A}.
Arguments trace {BrowserSession A}.
Arguments cache_fresh {BrowserSession}.
Arguments validate {BrowserSession}.
Arguments get_or_create_session {BrowserSession}.
Arguments invalidate_session_cache {BrowserSession}.
Arguments validated {BrowserSession A}.

End SessionCache.

(** ** Text of integers, as [str] and f-strings print them *)

Definition str_of_Z (z : Z) : string :=
  NilZero.string_of_int (Z.to_int z).

(** ** JSON values, as [request.get_json()] and the tool arguments carry them *)

Module Json.

(** A number written without fraction or exponent is a Python [int], any
    other number a [float]. *)
#[warnings="-register-all"] Inductive json : Type :=
| JNull
| JBool (b : bool)
| JNum (z : Z)
| JFloat (f : float)
| JStr (s : string)
| JList (l : list json)
| JDict (d : list (string * json)).

(** Python truth value: [if x], [not x]. *)
Definition truthy (v : json) : bool :=
  match v with
  | JNull => false
  | JBool b => b
  | JNum z => negb (z =? 0)%Z
  | JFloat f => negb (PrimFloat.eqb f 0%float)
  | JStr s => negb (s =? "")%string
  | JList l => match l with [] => false | _ :: _ => true end
  | JDict d => match d with [] => false | _ :: _ => true end
  end.

(** [d.get(key)] on a dict held as its items. *)
Fixpoint dict_get (d : list (string * json)) (key : string) : option json :=
  match d with
  | [] => None
  | (k, v) :: rest => if (k =? key)%string then Some v else dict_get rest key
  end.

(** [type(v).__name__] *)
Definition type_name (v : json) : string :=
  match v with
  | JNull => "NoneType"
  | JBool _ => "bool"
  | JNum _ => "int"
  | JFloat _ => "float"
  | JStr _ => "str"
  | JList _ => "list"
  | JDict _ => "dict"
  end.

Definition lower_char (c : Ascii.ascii) : Ascii.ascii :=
  let n := Ascii.nat_of_ascii c in
  if ((65 <=? n) && (n <=? 90))%nat then Ascii.ascii_of_nat (n + 32) else c.

(** A [str] is held as its UTF-8 bytes: a text of ASCII characters is one
    whose bytes are all below 128. *)
Definition is_ascii_char (c : Ascii.ascii) : bool :=
  (Ascii.nat_of_ascii c <? 128)%nat.

Fixpoint is_ascii (s : string) : bool :=
  match s with
  | EmptyString => true
  | String c rest => is_ascii_char c && is_ascii rest
  end.

(** [s.lower()] on a text of ASCII characters: the letters A-Z are
    lowered and nothing else changes. *)
Fixpoint ascii_lower (s : string) : string :=
  match s with
  | EmptyString => EmptyString
  | String c rest => String (lower_char c) (ascii_lower rest)
  end.

(** [s.lower()] on a text with characters outside ASCII follows Unicode's
    case mapping (it takes U+212A to [k], for one); that mapping is not
    written out here, it is given. *)
Class UnicodeLower : Type := unicode_lower : string -> string.

(** [s.lower()] *)
Definition str_lower `{UnicodeLower} (s : string) : string :=
  if is_ascii s then ascii_lower s else unicode_lower s.

(** [v.lower()]: only [str] has the method. *)
Definition lower `{UnicodeLower} (v : json) : outcome string :=
  match v with
  | JStr s => Return (str_lower s)
  | _ => Raise ("'" ++ type_name v ++ "' object has no attribute 'lower'")%string
  end.

(** [needle in s] on strings. *)
Fixpoint contains (needle s : string) : bool :=
  String.prefix needle s ||
  match s with
  | EmptyString => false
  | String _ rest => contains needle rest
  end.

(** [key in v], for a string [key]: a key of a dict, an item of a list,
    a part of a string; [TypeError] for a value that is no container. *)
Definition py_in (key : string) (v : json) : outcome bool :=
  match v with
  | JDict d => Return match dict_get d key with Some _ => true | None => false end
  | JList l =>
      Return (existsb (fun x => match x with
                                | JStr s => (s =? key)%string
                                | _ => false
                                end) l)
  | JStr s => Return (contains key s)
  | _ => Raise ("argument of type '" ++ type_name v ++ "' is not iterable")%string
  end.

(** [v[key]], for a string [key]: only a dict that has the key answers. *)
Definition py_getitem (v : json) (key : string) : outcome json :=
  match v with
  | JDict d =>
      match dict_get d key with
      | Some x => Return x
      | None => Raise ("'" ++ key ++ "'")%string              (* KeyError *)
      end
  | JList _ => Raise "list indices must be integers or slices, not str"
  | JStr _ => Raise "string indices must be integers, not 'str'"
  | _ => Raise ("'" ++ type_name v ++ "' object is not subscriptable")%string
  end.

(** [v.get(key, default)]: only a dict has the method. *)
Definition py_get (v : json) (key : string) (fallback : json) : outcome json :=
  match v with
  | JDict d => Return (default fallback (dict_get d key))
  | _ => Raise ("'" ++ type_name v ++ "' object has no attribute 'get'")%string
  end.

(** [not v or key not in v]: the test with which the routes look for a
    key of the request body; [key not in v] is not evaluated for a body
    that is not true. *)
Definition lacks (v : json) (key : string) : outcome bool :=
  if negb (truthy v) then Return true
  else has ← py_in key v; Return (negb has).

Section Str.
(** [repr] of a float, a list or a dict is left to the caller. *)
Variable py_repr : json -> string.

(** [str(v)] *)
Definition py_str (v : json) : string :=
  match v with
  | JNull => "None"
  | JBool true => "True"
  | JBool false => "False"
  | JNum z => str_of_Z z
  | JStr s => s
  | JFloat _ | JList _ | JDict _ => py_repr v
  end.
End Str.

End Json.

Import Json.

(** ** Looking for executables: [find_uv_executable] of
       [src/mcp_server/utils.py], [find_tdn_executable] of
       [src/tidal_api/download_utils.py] *)

Module Executables.

(** The file system and the search path, as the two functions see them. *)
Record filesystem : Type := {
  which : string -> option string;          (* shutil.which *)
  expanduser : string -> string;            (* os.path.expanduser *)
  glob : string -> list string;             (* glob.glob *)
  isfile : string -> bool;                  (* os.path.isfile *)
  access_X_OK : string -> bool              (* os.access(_, os.X_OK) *)
}.

Section WithFilesystem.

Variable fs : filesystem.

(** [if path:] on the value of [shutil.which]. *)
Definition found_in_path (name : string) : option string :=
  match which fs name with
  | Some p => if (p =? "")%string then None else Some p
  | None => None
  end.

Definition executable_file (p : string) : bool :=
  isfile fs p && access_X_OK fs p.

(** The inner [for match in matches] loop. *)
Fixpoint first_executable (matches : list string) : option string :=
  match matches with
  | [] => None
  | m :: rest => if executable_file m then Some m else first_executable rest
  end.

(** The loop [for location in common_locations]. *)
Fixpoint scan_locations (common_locations : list string) : option string :=
  match common_locations with
  | [] => None
  | location :: rest =>
      if contains "*" location then
        match first_executable (glob fs location) with
        | Some m => Some m
        | None => scan_locations rest
        end
      else if executable_file location then Some location
      else scan_locations rest
  end.

Definition uv_locations : list string :=
  [expanduser fs "~/.local/bin/uv";
   expanduser fs "~/AppData/Local/Programs/Python/Python*/Scripts/uv.exe";
   "/usr/local/bin/uv";
   "/opt/homebrew/bin/uv"].

Definition find_uv_executable : string :=
  match found_in_path "uv" with
  | Some uv_path => uv_path
  | None =>
      match scan_locations uv_locations with
      | Some p => p
      | None => "uv"
      end
  end.

Definition tdn_locations : list string :=
  [expanduser fs "~/.local/bin/tdn";
   expanduser fs "~/.local/bin/tidal-dl-ng";
   "/usr/local/bin/tdn";
   "/usr/local/bin/tidal-dl-ng";
   expanduser fs "~/AppData/Local/Programs/Python/Python*/Scripts/tdn.exe";
   expanduser fs "~/AppData/Local/Programs/Python/Python*/Scripts/tidal-dl-ng.exe"].

Definition find_tdn_executable : option string :=
  match found_in_path "tdn" with
  | Some tdn_path => Some tdn_path
  | None =>
      match found_in_path "tidal-dl-ng" with
      | Some tdn_path => Some tdn_path
      | None => scan_locations tdn_locations
      end
  end.

(** The candidates a scan looks at: a location without a wildcard, or
    the matches of one with a wildcard. *)
Definition candidates (common_locations : list string) : list string :=
  concat (map (fun location =>
                 if contains "*" location then glob fs location
                 else [location])
              common_locations).

End WithFilesystem.

End Executables.

(** ** The process supervisor of [src/mcp_server/utils.py] *)

Module Supervisor.

Import Executables.

Inductive signal : Type := SIGTERM | SIGKILL.

(** The child process as [subprocess.Popen] holds it: the cached
    [returncode], the number of times the operating system has been asked
    for the child's status, and the signals handed to [os.kill], oldest
    first. *)
Record popen : Type := Popen {
  returncode : option Z;
  status_queries : nat;
  delivered : list signal
}.

(** What the [try] block around a connection attempt comes to:
    [connect_ex] returned [result]; a [socket.error] (an [OSError]) was
    raised, which the handler swallows; another exception was raised
    (an [OverflowError] for a port above 65535, for one), which the
    handler does not catch. *)
Inductive attempt : Type :=
| Connect (result : Z)
| SocketError
| OtherException (e : exn).

(** What the supervisor observes outside itself.  [subprocess_Popen argv]
    is what launching the child comes to ([Raise] for the [OSError] of a
    program that cannot be started, [FileNotFoundError] when it is not
    found), [FLASK_APP_PATH] the path of the backend's script,
    [time_time k] the [k]-th reading of the clock, [child_status k] the
    answer to the [k]-th status query on the child ([None] while it runs,
    for [wait]: while it has not exited within the timeout),
    [connect_ex k] the [k]-th connection attempt on the loopback port. *)
Record world : Type := World {
  subprocess_Popen : list string -> outcome unit;
  FLASK_APP_PATH : string;
  time_time : nat -> Q;
  child_status : nat -> option Z;
  connect_ex : nat -> attempt
}.

(** [subprocess.Popen(...)] right after the launch. *)
Definition launched : popen :=
  {| returncode := None; status_queries := 0; delivered := [] |}.

(** [Popen.poll()] *)
Definition poll (w : world) (p : popen) : option Z * popen :=
  match returncode p with
  | Some rc => (Some rc, p)
  | None =>
      let rc := child_status w (status_queries p) in
      (rc, {| returncode := rc;
              status_queries := S (status_queries p);
              delivered := delivered p |})
  end.

(** [Popen.send_signal(sig)]: polls, and does nothing once the child has
    been seen to complete. *)
Definition send_signal (w : world) (sig : signal) (p : popen) : popen :=
  let '(rc, p1) := poll w p in
  match rc with
  | Some _ => p1
  | None => {| returncode := returncode p1;
               status_queries := status_queries p1;
               delivered := delivered p1 ++ [sig] |}
  end.

Definition terminate (w : world) (p : popen) : popen := send_signal w SIGTERM p.
Definition kill (w : world) (p : popen) : popen := send_signal w SIGKILL p.

Definition TimeoutExpired : exn := "TimeoutExpired".

(** [Popen.wait(timeout=...)] *)
Definition wait (w : world) (p : popen) : outcome Z * popen :=
  match poll w p with
  | (Some rc, p1) => (Return rc, p1)
  | (None, p1) => (Raise TimeoutExpired, p1)
  end.

(** [_check_process_alive(process)] *)
Definition _check_process_alive (w : world) (p : popen) : bool * popen :=
  let '(rc, p1) := poll w p in
  (match rc with None => true | Some _ => false end, p1).

(** [FLASK_STARTUP_TIMEOUT = 30] *)
Definition FLASK_STARTUP_TIMEOUT : Q := 30.

Definition exit_message (rc : option Z) : exn :=
  ("Flask backend failed to start. Exit code: "
     ++ match rc with Some c => str_of_Z c | None => "None" end)%string.

Definition timeout_message : exn :=
  "Flask backend did not start within 30 seconds".

(** The [while] loop of lines 107-126.  Iteration [i] reads the clock for
    the [S i]-th time (reading 0 is [start_time]) and makes the [i]-th
    connection attempt.  The result is the value of [flask_ready] when the
    loop is left, or the exception that leaves it: the [RuntimeError]
    raised inside it, or what a connection attempt raised past the
    handler; [None] when the fuel is used up first. *)
Fixpoint polling_loop (w : world) (start_time : Q) (fuel : nat) (i : nat)
    (flask_process : popen) : option (outcome bool * popen) :=
  match fuel with
  | O => None
  | S fuel' =>
      if Qltb (time_time w (S i) - start_time) FLASK_STARTUP_TIMEOUT then
        let '(alive, p1) := _check_process_alive w flask_process in
        if negb alive then
          Some (Raise (exit_message (returncode p1)), p1)
        else
          match connect_ex w i with
          | Connect 0%Z => Some (Return true, p1)          (* break *)
          | Connect _ | SocketError =>                     (* time.sleep(0.5) *)
              polling_loop w start_time fuel' (S i) p1
          | OtherException e => Some (Raise e, p1)
          end
      else Some (Return false, flask_process)
  end.

(** The command line handed to [subprocess.Popen]. *)
Definition flask_command (w : world) (uv_executable : string) : list string :=
  [uv_executable; "run"; "--with"; "tidalapi"; "--with"; "flask";
   "--with"; "requests"; "python"; FLASK_APP_PATH w].

(** [start_flask_app()]: the result and the value left in the global
    [flask_process], which is assigned only once the child is launched. *)
Definition start_flask_app (fs : filesystem) (w : world) (fuel : nat)
    (flask_process : option popen)
  : option (outcome unit * option popen) :=
  let uv_executable := find_uv_executable fs in
  match subprocess_Popen w (flask_command w uv_executable) with
  | Raise e => Some (Raise e, flask_process)
  | Return _ =>
      let flask_process := launched in
      let start_time := time_time w 0 in
      match polling_loop w start_time fuel 0 flask_process with
      | None => None
      | Some (Raise e, p) => Some (Raise e, Some p)
      | Some (Return true, p) => Some (Return tt, Some p)
      | Some (Return false, p) =>
          Some (Raise timeout_message, Some (terminate w p))
      end
  end.

(** [shutdown_flask_app()]: the global [flask_process] is [None] until
    [start_flask_app] has assigned it; nothing assigns it afterwards. *)
Definition shutdown_flask_app (w : world) (flask_process : option popen)
  : outcome unit * option popen :=
  match flask_process with
  | None => (Return tt, None)
  | Some p =>
      let p1 := terminate w p in
      match wait w p1 with
      | (Return _, p2) => (Return tt, Some p2)
      | (Raise _, p2) => (Return tt, Some (kill w p2))
      end
  end.

(** Signals handed to the child between two states of the handle. *)
Definition signals_of (fp : option popen) : list signal :=
  match fp with Some p => delivered p | None => [] end.

(** Idempotence as the specification states it, for a handle in state
    [fp]: the second of two calls in a row hands no signal to the child. *)
Definition second_call_is_silent (w : world) (fp : option popen) : Prop :=
  let fp1 := snd (shutdown_flask_app w fp) in
  signals_of (snd (shutdown_flask_app w fp1)) = signals_of fp1.

(** Iteration [k] of the polling loop starts before the timeout. *)
Definition in_time (w : world) (k : nat) : Prop :=
  (time_time w (S k) - time_time w 0 < FLASK_STARTUP_TIMEOUT)%Q.

(** A connection attempt after which the loop sleeps: the port refused,
    or [socket.error] was raised. *)
Definition refused (a : attempt) : Prop :=
  match a with
  | Connect result => result <> 0%Z
  | SocketError => True
  | OtherException _ => False
  end.

(** The iterations before [k] all ran to their [sleep]: each started in
    time, found the child running and the port closed. *)
Definition quiet_until (w : world) (k : nat) : Prop :=
  forall j, (j < k)%nat ->
    in_time w j /\ child_status w j = None /\ refused (connect_ex w j).

(** The iteration at which the loop is left: the first one that does
    not run to its [sleep]. *)
Definition leaves_at (w : world) (k : nat) : Prop :=
  quiet_until w k /\
  ~ (in_time w k /\ child_status w k = None /\ refused (connect_ex w k)).

(** The handle after [k] polls that found the child running. *)
Definition polled (k : nat) : popen :=
  {| returncode := None; status_queries := k; delivered := [] |}.

(** The clock moves on: it does not run backwards before the first test
    of the loop, and [time.sleep(0.5)] separates two tests by half a
    second at least. *)
Definition clock_advances (w : world) : Prop :=
  (time_time w 0 <= time_time w 1)%Q /\
  forall i, (time_time w (S i) + (1 # 2) <= time_time w (S (S i)))%Q.

(** The child was launched: [subprocess.Popen] returned. *)
Definition launch_succeeds (fs : filesystem) (w : world) : Prop :=
  subprocess_Popen w (flask_command w (find_uv_executable fs)) = Return tt.

(** The three ways in which [start_flask_app] ends according to the
    specification, with the result [r] and the handle [p] it leaves: the
    port accepted a connection at attempt [k]; poll [k] found the child
    gone with exit code [code]; the test of iteration [k] found the
    timeout reached, and the child was sent [terminate()]. *)
Definition started (w : world) (r : outcome unit) (p : popen) : Prop :=
  exists k, quiet_until w k /\ in_time w k /\ child_status w k = None /\
            connect_ex w k = Connect 0%Z /\
            r = Return tt /\ p = polled (S k).

Definition child_exited (w : world) (r : outcome unit) (p : popen) : Prop :=
  exists k code, quiet_until w k /\ in_time w k /\
                 child_status w k = Some code /\
                 r = Raise (exit_message (Some code)) /\
                 p = {| returncode := Some code; status_queries := S k;
                        delivered := [] |}.

Definition timed_out (w : world) (r : outcome unit) (p : popen) : Prop :=
  exists k, quiet_until w k /\ ~ in_time w k /\
            r = Raise timeout_message /\ p = terminate w (polled k).

(** Two more ways in which it ends.  The launch raises [e]: the
    exception leaves the function before any polling, and the global
    keeps the value [before] that it had.  The connection attempt of
    iteration [k] raises [e] past the handler: the exception leaves the
    loop, and the child is left running. *)
Definition launch_failed (fs : filesystem) (w : world)
    (before : option popen) (r : outcome unit) (after : option popen) : Prop :=
  exists e, subprocess_Popen w (flask_command w (find_uv_executable fs))
            = Raise e /\
            r = Raise e /\ after = before.

Definition attempt_raised (w : world) (r : outcome unit) (p : popen) : Prop :=
  exists k e, quiet_until w k /\ in_time w k /\ child_status w k = None /\
              connect_ex w k = OtherException e /\
              r = Raise e /\ p = polled (S k).

(** The specification's reading: a run that ends has launched the child
    and ends in one of the three ways. *)
Definition three_ways (fs : filesystem) (w : world) (r : outcome unit)
    (after : option popen) : Prop :=
  exists p, after = Some p /\
            (started w r p \/ child_exited w r p \/ timed_out w r p).

Definition ends_in_three_ways (fs : filesystem) (w : world) (fuel : nat)
    (before : option popen) : Prop :=
  forall r after,
    start_flask_app fs w fuel before = Some (r, after) ->
    three_ways fs w r after.

(** The five ways in which a run ends. *)
Inductive ending : Type :=
| LaunchFailed | Started | ChildExited | TimedOut | AttemptRaised.

Definition ends_as (fs : filesystem) (w : world) (before : option popen)
    (how : ending) (r : outcome unit) (after : option popen) : Prop :=
  match how with
  | LaunchFailed => launch_failed fs w before r after
  | Started =>
      launch_succeeds fs w /\ exists p, after = Some p /\ started w r p
  | ChildExited =>
      launch_succeeds fs w /\ exists p, after = Some p /\ child_exited w r p
  | TimedOut =>
      launch_succeeds fs w /\ exists p, after = Some p /\ timed_out w r p
  | AttemptRaised =>
      launch_succeeds fs w /\ exists p, after = Some p /\ attempt_raised w r p
  end.

(** No connection attempt raises anything but [socket.error]. *)
Definition only_socket_errors (w : world) : Prop :=
  forall k e, connect_ex w k <> OtherException e.

End Supervisor.

(** ** More of [src/mcp_server/utils.py]: waiting for a port, finding [uv] *)

Module SupervisorTools.

Import Supervisor.

(** The loop of [_wait_for_port(port, timeout)]: iteration [i] reads the
    clock for the [S i]-th time and makes the [i]-th connection attempt.
    The result is the value returned, or the exception that a connection
    attempt raised past the handler; [None] when the fuel is used up
    first. *)
Fixpoint wait_loop (w : world) (timeout start_time : Q) (fuel : nat) (i : nat)
  : option (outcome bool) :=
  match fuel with
  | O => None
  | S fuel' =>
      if Qltb (time_time w (S i) - start_time) timeout then
        match connect_ex w i with
        | Connect 0%Z => Some (Return true)
        | Connect _ | SocketError =>                    (* time.sleep(0.5) *)
            wait_loop w timeout start_time fuel' (S i)
        | OtherException e => Some (Raise e)
        end
      else Some (Return false)
  end.

Definition _wait_for_port (w : world) (timeout : Q) (fuel : nat)
  : option (outcome bool) :=
  let start_time := time_time w 0 in
  wait_loop w timeout start_time fuel 0.

(** Attempts before [k] all failed while the wait was still running. *)
Definition port_closed_until (w : world) (timeout : Q) (k : nat) : Prop :=
  forall j, (j < k)%nat ->
    (time_time w (S j) - time_time w 0 < timeout)%Q /\
    refused (connect_ex w j).

End SupervisorTools.

(** ** Objects of the streaming client and their flat dictionaries
     ([src/tidal_api/utils.py]) *)

Module Tidal.

Record Artist : Type := {
  artist_id : Z;
  artist_name : string
}.

Record Album : Type := {
  album_id : Z;
  album_name : string;
  album_artist : option Artist;
  album_release_date : option string;
  album_num_tracks : Z;
  album_duration : Z
}.

Record Track : Type := {
  track_id : Z;
  track_name : string;
  track_artist : option Artist;
  track_album : option Album;
  track_duration : Z
}.

(** Timestamps are [datetime] objects, kept as a number; [None] where the
    attribute is missing or holds Python's [None]. *)
Record Playlist : Type := {
  playlist_id : string;
  playlist_name : string;
  playlist_description : string;
  playlist_created : option Z;
  playlist_last_updated : option Z;
  playlist_num_tracks : Z;
  playlist_duration : Z
}.

(** [_get_name_from_attr(obj, attr_name, default="Unknown")] for an
    attribute that is missing, [None], or an object with [.name]. *)
Definition _get_name_from_attr {A} (name : A -> string) (attr : option A)
  : string :=
  match attr with
  | None => "Unknown"
  | Some a => if (name a =? "")%string then "Unknown" else name a
  end.

Record track_data : Type := {
  id : Z;
  title : string;
  artist : string;
  album : string;
  duration : Z;
  url : string;
  source_track_id : option json
}.

Definition format_track_data (track : Track) (source : option json)
  : track_data :=
  {| id := track_id track;
     title := track_name track;
     artist := _get_name_from_attr artist_name (track_artist track);
     album := _get_name_from_attr album_name (track_album track);
     duration := track_duration track;
     url := ("https://tidal.com/browse/track/"
               ++ str_of_Z (track_id track) ++ "?u")%string;
     (* if source_track_id: track_data["source_track_id"] = ... *)
     source_track_id :=
       match source with
       | Some s => if truthy s then Some s else None
       | None => None
       end |}.

(** [bound_limit(limit, max_n=50)] *)
Definition bound_limit (limit max_n : Z) : Z :=
  if (limit <? 1)%Z then 1%Z
  else if (limit >? max_n)%Z then max_n
  else limit.

Record album_data : Type := {
  ad_id : Z;
  ad_title : string;
  ad_artist : string;
  ad_release_date : option string;
  ad_num_tracks : Z;
  ad_duration : Z;
  ad_url : string
}.

Definition format_album_data (a : Album) : album_data :=
  {| ad_id := album_id a;
     ad_title := album_name a;
     ad_artist := _get_name_from_attr artist_name (album_artist a);
     ad_release_date := album_release_date a;
     ad_num_tracks := album_num_tracks a;
     ad_duration := album_duration a;
     ad_url := ("https://tidal.com/browse/album/" ++ str_of_Z (album_id a))%string |}.

Record artist_data : Type := {
  ar_id : Z;
  ar_name : string;
  ar_url : string
}.

Definition format_artist_data (a : Artist) : artist_data :=
  {| ar_id := artist_id a;
     ar_name := artist_name a;
     ar_url := ("https://tidal.com/browse/artist/" ++ str_of_Z (artist_id a))%string |}.

Record playlist_data : Type := {
  pd_id : string;
  pd_title : string;
  pd_description : string;
  pd_num_tracks : Z;
  pd_duration : Z;
  pd_url : string
}.

Definition format_playlist_data (p : Playlist) : playlist_data :=
  {| pd_id := playlist_id p;
     pd_title := playlist_name p;
     pd_description := playlist_description p;
     pd_num_tracks := playlist_num_tracks p;
     pd_duration := playlist_duration p;
     pd_url := ("https://tidal.com/playlist/" ++ playlist_id p)%string |}.

End Tidal.

Import Tidal.

(** ** Batch search: the route [batch_search] of [src/tidal_api/app.py] *)

Module BatchSearch.

Inductive model : Type := TrackModel | AlbumModel | ArtistModel | PlaylistModel.

(** [results.get('top_hit')]: the client may put any of its objects there. *)
Inductive top_hit_object : Type :=
| TopTrack (t : Track)
| TopAlbum (a : Album)
| TopArtist (a : Artist)
| TopPlaylist (p : Playlist)
| TopOther.

(** The dict returned by [session.search]. *)
Record search_results : Type := {
  sr_tracks : list Track;
  sr_albums : list Album;
  sr_artists : list Artist;
  sr_playlists : list Playlist;
  sr_top_hit : option top_hit_object
}.

Inductive top_hit_data : Type :=
| TopHitTrack (d : track_data)
| TopHitAlbum (d : album_data)
| TopHitArtist (d : artist_data).

(** One slot of the [results] list: [{"query": q, "error": ...}] or
    [{"query": q, "type": ..., ...}] with the keys that were set. *)
Inductive search_result : Type :=
| ErrorResult (query : json) (error : string)
| Hits (query : json) (type : json)
       (tracks : option (list track_data))
       (albums : option (list album_data))
       (artists : option (list artist_data))
       (playlists : option (list playlist_data))
       (top_hit : option top_hit_data).

Inductive response : Type :=
| ErrorResponse (status : Z) (error : string)
| BatchResults (results : list search_result) (total : nat).

(** [model_map.get(search_type.lower(), [tidalapi.Track])] *)
Definition model_map_get (lowered : string) : option (list model) :=
  if (lowered =? "track")%string then Some [TrackModel]
  else if (lowered =? "album")%string then Some [AlbumModel]
  else if (lowered =? "artist")%string then Some [ArtistModel]
  else if (lowered =? "playlist")%string then Some [PlaylistModel]
  else if (lowered =? "all")%string then None
  else Some [TrackModel].

(** [response[key] = [format(x) for x in results[key]]] under
    [if results.get(key)]. *)
Definition formatted {A B} (format : A -> B) (l : list A) : option (list B) :=
  match l with
  | [] => None
  | _ :: _ => Some (map format l)
  end.

Definition format_top_hit (t : option top_hit_object) : option top_hit_data :=
  match t with
  | Some (TopTrack t) => Some (TopHitTrack (format_track_data t None))
  | Some (TopAlbum a) => Some (TopHitAlbum (format_album_data a))
  | Some (TopArtist a) => Some (TopHitArtist (format_artist_data a))
  | Some (TopPlaylist _) | Some TopOther | None => None
  end.

(** The [response] dict that [search_single] fills from the client's
    results. *)
Definition hits_of (q search_type : json) (results : search_results)
  : search_result :=
  Hits q search_type
       (formatted (fun t => format_track_data t None) (sr_tracks results))
       (formatted format_album_data (sr_albums results))
       (formatted format_artist_data (sr_artists results))
       (formatted format_playlist_data (sr_playlists results))
       (format_top_hit (sr_top_hit results)).

(** The value under ["query"] in a slot. *)
Definition result_query (r : search_result) : json :=
  match r with
  | ErrorResult query _ => query
  | Hits query _ _ _ _ _ _ => query
  end.

(** [min(max(1, limit_per_query), 20)] on the value read from the
    body.  [max(1, v)] is [v] when [v > 1] and the integer [1] otherwise;
    [min(x, 20)] is the integer [20] when [20 < x] and [x] otherwise.  So
    an integer is clamped; a float above 1 and not above 20 stays the
    float it is; [True] and [False] give [1]; any other value does not
    compare with [1]. *)
Definition clamp_limit (limit_per_query : json) : outcome json :=
  match limit_per_query with
  | JNum z => Return (JNum (Z.min (Z.max 1 z) 20))
  | JBool _ => Return (JNum 1)
  | JFloat f =>
      if PrimFloat.ltb 1 f then
        if PrimFloat.ltb 20 f then Return (JNum 20) else Return (JFloat f)
      else Return (JNum 1)
  | _ => Raise ("'>' not supported between instances of '"
                  ++ type_name limit_per_query ++ "' and 'int'")%string
  end.

Section WithClient.

(** [search i q models limit] is the answer of [session.search] to the call
    made for the item at position [i] of the batch; [limit] is the value
    passed as [limit=]. *)
Variable search : nat -> json -> option (list model) -> json -> outcome search_results.
Variable py_repr : json -> string.
Context {unicode : UnicodeLower}.

(** [q] of [search_single] *)
Definition query_of (query_obj : json) : json :=
  match query_obj with
  | JDict d => default (JStr "") (dict_get d "query")
  | _ => JStr (py_str py_repr query_obj)
  end.

(** [search_type] of [search_single] *)
Definition search_type_of (query_obj : json) : json :=
  match query_obj with
  | JDict d => default (JStr "track") (dict_get d "type")
  | _ => JStr "track"
  end.

(** The body of the [try] of [search_single]. *)
Definition search_and_format (limit_per_query : json) (i : nat)
    (q search_type : json) : outcome search_result :=
  lowered ← lower search_type;
  let models := model_map_get lowered in
  results ← search i q models limit_per_query;
  Return (hits_of q search_type results).

Definition search_single (limit_per_query : json) (i : nat) (query_obj : json)
  : outcome search_result :=
  let q := query_of query_obj in
  let search_type := search_type_of query_obj in
  if negb (truthy q) then Return (ErrorResult q "Empty query")
  else
    try_except (search_and_format limit_per_query i q search_type)
               (fun e => Return (ErrorResult q e)).

(** Processing the item fails with the text [e]: the query is empty, or
    the [try] block raises. *)
Definition item_fails (limit_per_query : json) (i : nat) (query_obj : json)
    (e : string) : Prop :=
  let q := query_of query_obj in
  (truthy q = false /\ e = "Empty query") \/
  (truthy q = true /\
   search_and_format limit_per_query i q (search_type_of query_obj) = Raise e).

(** [q_str] of the handler in the loop of [batch_search]. *)
Definition q_str_of (q : json) : json :=
  match q with
  | JDict d => default (JStr (py_str py_repr q)) (dict_get d "query")
  | _ => JStr (py_str py_repr q)
  end.

(** One turn of [for i, q in enumerate(queries)]: the value appended to
    [results]. *)
Definition batch_step (limit_per_query : json) (i : nat) (q : json)
  : search_result :=
  match search_single limit_per_query i q with
  | Return result => result
  | Raise e => ErrorResult (q_str_of q) e
  end.

Fixpoint batch_loop (limit_per_query : json) (i : nat) (queries : list json)
    (results : list search_result) : list search_result :=
  match queries with
  | [] => results
  | q :: rest =>
      batch_loop limit_per_query (S i) rest
                 (results ++ [batch_step limit_per_query i q])
  end.

(** The body of the route's [try], past [requires_tidal_auth];
    [get_json] is what [request.get_json()] comes to: the JSON value of
    the body, or the exception raised for a request without one. *)
Definition batch_search_body (get_json : outcome json) : outcome response :=
  request_data ← get_json;
  missing ← lacks request_data "queries";
  if (missing : bool) then Return (ErrorResponse 400 "Missing 'queries' in request body")
  else
    queries ← py_getitem request_data "queries";
    limit_per_query ← py_get request_data "limit_per_query" (JNum 5);
    match queries with
    | JList qs =>
        if (length qs =? 0)%nat then
          Return (ErrorResponse 400 "'queries' must be a non-empty list")
        else if (100 <? length qs)%nat then
          Return (ErrorResponse 400 "Maximum 100 queries per batch")
        else
          limit_per_query ← clamp_limit limit_per_query;
          let results := batch_loop limit_per_query 0 qs [] in
          Return (BatchResults results (length results))
    | _ => Return (ErrorResponse 400 "'queries' must be a non-empty list")
    end.

(** The route: [except Exception as e] answers 500. *)
Definition batch_search (get_json : outcome json) : response :=
  match batch_search_body get_json with
  | Return response => response
  | Raise e => ErrorResponse 500 ("Batch search failed: " ++ e)%string
  end.

(** The limit that the route uses for a body that is a dict. *)
Definition limit_of (request_data : list (string * json)) : outcome json :=
  clamp_limit (default (JNum 5) (dict_get request_data "limit_per_query")).

(** The specification's reading of the order property, for a request
    whose body holds the queries [qs]: the answer is a list of results
    with one slot per query, each slot carrying the query of its own
    position. *)
Definition answered_in_order (request_data : json) (qs : list json) : Prop :=
  exists results,
    batch_search (Return request_data) = BatchResults results (length qs) /\
    length results = length qs /\
    forall i q, qs !! i = Some q ->
      exists r, results !! i = Some r /\ result_query r = query_of q.

End WithClient.

End BatchSearch.

(** [requires_tidal_auth]: the route runs only with a session. *)
Definition requires_tidal_auth {Session Response}
    (not_authenticated : Response) (f : Session -> Response)
    (session : option Session) : Response :=
  match session with
  | None => not_authenticated
  | Some s => f s
  end.

(** ** The tool [batch_search_tidal] of [src/mcp_server/server.py] *)

Module ToolServer.

Import BatchSearch.

(** What [http_session.post] does: one of the exceptions the tool
    distinguishes, or a response with its status and, when it parses,
    its JSON body. *)
Inductive backend_body : Type :=
| BodyResults (results : list search_result) (total : nat)
| BodyError (error : string)
| BodyEmpty.

Inductive http_result : Type :=
| HttpTimeout
| HttpConnectionError
| HttpException (e : exn)
| HttpResponse (status_code : Z) (json_body : option backend_body).

Inductive tool_result : Type :=
| ToolError (message : string)
| ToolSuccess (data : backend_body).   (* {"status": "success", **data} *)

(** One turn of the normalization loop: the dict appended to
    [normalized_queries], if any. *)
Definition normalize (q : json) : option json :=
  match q with
  | JStr s => Some (JDict [("query", JStr s); ("type", JStr "track")])
  | JDict d =>
      match dict_get d "query" with
      | Some v =>
          if truthy v then
            Some (JDict [("query", v);
                         ("type", default (JStr "track") (dict_get d "type"))])
          else None
      | None => None
      end
  | _ => None
  end.

Fixpoint normalize_all (queries : list json) (normalized_queries : list json)
  : list json :=
  match queries with
  | [] => normalized_queries
  | q :: rest =>
      normalize_all rest
        match normalize q with
        | Some n => normalized_queries ++ [n]
        | None => normalized_queries
        end
  end.

(** An item that the tool accepts, in the words of its docstring: a string,
    or a dict with a non-empty ['query']. *)
Definition valid_item (q : json) : bool :=
  match q with
  | JStr _ => true
  | JDict d =>
      match dict_get d "query" with
      | Some v => truthy v
      | None => false
      end
  | _ => false
  end.

(** [_safe_json(response)]: [{}] when the body does not parse. *)
Definition _safe_json (json_body : option backend_body) : backend_body :=
  match json_body with
  | Some b => b
  | None => BodyEmpty
  end.

Section WithBackend.

(** [post normalized_queries limit_per_query] stands for
    [http_session.post(".../api/search/batch", json=..., timeout=...)]. *)
Variable post : list json -> Z -> http_result.

Definition batch_search_tidal (queries : json) (limit_per_query : Z)
  : tool_result :=
  match queries with
  | JList qs =>
      if negb (truthy queries) then
        ToolError "queries must be a non-empty list"
      else if (100 <? length qs)%nat then
        ToolError "Maximum 100 queries per batch request"
      else
        let normalized_queries := normalize_all qs [] in
        match normalized_queries with
        | [] => ToolError "No valid queries provided"
        | _ :: _ =>
            match post normalized_queries (Z.min (Z.max 1 limit_per_query) 20) with
            | HttpTimeout =>
                ToolError "Batch search timed out. Try with fewer queries."
            | HttpConnectionError =>
                ToolError "Cannot connect to TIDAL backend service."
            | HttpException e =>
                ToolError ("Batch search failed: " ++ e)%string
            | HttpResponse status_code json_body =>
                if (status_code =? 401)%Z then
                  ToolError "Not authenticated with TIDAL. Please login first using tidal_login()."
                else if (status_code =? 200)%Z then
                  match _safe_json json_body with
                  | BodyEmpty =>
                      ToolError "Empty response from batch search - Flask may have crashed"
                  | data => ToolSuccess data
                  end
                else
                  match _safe_json json_body with
                  | BodyError e => ToolError e
                  | _ => ToolError ("Batch search failed (HTTP "
                                      ++ str_of_Z status_code ++ ")")%string
                  end
            end
        end
  | _ => ToolError "queries must be a non-empty list"
  end.

End WithBackend.

(** The JSON body that the tool posts:
    [{"queries": ..., "limit_per_query": ...}]. *)
Definition posted_body (normalized_queries : list json) (limit_per_query : Z)
  : json :=
  JDict [("queries", JList normalized_queries);
         ("limit_per_query", JNum limit_per_query)].

(** The backend route behind the loopback transport, for an authenticated
    session. *)
Definition post_to_backend `{UnicodeLower}
    (search : nat -> json -> option (list model) -> json -> outcome search_results)
    (py_repr : json -> string)
    (normalized_queries : list json) (limit_per_query : Z) : http_result :=
  match batch_search search py_repr
          (Return (posted_body normalized_queries limit_per_query)) with
  | BatchResults results total => HttpResponse 200 (Some (BodyResults results total))
  | ErrorResponse status error => HttpResponse status (Some (BodyError error))
  end.

End ToolServer.

(** ** Batch recommendations: [get_batch_recommendations] of
       [src/tidal_api/app.py] *)

Module Recommendations.

(** [bound_limit(limit)], with [max_n] at its default 50, on the value
    read from the body: below 1 it is the integer 1, above 50 the integer
    50, and the value itself otherwise.  An integer is bounded; a float
    from 1 to 50 stays the float it is; [False] is below 1 and [True] is
    returned as it is; any other value does not compare with [1]. *)
Definition bound_limit_json (limit : json) : outcome json :=
  match limit with
  | JNum z => Return (JNum (bound_limit z 50))
  | JBool false => Return (JNum 1)
  | JBool true => Return (JBool true)
  | JFloat f =>
      if PrimFloat.ltb f 1 then Return (JNum 1)
      else if PrimFloat.ltb 50 f then Return (JNum 50)
      else Return (JFloat f)
  | _ => Raise ("'<' not supported between instances of '"
                  ++ type_name limit ++ "' and 'int'")%string
  end.

Inductive response : Type :=
| ErrorResponse (status : Z) (error : string)
| RecommendationsResponse (recommendations : list track_data).

(** The accumulator of lines 435-436. *)
Record accumulator : Type := {
  all_recommendations : list track_data;
  seen_track_ids : gset Z
}.

Definition empty_accumulator : accumulator :=
  {| all_recommendations := []; seen_track_ids := ∅ |}.

(** The body of [for track_data in track_recommendations]. *)
Definition accumulate_track (remove_duplicates : bool) (acc : accumulator)
    (track_data : track_data) : accumulator :=
  let track_id := id track_data in
  if remove_duplicates && bool_decide (track_id ∈ seen_track_ids acc) then
    acc                                                      (* continue *)
  else
    {| all_recommendations := all_recommendations acc ++ [track_data];
       seen_track_ids := {[track_id]} ∪ seen_track_ids acc |}.

Definition accumulate (remove_duplicates : bool) (acc : accumulator)
    (track_recommendations : list track_data) : accumulator :=
  fold_left (accumulate_track remove_duplicates) track_recommendations acc.

(** [for future in as_completed(...)]: the futures' results, in the order
    in which they complete. *)
Definition merge (remove_duplicates : bool)
    (completed : list (list track_data)) : accumulator :=
  fold_left (accumulate remove_duplicates) completed empty_accumulator.

Section WithClient.

(** [session.track(track_id)] and [track.get_track_radio(limit=...)];
    the limit is the value passed as [limit=]. *)
Variable session_track : json -> outcome Track.
Variable get_track_radio : Track -> json -> outcome (list Track).

(** The worker: one seed's formatted radio, [[]] when anything raised. *)
Definition get_track_recommendations (limit_per_track : json) (track_id : json)
  : list track_data :=
  match
    try_except
      (track ← session_track track_id;
       recommendations ← get_track_radio track limit_per_track;
       Return (map (fun rec => format_track_data rec (Some track_id))
                   recommendations))
      (fun _ => Return [])
  with
  | Return formatted_recommendations => formatted_recommendations
  | Raise _ => []
  end.

(** The results of the futures taken in completion order: [completion]
    lists the positions of the seeds as their workers finish. *)
Definition as_completed (futures : list (list track_data))
    (completion : list nat) : list (list track_data) :=
  omap (fun i => futures !! i) completion.

(** The body of the route's [try], past [requires_tidal_auth];
    [get_json] is what [request.get_json()] comes to: the JSON value of
    the body, or the exception raised for a request without one. *)
Definition get_batch_recommendations_body (completion : list nat)
    (get_json : outcome json) : outcome response :=
  request_data ← get_json;
  missing ← lacks request_data "track_ids";
  if (missing : bool) then
    Return (ErrorResponse 400 "Missing track_ids in request body")
  else
    track_ids ← py_getitem request_data "track_ids";
    match track_ids with
    | JList ids =>
        limit_per_track ← py_get request_data "limit_per_track" (JNum 20);
        limit_per_track ← bound_limit_json limit_per_track;
        remove_duplicates ← py_get request_data "remove_duplicates" (JBool true);
        match ids with
        | [] =>
            (* ThreadPoolExecutor(max_workers=0) raises ValueError *)
            Raise "max_workers must be greater than 0"
        | _ :: _ =>
            let futures := map (get_track_recommendations limit_per_track) ids in
            Return (RecommendationsResponse
                      (all_recommendations
                         (merge (truthy remove_duplicates)
                                (as_completed futures completion))))
        end
    | _ => Return (ErrorResponse 400 "track_ids must be a list")
    end.

(** The route: [except Exception as e] answers 500. *)
Definition get_batch_recommendations (completion : list nat)
    (get_json : outcome json) : response :=
  match get_batch_recommendations_body completion get_json with
  | Return response => response
  | Raise e =>
      ErrorResponse 500 ("Error fetching batch recommendations: " ++ e)%string
  end.

End WithClient.

(** The limit and the deduplication switch that the route uses for a
    body that is a dict. *)
Definition limit_of (request_data : list (string * json)) : outcome json :=
  bound_limit_json (default (JNum 20) (dict_get request_data "limit_per_track")).

Definition remove_of (request_data : list (string * json)) : bool :=
  truthy (default (JBool true) (dict_get request_data "remove_duplicates")).

(** Number of entries of a list of formatted tracks that carry a given
    identifier. *)
Definition occurrences (track_id : Z) (l : list track_data) : nat :=
  length (filter (fun d => id d = track_id) l).

(** Deduplication as the specification words it: a track is dropped when
    its identifier has already been accumulated. *)
Fixpoint first_occurrences (seen : gset Z) (l : list track_data)
  : list track_data :=
  match l with
  | [] => []
  | d :: rest =>
      if bool_decide (id d ∈ seen) then first_occurrences seen rest
      else d :: first_occurrences ({[id d]} ∪ seen) rest
  end.

(** Number of seeds whose radio contains the identifier. *)
Definition producers (track_id : Z) (futures : list (list track_data)) : nat :=
  length (filter (fun f => (0 < occurrences track_id f)%nat) futures).

End Recommendations.

(** ** Listing playlists: [get_user_playlists] of [src/tidal_api/app.py] *)

Module Playlists.

(** The dict built for each playlist in lines 593-602; every key is set on
    every dict, [None] standing for Python's [None]. *)
Record playlist_info : Type := {
  pi_id : string;
  pi_title : string;
  pi_description : string;
  pi_created : option Z;
  pi_last_updated : option Z;
  pi_track_count : Z;
  pi_duration : Z;
  pi_url : string
}.

Definition make_playlist_info (playlist : Playlist) : playlist_info :=
  {| pi_id := playlist_id playlist;
     pi_title := playlist_name playlist;
     pi_description := playlist_description playlist;
     pi_created := playlist_created playlist;
     pi_last_updated := playlist_last_updated playlist;
     pi_track_count := playlist_num_tracks playlist;
     pi_duration := playlist_duration playlist;
     pi_url := ("https://tidal.com/playlist/" ++ playlist_id playlist)%string |}.

(** The values a sort key can take: [x.get('last_updated', '')] is the
    value stored under the key, and the key is always there, so the
    default [''] is never taken. *)
Inductive sort_key : Type :=
| KeyNone
| KeyTime (t : Z).

Definition key_of (x : playlist_info) : sort_key :=
  match pi_last_updated x with
  | Some t => KeyTime t
  | None => KeyNone
  end.

Definition key_type (k : sort_key) : string :=
  match k with
  | KeyNone => "NoneType"
  | KeyTime _ => "datetime.datetime"
  end.

(** [a < b] on sort keys: [None] is not ordered against anything. *)
Definition py_lt (a b : sort_key) : outcome bool :=
  match a, b with
  | KeyTime s, KeyTime t => Return (s <? t)%Z
  | _, _ => Raise ("'<' not supported between instances of '"
                     ++ key_type a ++ "' and '" ++ key_type b ++ "'")%string
  end.

(** [sorted] is a stable sort that compares with [<] only; it is given
    here as an insertion sort: [x], that stood before the items of
    [sorted_tail], stays before the first of them that is not smaller. *)
Fixpoint insert_sorted {A} (key : A -> sort_key) (x : A) (sorted_tail : list A)
  : outcome (list A) :=
  match sorted_tail with
  | [] => Return [x]
  | y :: rest =>
      smaller ← py_lt (key y) (key x);
      if (smaller : bool) then
        placed ← insert_sorted key x rest;
        Return (y :: placed)
      else Return (x :: y :: rest)
  end.

Fixpoint sort_ascending {A} (key : A -> sort_key) (l : list A)
  : outcome (list A) :=
  match l with
  | [] => Return []
  | x :: rest =>
      sorted_tail ← sort_ascending key rest;
      insert_sorted key x sorted_tail
  end.

(** [sorted(l, key=key, reverse=True)]: the list is reversed, sorted and
    reversed again, which keeps items with equal keys in their order. *)
Definition sorted_reverse {A} (key : A -> sort_key) (l : list A)
  : outcome (list A) :=
  sorted_rev ← sort_ascending key (rev l);
  Return (rev sorted_rev).

Inductive response : Type :=
| ErrorResponse (status : Z) (error : string)
| PlaylistsResponse (playlists : list playlist_info).

(** The route, past [requires_tidal_auth]; [user_playlists] is the answer
    of [session.user.playlists()]. *)
Definition get_user_playlists (user_playlists : outcome (list Playlist))
  : response :=
  match
    (playlists ← user_playlists;
     let playlist_list := map make_playlist_info playlists in
     sorted_playlists ← sorted_reverse key_of playlist_list;
     Return (PlaylistsResponse sorted_playlists))
  with
  | Return r => r
  | Raise e => ErrorResponse 500 ("Error fetching playlists: " ++ e)%string
  end.

(** Most recently updated first: every playlist has a timestamp at least
    as late as the one that follows it. *)
Definition newer_or_equal (a b : playlist_info) : Prop :=
  match pi_last_updated a, pi_last_updated b with
  | Some s, Some t => (t <= s)%Z
  | _, _ => False
  end.

Definition sorted_descending (l : list playlist_info) : Prop :=
  Sorted newer_or_equal l.

(** Oldest first: the order in which [sort_ascending] leaves a list. *)
Definition older_or_equal : relation playlist_info := flip newer_or_equal.

End Playlists.

(** ** Successive calls on the session cache *)

Module SessionCalls.
Section WithSession.

Import SessionCache.

Variable BrowserSession : Type.

(** Requests served one after the other: each call of
    [get_or_create_session] finds the cache as the call before left it,
    and the world as it is when the call is made. *)
Fixpoint calls (ws : list (world BrowserSession)) (c : cache BrowserSession)
  : list (run BrowserSession (option BrowserSession)) :=
  match ws with
  | [] => []
  | w :: rest =>
      let r := get_or_create_session w c in
      r :: calls rest (after r)
  end.

(** The cache after the last of the calls. *)
Fixpoint cache_after (ws : list (world BrowserSession))
    (c : cache BrowserSession) : cache BrowserSession :=
  match ws with
  | [] => c
  | w :: rest => cache_after rest (after (get_or_create_session w c))
  end.

End WithSession.

Arguments calls {BrowserSession}.
Arguments cache_after {BrowserSession}.

End SessionCalls.

(** ** Downloads through the external tool:
       [src/tidal_api/download_utils.py] and the download routes of
       [src/tidal_api/app.py] *)

Module Downloads.

Import Executables.

(** What [subprocess.run(argv, capture_output=True, text=True,
    timeout=...)] comes to. *)
Inductive run_outcome : Type :=
| Completed (returncode : Z) (stdout stderr : string)
| RunTimeout                                  (* subprocess.TimeoutExpired *)
| RunError (e : exn).

(** The dict returned by the two [execute_...] functions; [stdout] and
    [stderr] are keys that some of the answers do not have. *)
Record download_result : Type := {
  status : string;
  message : string;
  stdout : option string;
  stderr : option string
}.

(** A result together with the command lines handed to
    [subprocess.run] on the way. *)
Record execution : Type := {
  result : download_result;
  commands : list (list string)
}.

Definition not_installed : download_result :=
  {| status := "error";
     message := "tidal-dl-ng is not installed. Install with: pip install tidal-dl-ng";
     stdout := None; stderr := None |}.

Definition not_authenticated_message : string :=
  "tidal-dl-ng is not authenticated. Please run 'tdn login' in terminal first.".

(** [build_tidal_url(content_type, content_id)] *)
Definition build_tidal_url (content_type content_id : string) : string :=
  ("https://tidal.com/browse" ++ "/" ++ content_type ++ "/" ++ content_id)%string.

Section WithSystem.

Context {unicode : UnicodeLower}.

(** The test on the output of a failed run. *)
Definition mentions_login (out err : string) : bool :=
  let output := str_lower (out ++ err)%string in
  contains "not logged in" output || contains "authentication" output
  || contains "login" output.

(** What both functions make of a finished or failed run; [done] is the
    message of success. *)
Definition report (done : string) (timeout : Z) (r : run_outcome)
  : download_result :=
  match r with
  | Completed returncode out err =>
      if (returncode =? 0)%Z then
        {| status := "success"; message := done;
           stdout := Some out; stderr := Some err |}
      else if mentions_login out err then
        {| status := "error"; message := not_authenticated_message;
           stdout := Some out; stderr := Some err |}
      else
        {| status := "error";
           message := ("Download failed with exit code "
                         ++ str_of_Z returncode)%string;
           stdout := Some out; stderr := Some err |}
  | RunTimeout =>
      {| status := "error";
         message := ("Download timed out after " ++ str_of_Z timeout
                       ++ " seconds")%string;
         stdout := None; stderr := None |}
  | RunError e =>
      {| status := "error";
         message := ("Download failed: " ++ e)%string;
         stdout := None; stderr := None |}
  end.

Variable fs : filesystem.
Variable subprocess_run : list string -> Z -> run_outcome.

(** [execute_tdn_download(url, timeout)] *)
Definition execute_tdn_download (url : string) (timeout : Z) : execution :=
  match find_tdn_executable fs with
  | None => {| result := not_installed; commands := [] |}
  | Some tdn_path =>
      let argv := [tdn_path; "dl"; url] in
      {| result := report "Download completed" timeout
                     (subprocess_run argv timeout);
         commands := [argv] |}
  end.

Definition valid_types : list string :=
  ["tracks"; "albums"; "artists"; "videos"].

(** [execute_tdn_download_favorites(favorite_type, timeout)] *)
Definition execute_tdn_download_favorites (favorite_type : string)
    (timeout : Z) : execution :=
  if negb (bool_decide (str_lower favorite_type ∈ valid_types)) then
    {| result :=
         {| status := "error";
            message := "Invalid favorite type. Must be one of: tracks, albums, artists, videos";
            stdout := None; stderr := None |};
       commands := [] |}
  else
    match find_tdn_executable fs with
    | None => {| result := not_installed; commands := [] |}
    | Some tdn_path =>
        let argv := [tdn_path; "dl_fav"; str_lower favorite_type] in
        {| result := report ("Downloaded favorite " ++ favorite_type)%string
                       timeout (subprocess_run argv timeout);
           commands := [argv] |}
    end.

(** The answer of a download route: an [{"error": ...}] body with its
    status, the body of a success, or the result of the run with the
    status chosen for it. *)
Inductive response : Type :=
| ErrorBody (status_code : Z) (error : string)
| Downloaded (message : string) (url : option string) (output : string)
| Failed (status_code : Z) (result : download_result).

Definition status_code_of (r : response) : Z :=
  match r with
  | ErrorBody status_code _ => status_code
  | Downloaded _ _ _ => 200
  | Failed status_code _ => status_code
  end.

(** [500 if 'not installed' in result.get('message', '') else 400] *)
Definition failure_status (r : download_result) : Z :=
  if contains "not installed" (message r) then 500 else 400.

Variable py_repr : json -> string.

(** What a route and the runs it makes come to: the answer, and the
    command lines handed to [subprocess.run]. *)
Definition served : Type := (response * list (list string))%type.

(** [try: ... except Exception as e: return ..., 500]: an exception
    leaves the [try] before any command is run. *)
Definition guarded (what : string) (body : outcome served) : served :=
  match body with
  | Return answer => answer
  | Raise e => (ErrorBody 500 ("Error downloading " ++ what ++ ": " ++ e)%string, [])
  end.

(** The body shared by [download_track], [download_album] and
    [download_playlist_content]: the key read from the request, the
    content type of the URL, the word of the message, the timeout.
    [get_json] is what [request.get_json()] comes to: the JSON value of
    the body, or the exception raised for a request without one. *)
Definition download_content (key content_type label : string) (timeout : Z)
    (get_json : outcome json) : served :=
  guarded content_type
    (request_data ← get_json;
     missing ← lacks request_data key;
     if (missing : bool) then
       Return (ErrorBody 400 ("Missing '" ++ key ++ "' in request body")%string,
               [])
     else
       v ← py_getitem request_data key;
       let content_id := py_str py_repr v in
       let url := build_tidal_url content_type content_id in
       let run := execute_tdn_download url timeout in
       if (status (result run) =? "success")%string then
         Return (Downloaded (label ++ " " ++ content_id
                               ++ " downloaded successfully")%string
                            (Some url)
                            (default "" (stdout (result run))),
                 commands run)
       else
         Return (Failed (failure_status (result run)) (result run),
                 commands run)).

Definition download_track := download_content "track_id" "track" "Track" 300.
Definition download_album := download_content "album_id" "album" "Album" 600.
Definition download_playlist_content :=
  download_content "playlist_id" "playlist" "Playlist" 1200.

(** [download_favorites()] *)
Definition download_favorites (get_json : outcome json) : served :=
  guarded "favorites"
    (request_data ← get_json;
     missing ← lacks request_data "type";
     if (missing : bool) then
       Return (ErrorBody 400 "Missing 'type' in request body", [])
     else
       v ← py_getitem request_data "type";
       let fav_type := str_lower (py_str py_repr v) in
       let run := execute_tdn_download_favorites fav_type 1800 in
       if (status (result run) =? "success")%string then
         Return (Downloaded ("Favorite " ++ fav_type
                               ++ " downloaded successfully")%string
                            None
                            (default "" (stdout (result run))),
                 commands run)
       else
         Return (Failed (failure_status (result run)) (result run),
                 commands run)).

End WithSystem.

(** Every character of the string is a decimal digit or a minus sign. *)
Fixpoint numeral (s : string) : Prop :=
  match s with
  | EmptyString => True
  | String c rest =>
      In c (list_ascii_of_string "0123456789-") /\ numeral rest
  end.

End Downloads.

(** ** The search route [search] of [src/tidal_api/app.py] *)

Module Search.

Import BatchSearch.

(** [request.args]: [None] for a parameter that is absent; [limit] is
    [None] also when it does not read as an integer. *)
Record args : Type := {
  q : option string;
  type : option string;
  limit : option Z
}.

Inductive top_hit_data : Type :=
| HitTrack (d : track_data)
| HitAlbum (d : album_data)
| HitArtist (d : artist_data)
| HitPlaylist (d : playlist_data).

Inductive response : Type :=
| ErrorResponse (status : Z) (error : string)
| Results (top_hit : option top_hit_data)
          (tracks : option (list track_data))
          (albums : option (list album_data))
          (artists : option (list artist_data))
          (playlists : option (list playlist_data)).

(** [model_map], with [None] for a key that it does not have. *)
Definition model_map (search_type : string) : option (option (list model)) :=
  if (search_type =? "track")%string then Some (Some [TrackModel])
  else if (search_type =? "album")%string then Some (Some [AlbumModel])
  else if (search_type =? "artist")%string then Some (Some [ArtistModel])
  else if (search_type =? "playlist")%string then Some (Some [PlaylistModel])
  else if (search_type =? "all")%string then Some None
  else None.

Definition format_top_hit (t : option top_hit_object) : option top_hit_data :=
  match t with
  | Some (TopTrack t) => Some (HitTrack (format_track_data t None))
  | Some (TopAlbum a) => Some (HitAlbum (format_album_data a))
  | Some (TopArtist a) => Some (HitArtist (format_artist_data a))
  | Some (TopPlaylist p) => Some (HitPlaylist (format_playlist_data p))
  | Some TopOther | None => None
  end.

(** The [response] dict built from the client's results. *)
Definition results_of (results : search_results) : response :=
  Results (format_top_hit (sr_top_hit results))
          (formatted (fun t => format_track_data t None) (sr_tracks results))
          (formatted format_album_data (sr_albums results))
          (formatted format_artist_data (sr_artists results))
          (formatted format_playlist_data (sr_playlists results)).

Section WithClient.

(** [session.search(query, models=models, limit=limit)] *)
Variable session_search : string -> option (list model) -> Z -> outcome search_results.
Context {unicode : UnicodeLower}.

(** The route, past [requires_tidal_auth]. *)
Definition search (a : args) : response :=
  let query := default "" (q a) in
  let search_type := str_lower (default "all" (type a)) in
  let limit := bound_limit (default 50%Z (limit a)) 300 in
  if (query =? "")%string then
    ErrorResponse 400 "Query parameter 'q' is required"
  else
    match model_map search_type with
    | None =>
        ErrorResponse 400
          ("Invalid search type '" ++ search_type
             ++ "'. Must be one of: track, album, artist, playlist, all")%string
    | Some models =>
        match session_search query models limit with
        | Return results => results_of results
        | Raise e => ErrorResponse 500 ("Search failed: " ++ e)%string
        end
    end.

End WithClient.

(** A top hit of the batch search, read as one of the search route. *)
Definition of_batch (t : BatchSearch.top_hit_data) : top_hit_data :=
  match t with
  | TopHitTrack d => HitTrack d
  | TopHitAlbum d => HitAlbum d
  | TopHitArtist d => HitArtist d
  end.

End Search.

(** ** The playlist routes of [src/tidal_api/app.py]: [create_playlist],
       [add_tracks_to_playlist], [get_playlist_tracks], [delete_playlist] *)

Module PlaylistRoutes.

(** Calls on the client that change or read the account, in the order
    in which a route makes them. *)
Inductive call : Type :=
| CreatePlaylist (title description : json)     (* session.user.create_playlist *)
| LookupPlaylist (playlist_id : string)         (* session.playlist *)
| AddTracks (playlist : Playlist) (track_ids : list json)
            (allow_duplicates : option json)    (* playlist.add *)
| DeletePlaylist (playlist : Playlist)          (* playlist.delete *)
| PlaylistItems (playlist : Playlist) (limit offset : Z).   (* playlist.items *)

(** The client.  [playlist_add] answers with the identifiers added and
    the playlist object as the call leaves it; [session_playlist]
    answers [None] for a value that is not true. *)
Record client : Type := {
  user_create_playlist : json -> json -> outcome Playlist;
  session_playlist : string -> outcome (option Playlist);
  playlist_add : Playlist -> list json -> option json
                 -> outcome (list json * Playlist);
  playlist_delete : Playlist -> outcome unit;
  playlist_items : Playlist -> Z -> Z -> outcome (list Track)
}.

Inductive response : Type :=
| ErrorResponse (status : Z) (error : string)
| Created (title : json) (track_count : nat) (playlist : Playlist)
| Added (playlist_id : string) (tracks_added : nat)
| Deleted (playlist_id : string)
| Tracks (playlist_id : string) (tracks : list track_data)
         (total_tracks : nat) (total_available : Z) (offset limit : Z).

Record served : Type := {
  answer : response;
  calls : list call
}.

Section WithClient.

Variable c : client.

(** An answer given before any call on the client. *)
Definition refused (status : Z) (error : string) : served :=
  {| answer := ErrorResponse status error; calls := [] |}.

(** ['track_ids' not in request_data or not request_data['track_ids']] *)
Definition no_track_ids (request_data : json) : outcome bool :=
  has ← py_in "track_ids" request_data;
  if negb (has : bool) then Return true
  else track_ids ← py_getitem request_data "track_ids";
       Return (negb (truthy track_ids)).

(** [create_playlist], past [requires_tidal_auth].  [get_json] is what
    [request.get_json()] comes to: the JSON value of the body, or the
    exception raised for a request without one. *)
Definition create_playlist (get_json : outcome json) : served :=
  match
    (request_data ← get_json;
     if negb (truthy request_data) then
       Return (refused 400 "Missing request body")
     else
       has_title ← py_in "title" request_data;
       if negb (has_title : bool) then
         Return (refused 400 "Missing 'title' in request body")
       else
         missing ← no_track_ids request_data;
         if (missing : bool) then
           Return (refused 400
                     "Missing 'track_ids' in request body or empty track list")
         else
           title ← py_getitem request_data "title";
           description ← py_get request_data "description" (JStr "");
           track_ids ← py_getitem request_data "track_ids";
           match track_ids with
           | JList track_ids =>
               match user_create_playlist c title description with
               | Raise e =>
                   Return
                     {| answer := ErrorResponse 500
                                    ("Error creating playlist: " ++ e)%string;
                        calls := [CreatePlaylist title description] |}
               | Return playlist =>
                   match playlist_add c playlist track_ids None with
                   | Raise e =>
                       Return
                         {| answer := ErrorResponse 500
                                        ("Error creating playlist: " ++ e)%string;
                            calls := [CreatePlaylist title description;
                                      AddTracks playlist track_ids None] |}
                   | Return (_, playlist') =>
                       Return
                         {| answer := Created title (length track_ids) playlist';
                            calls := [CreatePlaylist title description;
                                      AddTracks playlist track_ids None] |}
                   end
               end
           | _ => Return (refused 400 "'track_ids' must be a list")
           end)
  with
  | Return s => s
  | Raise e => refused 500 ("Error creating playlist: " ++ e)%string
  end.

Definition not_found (playlist_id : string) : response :=
  ErrorResponse 404 ("Playlist with ID " ++ playlist_id ++ " not found")%string.

(** [add_tracks_to_playlist], past [requires_tidal_auth]. *)
Definition add_tracks_to_playlist (playlist_id : string)
    (get_json : outcome json) : served :=
  match
    (request_data ← get_json;
     if negb (truthy request_data) then
       Return (refused 400 "Missing request body")
     else
       missing ← no_track_ids request_data;
       if (missing : bool) then
         Return (refused 400
                   "Missing 'track_ids' in request body or empty track list")
       else
         track_ids ← py_getitem request_data "track_ids";
         allow_duplicates ← py_get request_data "allow_duplicates" (JBool false);
         match track_ids with
         | JList track_ids =>
             let allow_duplicates := Some allow_duplicates in
             match session_playlist c playlist_id with
             | Raise e =>
                 Return
                   {| answer := ErrorResponse 500
                                  ("Error adding tracks to playlist: " ++ e)%string;
                      calls := [LookupPlaylist playlist_id] |}
             | Return None =>
                 Return {| answer := not_found playlist_id;
                           calls := [LookupPlaylist playlist_id] |}
             | Return (Some playlist) =>
                 match playlist_add c playlist track_ids allow_duplicates with
                 | Raise e =>
                     Return
                       {| answer := ErrorResponse 500
                            ("Error adding tracks to playlist: " ++ e)%string;
                          calls := [LookupPlaylist playlist_id;
                                    AddTracks playlist track_ids allow_duplicates] |}
                 | Return (added_ids, _) =>
                     Return
                       {| answer := Added playlist_id (length added_ids);
                          calls := [LookupPlaylist playlist_id;
                                    AddTracks playlist track_ids allow_duplicates] |}
                 end
             end
         | _ => Return (refused 400 "'track_ids' must be a list")
         end)
  with
  | Return s => s
  | Raise e => refused 500 ("Error adding tracks to playlist: " ++ e)%string
  end.

(** [delete_playlist], past [requires_tidal_auth]. *)
Definition delete_playlist (playlist_id : string) : served :=
  match session_playlist c playlist_id with
  | Raise e =>
      {| answer := ErrorResponse 500 ("Error deleting playlist: " ++ e)%string;
         calls := [LookupPlaylist playlist_id] |}
  | Return None =>
      {| answer := not_found playlist_id;
         calls := [LookupPlaylist playlist_id] |}
  | Return (Some playlist) =>
      match playlist_delete c playlist with
      | Raise e =>
          {| answer := ErrorResponse 500
                         ("Error deleting playlist: " ++ e)%string;
             calls := [LookupPlaylist playlist_id; DeletePlaylist playlist] |}
      | Return _ =>
          {| answer := Deleted playlist_id;
             calls := [LookupPlaylist playlist_id; DeletePlaylist playlist] |}
      end
  end.

(** [get_playlist_tracks], past [requires_tidal_auth]; [limit] and
    [offset] are the query parameters, [None] when absent or not
    integers. *)
Definition get_playlist_tracks (playlist_id : string)
    (limit offset : option Z) : served :=
  let limit := bound_limit (default 100%Z limit) 500 in
  let offset := default 0%Z offset in
  let offset := if (offset <? 0)%Z then 0%Z else offset in
  match session_playlist c playlist_id with
  | Raise e =>
      {| answer := ErrorResponse 500
                     ("Error fetching playlist tracks: " ++ e)%string;
         calls := [LookupPlaylist playlist_id] |}
  | Return None =>
      {| answer := not_found playlist_id;
         calls := [LookupPlaylist playlist_id] |}
  | Return (Some playlist) =>
      let total_available := playlist_num_tracks playlist in
      match playlist_items c playlist limit offset with
      | Raise e =>
          {| answer := ErrorResponse 500
                         ("Error fetching playlist tracks: " ++ e)%string;
             calls := [LookupPlaylist playlist_id;
                       PlaylistItems playlist limit offset] |}
      | Return tracks =>
          let track_list := map (fun t => format_track_data t None) tracks in
          {| answer := Tracks (Tidal.playlist_id playlist) track_list
                              (length track_list) total_available offset limit;
             calls := [LookupPlaylist playlist_id;
                       PlaylistItems playlist limit offset] |}
      end
  end.

End WithClient.

(** A call that changes the account. *)
Definition mutation (k : call) : bool :=
  match k with
  | CreatePlaylist _ _ | AddTracks _ _ _ | DeletePlaylist _ => true
  | LookupPlaylist _ | PlaylistItems _ _ _ => false
  end.

End PlaylistRoutes.

(** ** More tools of [src/mcp_server/server.py]:
       [create_playlist_from_songs], [get_favorite_tracks],
       [_get_tidal_recommendations], [recommend_tracks] *)

Module Tools.

Import BatchSearch ToolServer.

(** A response of the backend whose body is read with [response.json()]:
    [Raise] when the body is not JSON. *)
Inductive http (B : Type) : Type :=
| Timeout                          (* requests.exceptions.Timeout *)
| ConnectionError                  (* requests.exceptions.ConnectionError *)
| Exception (e : exn)
| Response (status_code : Z) (json_body : outcome B).
Arguments Timeout {B}.
Arguments ConnectionError {B}.
Arguments Exception {B} e.
Arguments Response {B} status_code json_body.

(** The requests a tool sends, in order. *)
Inductive request : Type :=
| PostSearchBatch (queries : list json) (limit_per_query : Z)
| PostPlaylists (title description : string) (track_ids : list Z)
| GetTracks (limit : Z)
| PostRecommendationsBatch (track_ids : list json) (limit_per_track : Z)
                           (remove_duplicates : bool).

(** *** [create_playlist_from_songs] *)

(** The body of the answer to [POST /api/playlists]: a dict with or
    without ['playlist'], a dict with ['error'], or nothing usable. *)
Inductive playlist_body : Type :=
| PlaylistBody (playlist : option Playlist)
| PlaylistError (error : string)
| PlaylistEmpty.

Record matched_song : Type := {
  ms_query : json;
  matched_track : string;
  matched_artist : string;
  ms_track_id : Z;
  ms_url : string
}.

Inductive playlist_result : Type :=
| PlaylistFailure (message : string) (unmatched_songs : option (list json))
| PlaylistSuccess (title : string) (track_count : nat)
                  (playlist : option Playlist) (playlist_url : string)
                  (matched_songs : list matched_song)
                  (unmatched_songs : list json)
                  (match_rate : nat * nat).

(** The lists built by the loop over the search results. *)
Record matching : Type := {
  track_ids : list Z;
  matched_songs : list matched_song;
  unmatched_songs : list json
}.

(** [result.get("tracks", [])] *)
Definition tracks_of (r : search_result) : list track_data :=
  match r with
  | Hits _ _ (Some tracks) _ _ _ _ => tracks
  | Hits _ _ None _ _ _ _ | ErrorResult _ _ => []
  end.

(** The body of [for result in search_data.get("results", [])]. *)
Definition match_result (m : matching) (r : search_result) : matching :=
  let query := result_query r in
  match tracks_of r with
  | track :: _ =>
      let track_id := id track in
      if negb (track_id =? 0)%Z then
        {| track_ids := track_ids m ++ [track_id];
           matched_songs :=
             matched_songs m ++
               [{| ms_query := query; matched_track := title track;
                   matched_artist := artist track; ms_track_id := track_id;
                   ms_url := url track |}];
           unmatched_songs := unmatched_songs m |}
      else m
  | [] =>
      {| track_ids := track_ids m; matched_songs := matched_songs m;
         unmatched_songs := unmatched_songs m ++ [query] |}
  end.

(** The identifier that a result contributes to [track_ids]: that of its
    first track, unless it is 0. *)
Definition contributed (r : search_result) : option Z :=
  match tracks_of r with
  | track :: _ => if negb (id track =? 0)%Z then Some (id track) else None
  | [] => None
  end.

(** A result without tracks: its query goes to [unmatched_songs]. *)
Definition without_tracks (r : search_result) : bool :=
  match tracks_of r with
  | [] => true
  | _ :: _ => false
  end.

Definition match_results (results : list search_result) : matching :=
  fold_left match_result results
    {| track_ids := []; matched_songs := []; unmatched_songs := [] |}.

(** [[{"query": s, "type": "track"} for s in song_descriptions if s]] *)
Definition song_queries (song_descriptions : list json) : list json :=
  map (fun s => JDict [("query", s); ("type", JStr "track")])
      (List.filter truthy song_descriptions).

(** [f"https://tidal.com/playlist/{playlist_info.get('id')}"] *)
Definition playlist_url_of (playlist : option Playlist) : string :=
  ("https://tidal.com/playlist/"
     ++ match playlist with
        | Some p => Tidal.playlist_id p
        | None => "None"
        end)%string.

Section CreateFromSongs.

Variable post_search : list json -> Z -> http_result.
Variable post_playlists : string -> string -> list Z -> http playlist_body.

Definition create_playlist_from_songs (title : string)
    (song_descriptions : json) (description : string)
  : playlist_result * list request :=
  if (title =? "")%string then
    (PlaylistFailure "Playlist title is required" None, [])
  else
    match song_descriptions with
    | JList songs =>
        if negb (truthy song_descriptions) then
          (PlaylistFailure "song_descriptions must be a non-empty list" None, [])
        else if (100 <? length songs)%nat then
          (PlaylistFailure "Maximum 100 songs per playlist creation" None, [])
        else
          let queries := song_queries songs in
          let sent := [PostSearchBatch queries 1] in
          match post_search queries 1 with
          | HttpTimeout =>
              (PlaylistFailure "Request timed out. Try with fewer songs." None,
               sent)
          | HttpConnectionError =>
              (PlaylistFailure "Cannot connect to TIDAL backend service." None,
               sent)
          | HttpException e =>
              (PlaylistFailure ("Failed to create playlist: " ++ e)%string None,
               sent)
          | HttpResponse status_code json_body =>
              if (status_code =? 401)%Z then
                (PlaylistFailure
                   "Not authenticated with TIDAL. Please login first using tidal_login()."
                   None, sent)
              else if negb (status_code =? 200)%Z then
                (PlaylistFailure
                   ("Failed to search for songs: "
                      ++ match _safe_json json_body with
                         | BodyError e => e
                         | _ => ("HTTP " ++ str_of_Z status_code)%string
                         end)%string None, sent)
              else
                match _safe_json json_body with
                | BodyEmpty =>
                    (PlaylistFailure
                       "Empty response from search - Flask may have crashed"
                       None, sent)
                | search_data =>
                    let results :=
                      match search_data with
                      | BodyResults results _ => results
                      | _ => []
                      end in
                    let m := match_results results in
                    match track_ids m with
                    | [] =>
                        (PlaylistFailure
                           "Could not find any matching tracks on TIDAL"
                           (Some (unmatched_songs m)), sent)
                    | _ :: _ =>
                        let sent :=
                          sent ++ [PostPlaylists title description (track_ids m)] in
                        match post_playlists title description (track_ids m) with
                        | Timeout =>
                            (PlaylistFailure
                               "Request timed out. Try with fewer songs." None,
                             sent)
                        | ConnectionError =>
                            (PlaylistFailure
                               "Cannot connect to TIDAL backend service." None,
                             sent)
                        | Exception e =>
                            (PlaylistFailure
                               ("Failed to create playlist: " ++ e)%string None,
                             sent)
                        | Response status_code json_body =>
                            let body :=
                              match json_body with
                              | Return b => b
                              | Raise _ => PlaylistEmpty
                              end in
                            if (status_code =? 401)%Z then
                              (PlaylistFailure
                                 "Not authenticated with TIDAL. Please login first using tidal_login()."
                                 None, sent)
                            else if negb (status_code =? 200)%Z then
                              (PlaylistFailure
                                 ("Failed to create playlist: "
                                    ++ match body with
                                       | PlaylistError e => e
                                       | _ => ("HTTP " ++ str_of_Z status_code)%string
                                       end)%string None, sent)
                            else
                              match body with
                              | PlaylistEmpty =>
                                  (PlaylistFailure
                                     "Empty response from playlist creation - Flask may have crashed"
                                     None, sent)
                              | PlaylistError _ =>
                                  (PlaylistSuccess title (length (track_ids m))
                                     None (playlist_url_of None)
                                     (matched_songs m) (unmatched_songs m)
                                     (length (matched_songs m), length songs),
                                   sent)
                              | PlaylistBody playlist =>
                                  (PlaylistSuccess title (length (track_ids m))
                                     playlist (playlist_url_of playlist)
                                     (matched_songs m) (unmatched_songs m)
                                     (length (matched_songs m), length songs),
                                   sent)
                              end
                        end
                    end
                end
          end
    | _ => (PlaylistFailure "song_descriptions must be a non-empty list" None, [])
    end.

End CreateFromSongs.

(** The identifier of the first track the client finds for a song, as
    the batch search asks for it: a track search with limit 1, made for
    the item at position [i]. *)
Definition best_match
    (search : nat -> json -> option (list model) -> json -> outcome search_results)
    (i : nat) (song : json) : option Z :=
  match search i song (Some [TrackModel]) (JNum 1) with
  | Return results =>
      match sr_tracks results with
      | t :: _ => Some (track_id t)
      | [] => None
      end
  | Raise _ => None
  end.

(** What the tool collects for the song at position [i] of the songs it
    asks for: the identifier found, unless it is 0 ([if track_id]). *)
Definition found_id
    (search : nat -> json -> option (list model) -> json -> outcome search_results)
    (i : nat) (song : json) : option Z :=
  match best_match search i song with
  | Some n => if (n =? 0)%Z then None else Some n
  | None => None
  end.

(** The song at position [i] goes to the unmatched ones: the client
    raised or found no track. *)
Definition not_found
    (search : nat -> json -> option (list model) -> json -> outcome search_results)
    (i : nat) (song : json) : option json :=
  match best_match search i song with
  | Some _ => None
  | None => Some song
  end.

(** A result that is an error dict. *)
Definition is_failure (r : playlist_result) : Prop :=
  match r with
  | PlaylistFailure _ _ => True
  | PlaylistSuccess _ _ _ _ _ _ _ => False
  end.

(** *** [get_favorite_tracks], [_get_tidal_recommendations],
        [recommend_tracks] *)

(** Bodies of [GET /api/tracks] and [POST /api/recommendations/batch]:
    the list under ['tracks'] or ['recommendations'] when the key is
    there, the text under ['error'] when that key is there. *)
Record tracks_body : Type := {
  listed : option (list track_data);
  error : option string
}.

(** The dict a tool returns. *)
Inductive tracks_result : Type :=
| TracksFailure (message : string)
| TracksData (body : tracks_body).

Inductive recommendations_result : Type :=
| RecommendationsFailure (message : string)
| RawRecommendations (recommendations : list track_data) (total_count : nat)
                     (filter_criteria : option string)
| Recommended (seed_tracks : list track_data) (seed_track_ids : list json)
              (recommendations : list track_data)
              (filter_criteria : option string) (seed_count : nat).

Section Recommend.

Variable get_tracks : Z -> http tracks_body.
Variable post_recommendations : list json -> Z -> bool -> http tracks_body.

(** [get_favorite_tracks(limit)] *)
Definition get_favorite_tracks (limit : Z) : tracks_result * list request :=
  (match get_tracks limit with
   | Timeout =>
       TracksFailure
         "Request timed out after 15s. The TIDAL backend may be unresponsive."
   | ConnectionError =>
       TracksFailure
         "Cannot connect to TIDAL backend service. The MCP server may need to be restarted."
   | Exception e =>
       TracksFailure ("Failed to connect to TIDAL tracks service: " ++ e)%string
   | Response status_code json_body =>
       if (status_code =? 200)%Z then
         match json_body with
         | Return body => TracksData body
         | Raise e =>
             TracksFailure
               ("Failed to connect to TIDAL tracks service: " ++ e)%string
         end
       else if (status_code =? 401)%Z then
         TracksFailure
           "Not authenticated with TIDAL. Please login first using tidal_login()."
       else
         match json_body with
         | Return body =>
             TracksFailure
               ("Failed to retrieve tracks: "
                  ++ default "Unknown error" (error body))%string
         | Raise e =>
             TracksFailure
               ("Failed to connect to TIDAL tracks service: " ++ e)%string
         end
   end, [GetTracks limit]).

(** [_get_tidal_recommendations(track_ids, limit_per_track,
    filter_criteria)] for a list of identifiers. *)
Definition _get_tidal_recommendations (track_ids : list json)
    (limit_per_track : Z) (filter_criteria : option string)
  : recommendations_result * list request :=
  match track_ids with
  | [] => (RecommendationsFailure "No track IDs provided for recommendations.", [])
  | _ :: _ =>
      (match post_recommendations track_ids limit_per_track true with
       | Timeout =>
           RecommendationsFailure
             "Recommendations request timed out. Try with fewer seed tracks."
       | ConnectionError =>
           RecommendationsFailure
             "Cannot connect to TIDAL backend service. The MCP server may need to be restarted."
       | Exception e =>
           RecommendationsFailure ("Failed to get recommendations: " ++ e)%string
       | Response status_code json_body =>
           match json_body with
           | Raise e =>
               RecommendationsFailure
                 ("Failed to get recommendations: " ++ e)%string
           | Return body =>
               if negb (status_code =? 200)%Z then
                 RecommendationsFailure
                   ("Failed to get recommendations: "
                      ++ default "Unknown error" (error body))%string
               else
                 let recommendations := default [] (listed body) in
                 RawRecommendations recommendations (length recommendations)
                   (match filter_criteria with
                    | Some f => if (f =? "")%string then None else Some f
                    | None => None
                    end)
           end
       end, [PostRecommendationsBatch track_ids limit_per_track true])
  end.

(** [recommend_tracks(track_ids, filter_criteria, limit_per_track,
    limit_from_favorite)]; [track_ids] is [None] for Python's [None]. *)
Definition recommend_tracks (track_ids : option (list json))
    (filter_criteria : option string)
    (limit_per_track limit_from_favorite : Z)
  : recommendations_result * list request :=
  let seeds : (recommendations_result + list track_data * list json)
              * list request :=
    match track_ids with
    | Some (id0 :: ids) => (inr ([], id0 :: ids), [])
    | Some [] | None =>
        let '(tracks_response, sent) := get_favorite_tracks limit_from_favorite in
        match tracks_response with
        | TracksFailure message =>
            (inl (RecommendationsFailure
                    ("Unable to get favorite tracks for recommendations: "
                       ++ message)%string), sent)
        | TracksData body =>
            match default [] (listed body) with
            | [] =>
                (inl (RecommendationsFailure
                        "I couldn't find any favorite tracks in your TIDAL account to use as seeds for recommendations."),
                 sent)
            | favorite_tracks =>
                (inr (favorite_tracks,
                      map (fun track => JNum (id track)) favorite_tracks),
                 sent)
            end
        end
    end in
  match seeds with
  | (inl failure, sent) => (failure, sent)
  | (inr (seed_tracks_info, seed_track_ids), sent) =>
      let '(recommendations_response, sent') :=
        _get_tidal_recommendations seed_track_ids limit_per_track
          filter_criteria in
      (match recommendations_response with
       | RecommendationsFailure message =>
           RecommendationsFailure
             ("Unable to get recommendations: " ++ message)%string
       | RawRecommendations [] _ _ =>
           RecommendationsFailure
             "I couldn't find any recommendations based on the provided tracks. Please try again with different tracks or adjust your filtering criteria."
       | RawRecommendations recommendations _ _ =>
           Recommended seed_tracks_info seed_track_ids recommendations
             filter_criteria (length seed_track_ids)
       | Recommended _ _ _ _ _ => recommendations_response
       end, sent ++ sent')
  end.

End Recommend.

(** The backend route behind [POST /api/recommendations/batch], for an
    authenticated session and a given order of completion. *)
Definition recommendations_backend
    (session_track : json -> outcome Track)
    (get_track_radio : Track -> json -> outcome (list Track))
    (completion : list nat)
    (track_ids : list json) (limit_per_track : Z) (remove_duplicates : bool)
  : http tracks_body :=
  match
    Recommendations.get_batch_recommendations session_track get_track_radio
      completion
      (Return (JDict [("track_ids", JList track_ids);
                      ("limit_per_track", JNum limit_per_track);
                      ("remove_duplicates", JBool remove_duplicates)]))
  with
  | Recommendations.RecommendationsResponse recs =>
      Response 200 (Return {| listed := Some recs; error := None |})
  | Recommendations.ErrorResponse status e =>
      Response status (Return {| listed := None; error := Some e |})
  end.

(** A formatted track comes from the radio of one of the seeds [ids]:
    the client returned the seed's track and its radio at [limit], and
    the entry is the formatted form of a track of that radio, tagged
    with the seed. *)
Definition from_radio_of
    (session_track : json -> outcome Track)
    (get_track_radio : Track -> json -> outcome (list Track))
    (limit : json) (ids : list json) (d : track_data) : Prop :=
  exists seed track radio r,
    seed ∈ ids /\ session_track seed = Return track /\
    get_track_radio track limit = Return radio /\ r ∈ radio /\
    d = format_track_data r (Some seed).

End Tools.

(** ** Sample worlds and states *)

Module Samples.

(** A lowering that leaves the texts outside ASCII as they are, for the
    samples that hold ASCII texts only. *)
Definition unicode_unchanged : UnicodeLower := fun s => s.

(** The Kelvin sign U+212A, in UTF-8, and a lowering that takes it to
    [k] as [str.lower()] does. *)
Definition kelvin_sign : string :=
  String (Ascii.ascii_of_nat 226)
    (String (Ascii.ascii_of_nat 132) (String (Ascii.ascii_of_nat 170) "")).

Definition lowers_kelvin_sign : UnicodeLower :=
  fun s => if (s =? "trac" ++ kelvin_sign)%string then "track" else s.

(** Sessions are numbered; the credential file validates to session 7. *)
Definition file_valid_at_400 : SessionCache.world nat :=
  {| SessionCache.time_time := 400;
     SessionCache.session_file_exists := true;
     SessionCache.new_BrowserSession := Return 7%nat;
     SessionCache.login_session_file_auto := fun _ => Return true |}.

Definition file_missing_at_400 : SessionCache.world nat :=
  {| SessionCache.time_time := 400;
     SessionCache.session_file_exists := false;
     SessionCache.new_BrowserSession := Return 7%nat;
     SessionCache.login_session_file_auto := fun _ => Return true |}.

Definition file_corrupt_at_400 : SessionCache.world nat :=
  {| SessionCache.time_time := 400;
     SessionCache.session_file_exists := true;
     SessionCache.new_BrowserSession := Return 7%nat;
     SessionCache.login_session_file_auto :=
       fun _ => Raise "Expecting value: line 1 column 1 (char 0)" |}.

Definition validated_at_200 : SessionCache.cache nat :=
  {| SessionCache._cached_session := Some 3%nat;
     SessionCache._session_last_validated := 200 |}.

Definition validated_at_100 : SessionCache.cache nat :=
  {| SessionCache._cached_session := Some 3%nat;
     SessionCache._session_last_validated := 100 |}.

(** Launching works for a program given by its path; the bare name [uv]
    is not found. *)
Definition starts_unless_bare_uv (argv : list string) : outcome unit :=
  match argv with
  | program :: _ =>
      if (program =? "uv")%string
      then Raise "[Errno 2] No such file or directory: 'uv'"
      else Return tt
  | [] => Raise "list index out of range"
  end.

(** A child that does not react to SIGTERM and whose death by SIGKILL is
    only seen at the fifth status query. *)
Definition stubborn_child : Supervisor.world :=
  {| Supervisor.subprocess_Popen := starts_unless_bare_uv;
     Supervisor.FLASK_APP_PATH := "/srv/tidal_api/app.py";
     Supervisor.time_time := fun k => inject_Z (Z.of_nat k);
     Supervisor.child_status :=
       fun k => if (k <? 4)%nat then None else Some (-9)%Z;
     Supervisor.connect_ex := fun _ => Supervisor.Connect 111%Z |}.

(** A child that exits on SIGTERM within the grace period. *)
Definition obedient_child : Supervisor.world :=
  {| Supervisor.subprocess_Popen := starts_unless_bare_uv;
     Supervisor.FLASK_APP_PATH := "/srv/tidal_api/app.py";
     Supervisor.time_time := fun k => inject_Z (Z.of_nat k);
     Supervisor.child_status :=
       fun k => if (k <? 1)%nat then None else Some (-15)%Z;
     Supervisor.connect_ex := fun _ => Supervisor.Connect 111%Z |}.

(** Startup: the port opens at the third attempt; the child crashes
    before the third poll; nothing ever happens. *)
Definition port_opens_third : Supervisor.world :=
  {| Supervisor.subprocess_Popen := starts_unless_bare_uv;
     Supervisor.FLASK_APP_PATH := "/srv/tidal_api/app.py";
     Supervisor.time_time := fun k => inject_Z (Z.of_nat k);
     Supervisor.child_status := fun _ => None;
     Supervisor.connect_ex :=
       fun k => if (k <? 2)%nat then Supervisor.Connect 111%Z
                else Supervisor.Connect 0%Z |}.

Definition child_crashes_third : Supervisor.world :=
  {| Supervisor.subprocess_Popen := starts_unless_bare_uv;
     Supervisor.FLASK_APP_PATH := "/srv/tidal_api/app.py";
     Supervisor.time_time := fun k => inject_Z (Z.of_nat k);
     Supervisor.child_status :=
       fun k => if (k <? 2)%nat then None else Some 1%Z;
     Supervisor.connect_ex := fun _ => Supervisor.Connect 111%Z |}.

Definition never_ready : Supervisor.world :=
  {| Supervisor.subprocess_Popen := starts_unless_bare_uv;
     Supervisor.FLASK_APP_PATH := "/srv/tidal_api/app.py";
     Supervisor.time_time := fun k => inject_Z (Z.of_nat k);
     Supervisor.child_status := fun _ => None;
     Supervisor.connect_ex := fun _ => Supervisor.SocketError |}.

(** The port number is above 65535: the first connection attempt raises
    [OverflowError]. *)
Definition port_out_of_range : Supervisor.world :=
  {| Supervisor.subprocess_Popen := starts_unless_bare_uv;
     Supervisor.FLASK_APP_PATH := "/srv/tidal_api/app.py";
     Supervisor.time_time := fun k => inject_Z (Z.of_nat k);
     Supervisor.child_status := fun _ => None;
     Supervisor.connect_ex :=
       fun _ => Supervisor.OtherException
                  "connect_ex(): port must be 0-65535." |}.

(** Both tools are on the search path; nothing is installed anywhere;
    [uv] is only in [/usr/local/bin]. *)
Definition tools_in_path : Executables.filesystem :=
  {| Executables.which :=
       fun name =>
         if (name =? "tdn")%string then Some "/usr/bin/tdn"
         else if (name =? "uv")%string then Some "/usr/bin/uv"
         else None;
     Executables.expanduser := fun p => p;
     Executables.glob := fun _ => [];
     Executables.isfile := fun _ => false;
     Executables.access_X_OK := fun _ => false |}.

Definition nothing_installed : Executables.filesystem :=
  {| Executables.which := fun _ => None;
     Executables.expanduser := fun p => p;
     Executables.glob := fun _ => [];
     Executables.isfile := fun _ => false;
     Executables.access_X_OK := fun _ => false |}.

Definition uv_in_usr_local : Executables.filesystem :=
  {| Executables.which := fun _ => None;
     Executables.expanduser := fun p => p;
     Executables.glob := fun _ => [];
     Executables.isfile := fun p => (p =? "/usr/local/bin/uv")%string;
     Executables.access_X_OK := fun _ => true |}.

(** A client that finds one track for every query, except for the item
    at position 1 of a batch, where the search raises. *)
Definition some_track (n : Z) : Track :=
  {| track_id := n; track_name := "Song"; track_artist := None;
     track_album := None; track_duration := 180 |}.

Definition found (n : Z) : BatchSearch.search_results :=
  {| BatchSearch.sr_tracks := [some_track n];
     BatchSearch.sr_albums := []; BatchSearch.sr_artists := [];
     BatchSearch.sr_playlists := []; BatchSearch.sr_top_hit := None |}.

Definition second_item_fails (i : nat) (q : json)
    (models : option (list BatchSearch.model)) (limit : json)
  : outcome BatchSearch.search_results :=
  if (i =? 1)%nat then Raise "503 Server Error" else Return (found (Z.of_nat i)).

Definition always_found (i : nat) (q : json)
    (models : option (list BatchSearch.model)) (limit : json)
  : outcome BatchSearch.search_results :=
  Return (found (Z.of_nat i)).

Definition no_repr (v : json) : string := "".

Definition three_queries : list json :=
  [JStr "a"; JDict [("query", JStr "b"); ("type", JStr "track")]; JStr "c"].

(** Four submitted items, two of which the tool does not accept. *)
Definition mixed_queries : list json :=
  [JStr "a"; JNum 5; JDict [("query", JStr "")];
   JDict [("query", JStr "b")]].

Definition unusable_queries : list json :=
  [JNum 5; JNull; JDict [("type", JStr "album")]].

(** Two seeds whose radios share track 20; seed 1 completes first. *)
Definition seed_track (track_id : json) : outcome Track :=
  match track_id with
  | JNum n => Return (some_track n)
  | _ => Raise "Track not found"
  end.

Definition radio (track : Track) (limit : json) : outcome (list Track) :=
  if (track_id track =? 1)%Z then Return [some_track 10; some_track 20]
  else if (track_id track =? 2)%Z then Return [some_track 20; some_track 30]
  else Raise "404 Not Found".

Definition two_seeds : list json := [JNum 1; JNum 2].

Definition second_seed_first : list nat := [1; 0]%nat.

(** Two playlists, the second without a last-updated value. *)
Definition some_playlist (name : string) (updated : option Z) : Playlist :=
  {| playlist_id := name; playlist_name := name;
     playlist_description := ""; playlist_created := None;
     playlist_last_updated := updated;
     playlist_num_tracks := 0; playlist_duration := 0 |}.

Definition one_without_timestamp : list Playlist :=
  [some_playlist "a" (Some 1700000000%Z); some_playlist "b" None].

Definition all_with_timestamps : list Playlist :=
  [some_playlist "a" (Some 1%Z); some_playlist "b" (Some 3%Z);
   some_playlist "c" (Some 1%Z); some_playlist "d" (Some 2%Z)].

End Samples.

(** ** More sample worlds *)

Module Scenarios.

Import Samples.

#[local] Existing Instance unicode_unchanged.

(** Runs of the download tool: one that succeeds, one that exits with 1. *)
Definition run_succeeds (argv : list string) (timeout : Z)
  : Downloads.run_outcome :=
  Downloads.Completed 0 "saved" "".

Definition run_exits_1 (argv : list string) (timeout : Z)
  : Downloads.run_outcome :=
  Downloads.Completed 1 "" "no such track".

(** A client of the single search that finds one track. *)
Definition search_finds (query : string)
    (models : option (list BatchSearch.model)) (limit : Z)
  : outcome BatchSearch.search_results :=
  Return (found 7).

(** An account with one playlist, ["p1"], of two tracks; creating a
    playlist works, adding tracks to a new one fails. *)
Definition add_fails : PlaylistRoutes.client :=
  {| PlaylistRoutes.user_create_playlist :=
       fun _ _ => Return (some_playlist "new" None);
     PlaylistRoutes.session_playlist :=
       fun playlist_id =>
         if (playlist_id =? "p1")%string
         then Return (Some (some_playlist "p1" (Some 5%Z)))
         else Return None;
     PlaylistRoutes.playlist_add := fun _ _ _ => Raise "404 Not Found";
     PlaylistRoutes.playlist_delete := fun _ => Return tt;
     PlaylistRoutes.playlist_items :=
       fun _ _ _ => Return [some_track 1; some_track 2] |}.

(** The backend of the tools: the batch search in front of a client that
    finds track [i] for the item at position [i], and a playlist route
    that answers with the playlist created. *)
Definition backend_search : list json -> Z -> ToolServer.http_result :=
  ToolServer.post_to_backend always_found no_repr.

Definition playlist_created (title description : string) (track_ids : list Z)
  : Tools.http Tools.playlist_body :=
  Tools.Response 200
    (Return (Tools.PlaylistBody (Some (some_playlist "new" None)))).

Definition three_songs : list json := [JStr "a"; JStr ""; JStr "b"].

(** Two results of a batch: an error, and one track found. *)
Definition two_results : list BatchSearch.search_result :=
  [BatchSearch.ErrorResult (JStr "x") "503 Server Error";
   BatchSearch.hits_of (JStr "y") (JStr "track") (found 7)].

(** The favourites hold track 1; the recommendations are served by the
    batch route over the sample radios. *)
Definition one_favorite (limit : Z) : Tools.http Tools.tracks_body :=
  Tools.Response 200
    (Return {| Tools.listed :=
                 Some [format_track_data (some_track 1) None];
               Tools.error := None |}).

Definition radio_backend (completion : list nat)
  : list json -> Z -> bool -> Tools.http Tools.tracks_body :=
  Tools.recommendations_backend seed_track radio completion.

End Scenarios.


(** ** Proof automation *)

(** [simpl] shows [omap] on a list under its instance name; put the
    overloaded name back. *)
Ltac fold_omap :=
  repeat match goal with
  | |- context [list_omap ?A ?B ?f ?l] =>
      change (list_omap A B f l) with (omap f l)
  | H : context [list_omap ?A ?B ?f ?l] |- _ =>
      change (list_omap A B f l) with (omap f l) in H
  end.

(** * Properties *)

Lemma Qltb_lt (x y : Q) : Qltb x y = true <-> (x < y)%Q.
Proof.
  unfold Qltb. rewrite negb_true_iff, <- not_true_iff_false, Qle_bool_iff.
  split; [apply Qnot_le_lt | apply Qlt_not_le].
Qed.

Lemma Qltb_ge (x y : Q) : Qltb x y = false <-> (y <= x)%Q.
Proof.
  unfold Qltb. rewrite negb_false_iff. apply Qle_bool_iff.
Qed.

(** ** Session cache *)

Section SessionCacheFacts.

Import SessionCache.

Context {BrowserSession : Type}.
Implicit Types (w : world BrowserSession) (c : cache BrowserSession).

Lemma cache_fresh_true w c :
  cache_fresh c (time_time w) = true <->
  exists s, _cached_session c = Some s /\
            (time_time w - _session_last_validated c < SESSION_CACHE_TTL)%Q.
Proof.
  unfold cache_fresh. destruct (_cached_session c) as [s|].
  - rewrite Qltb_lt. split; [eauto | intros (? & _ & H); exact H].
  - split; [discriminate | intros (? & H & _); discriminate].
Qed.

Lemma cache_fresh_false w c :
  cache_fresh c (time_time w) = false <->
  _cached_session c = None \/
  (SESSION_CACHE_TTL <= time_time w - _session_last_validated c)%Q.
Proof.
  unfold cache_fresh. destruct (_cached_session c) as [s|].
  - rewrite Qltb_ge. split; [auto | intros [H|H]; [discriminate | exact H]].
  - split; auto.
Qed.

(** A call that finds the cache fresh touches nothing. *)
Lemma get_or_create_session_hit w c :
  cache_fresh c (time_time w) = true ->
  get_or_create_session w c
  = {| result := Return (_cached_session c); after := c; trace := [] |}.
Proof. intros H. unfold get_or_create_session. now rewrite H. Qed.

(** A call that does not find the cache fresh goes to the credential
    file; what it returns and stores is decided there. *)
Lemma get_or_create_session_miss w c :
  cache_fresh c (time_time w) = false ->
  let r := get_or_create_session w c in
  exists evs, trace r = FileExists :: evs /\
  (session_file_exists w = true -> In NewSession evs) /\
  (session_file_exists w = true ->
   (exists s, new_BrowserSession w = Return s) -> In LoginSessionFile evs) /\
  ((exists s, session_file_exists w = true /\
              new_BrowserSession w = Return s /\
              login_session_file_auto w s = Return true /\
              result r = Return (Some s) /\
              after r = {| _cached_session := Some s;
                           _session_last_validated := time_time w |} /\
              In LoginSessionFile evs)
   \/
   (result r = Return None /\
    after r = {| _cached_session := None;
                 _session_last_validated := _session_last_validated c |} /\
    (session_file_exists w = false \/
     (exists e, new_BrowserSession w = Raise e) \/
     (exists s, new_BrowserSession w = Return s /\
                login_session_file_auto w s <> Return true)))).
Proof.
  intros H. unfold get_or_create_session. rewrite H.
  destruct (session_file_exists w); simpl.
  - unfold validate.
    destruct (new_BrowserSession w) as [s|e]; simpl.
    + destruct (login_session_file_auto w s) as [[|]|e'] eqn:Hl; simpl;
        (eexists; split; [reflexivity|]);
        (split; [intros _; simpl; auto|]);
        (split; [intros _ _; simpl; auto|]).
      * left. exists s. rewrite Hl. repeat split; simpl; auto.
      * right. repeat split. right; right. exists s. split; [reflexivity|]. rewrite Hl. discriminate.
      * right. repeat split. right; right. exists s. split; [reflexivity|]. rewrite Hl. discriminate.
    + eexists; split; [reflexivity|].
      split; [intros _; simpl; auto|].
      split; [intros _ (s & Hs); discriminate|].
      right. repeat split. right; left. eauto.
  - exists []. split; [reflexivity|].
    split; [discriminate|]. split; [discriminate|].
    right. repeat split. now left.
Qed.


(** What a call that cannot answer from the cache does. *)
Lemma session_cache_ttl_aux w c :
  _cached_session c = None \/
  (SESSION_CACHE_TTL <= time_time w - _session_last_validated c)%Q ->
  let r := get_or_create_session w c in
  (exists evs, trace r = FileExists :: evs) /\
  (session_file_exists w = true -> In NewSession (trace r)) /\
  (session_file_exists w = true ->
   (exists s, new_BrowserSession w = Return s) -> validated r) /\
  (forall s, result r = Return (Some s) ->
     trace r = [FileExists; NewSession; LoginSessionFile] /\
     new_BrowserSession w = Return s /\
     login_session_file_auto w s = Return true /\
     after r = {| _cached_session := Some s;
                  _session_last_validated := time_time w |}) /\
  (forall s, session_file_exists w = true ->
     new_BrowserSession w = Return s ->
     login_session_file_auto w s = Return true ->
     result r = Return (Some s) /\
     after r = {| _cached_session := Some s;
                  _session_last_validated := time_time w |}).
Proof.
  intros Hstale r. apply cache_fresh_false in Hstale.
  subst r. unfold validated, get_or_create_session. rewrite Hstale.
  destruct (session_file_exists w); simpl.
  - unfold validate.
    destruct (new_BrowserSession w) as [s0|e]; simpl.
    + destruct (login_session_file_auto w s0) as [[|]|e'] eqn:Hl; simpl;
        (split; [eauto|]); (split; [auto|]); (split; [auto|]);
        (split; [intros s [= <-] || intros s [=]; auto
                | intros s _ [= <-]; rewrite Hl; intros [=]; auto ]).
    + (split; [eauto|]); (split; [auto|]).
      split; [intros _ (s & [=])|].
      split; [intros s [=] | intros s _ [=]].
  - split; [eauto|]. split; [discriminate|]. split; [discriminate|].
    split; [intros s [=] | intros s [=]].
Qed.

(** C1. Within the TTL the cached session is handed back as it is and the
    credential file is not touched.  Once the TTL has passed, or with
    nothing cached, the call goes to the credential file first: a session
    is returned only after [BrowserSession()] and
    [login_session_file_auto] have run on the file and accepted it, and
    then the cache entry and its timestamp are replaced in one step. *)
Theorem session_cache_ttl w c :
  let r := get_or_create_session w c in
  (forall s, _cached_session c = Some s ->
     (time_time w - _session_last_validated c < SESSION_CACHE_TTL)%Q ->
     result r = Return (Some s) /\ after r = c /\ trace r = [])
  /\
  (_cached_session c = None \/
   (SESSION_CACHE_TTL <= time_time w - _session_last_validated c)%Q ->
     (exists evs, trace r = FileExists :: evs) /\
     (session_file_exists w = true -> In NewSession (trace r)) /\
     (session_file_exists w = true ->
      (exists s, new_BrowserSession w = Return s) -> validated r) /\
     (forall s, result r = Return (Some s) ->
        trace r = [FileExists; NewSession; LoginSessionFile] /\
        new_BrowserSession w = Return s /\
        login_session_file_auto w s = Return true /\
        after r = {| _cached_session := Some s;
                     _session_last_validated := time_time w |}) /\
     (forall s, session_file_exists w = true ->
        new_BrowserSession w = Return s ->
        login_session_file_auto w s = Return true ->
        result r = Return (Some s) /\
        after r = {| _cached_session := Some s;
                     _session_last_validated := time_time w |})).
Proof.
  intros r. split.
  - intros s Hs Hlt.
    assert (Hf : cache_fresh c (time_time w) = true)
      by (apply cache_fresh_true; eauto).
    subst r. rewrite (get_or_create_session_hit _ _ Hf). simpl. now rewrite Hs.
  - intros Hstale. exact (session_cache_ttl_aux w c Hstale).
Qed.

(** C4. The call never raises.  When it has to go to the credential file
    and the file is missing, or [BrowserSession()] or
    [login_session_file_auto] raises (a file that does not parse, a
    validation that fails), or the login answers [False], the cached
    entry is cleared and [None] is returned; a route behind
    [requires_tidal_auth] then answers "not authenticated". *)
Theorem session_failure_is_no_session w c :
  let r := get_or_create_session w c in
  (exists o, result r = Return o) /\
  (cache_fresh c (time_time w) = false ->
   session_file_exists w = false \/
   (exists e, new_BrowserSession w = Raise e) \/
   (exists s, new_BrowserSession w = Return s /\
              login_session_file_auto w s <> Return true) ->
   result r = Return None /\
   _cached_session (after r) = None /\
   forall (Response : Type) (not_authenticated : Response)
          (route : BrowserSession -> Response),
     requires_tidal_auth not_authenticated route None = not_authenticated).
Proof.
  intros r. split.
  - destruct (cache_fresh c (time_time w)) eqn:Hf.
    + subst r. rewrite (get_or_create_session_hit _ _ Hf). simpl. eauto.
    + destruct (get_or_create_session_miss w c Hf)
        as (evs & _ & _ & _ & [(s & _ & _ & _ & Hr & _)|(Hr & _)]);
        fold r in Hr; rewrite Hr; eauto.
  - intros Hf Hfail.
    destruct (get_or_create_session_miss w c Hf)
      as (evs & _ & _ & _ & [(s & Hex & Hnew & Hlog & _)|(Hr & Ha & _)]).
    + exfalso. destruct Hfail as [Hno|[(e & He)|(s' & Hs' & Hbad)]].
      * congruence.
      * congruence.
      * rewrite Hnew in Hs'. injection Hs' as <-. contradiction.
    + fold r in Hr, Ha. rewrite Hr, Ha. simpl. auto.
Qed.

(** C7. [invalidate_session_cache] empties the entry and resets the
    timestamp in one step, and the call that follows never answers from
    the cache, whatever the time: it goes to the credential file, and
    returns a session only if the file is validated anew. *)
Theorem invalidate_forces_revalidation w c :
  let c' := invalidate_session_cache c in
  let r := get_or_create_session w c' in
  c' = {| _cached_session := None; _session_last_validated := 0 |} /\
  cache_fresh c' (time_time w) = false /\
  (exists evs, trace r = FileExists :: evs) /\
  (session_file_exists w = true -> In NewSession (trace r)) /\
  (session_file_exists w = true ->
   (exists s, new_BrowserSession w = Return s) -> validated r) /\
  (forall s, result r = Return (Some s) ->
     trace r = [FileExists; NewSession; LoginSessionFile] /\
     login_session_file_auto w s = Return true /\
     after r = {| _cached_session := Some s;
                  _session_last_validated := time_time w |}).
Proof.
  intros c' r.
  assert (Hstale : _cached_session c' = None \/
            (SESSION_CACHE_TTL <= time_time w - _session_last_validated c')%Q)
    by (left; reflexivity).
  destruct (session_cache_ttl_aux w c' Hstale) as (H1 & H2 & H3 & H4 & _).
  split; [reflexivity|]. split; [reflexivity|].
  split; [exact H1|]. split; [exact H2|]. split; [exact H3|].
  intros s Hs. destruct (H4 s Hs) as (Ht & _ & Hl & Ha). auto.
Qed.

End SessionCacheFacts.

Section SessionCacheRuns.

Import SessionCache Samples.

Lemma session_cache_ttl_witness :
  (result (get_or_create_session file_valid_at_400 validated_at_200)
     = Return (Some 3%nat) /\
   after (get_or_create_session file_valid_at_400 validated_at_200)
     = validated_at_200 /\
   trace (get_or_create_session file_valid_at_400 validated_at_200) = []) /\
  (result (get_or_create_session file_valid_at_400 validated_at_100)
     = Return (Some 7%nat) /\
   after (get_or_create_session file_valid_at_400 validated_at_100)
     = {| _cached_session := Some 7%nat; _session_last_validated := 400 |}).
Proof.
  split.
  - apply (proj1 (session_cache_ttl file_valid_at_400 validated_at_200) 3%nat).
    + reflexivity.
    + reflexivity.
  - destruct (proj2 (session_cache_ttl file_valid_at_400 validated_at_100))
      as (_ & _ & _ & _ & H).
    + right. vm_compute. discriminate.
    + apply (H 7%nat); reflexivity.
Defined.

Lemma session_failure_is_no_session_witness :
  result (get_or_create_session file_missing_at_400 validated_at_100)
    = Return None /\
  _cached_session
    (after (get_or_create_session file_missing_at_400 validated_at_100))
    = None /\
  result (get_or_create_session file_corrupt_at_400 validated_at_100)
    = Return None /\
  _cached_session
    (after (get_or_create_session file_corrupt_at_400 validated_at_100))
    = None.
Proof.
  destruct (proj2 (session_failure_is_no_session file_missing_at_400
                     validated_at_100)) as (H1 & H2 & _).
  - reflexivity.
  - left. reflexivity.
  - destruct (proj2 (session_failure_is_no_session file_corrupt_at_400
                       validated_at_100)) as (H3 & H4 & _).
    + reflexivity.
    + right; right. exists 7%nat. split; [reflexivity | discriminate].
    + auto.
Defined.

(** Invalidation inside the TTL: the session validated at 200 would be
    reused at 400, but after [invalidate_session_cache] the file is
    validated again. *)
Example invalidate_within_ttl :
  result (get_or_create_session file_valid_at_400 validated_at_200)
    = Return (Some 3%nat) /\
  trace (get_or_create_session file_valid_at_400 validated_at_200) = [] /\
  result (get_or_create_session file_valid_at_400
            (invalidate_session_cache validated_at_200))
    = Return (Some 7%nat) /\
  trace (get_or_create_session file_valid_at_400
           (invalidate_session_cache validated_at_200))
    = [FileExists; NewSession; LoginSessionFile].
Proof. repeat split. Qed.

End SessionCacheRuns.

(** ** Process supervisor *)

Section SupervisorFacts.

Import Supervisor.

Implicit Types (w : world) (p : popen).

Lemma quiet_until_0 w : quiet_until w 0.
Proof. intros j Hj. lia. Qed.

Lemma quiet_until_S w k :
  quiet_until w k -> in_time w k -> child_status w k = None ->
  refused (connect_ex w k) -> quiet_until w (S k).
Proof.
  intros Hq Ht Hc Hp j Hj.
  destruct (decide (j = k)) as [->|Hne]; [auto|].
  apply Hq. lia.
Qed.

Lemma in_time_dec w k :
  Qltb (time_time w (S k) - time_time w 0) FLASK_STARTUP_TIMEOUT = true
  <-> in_time w k.
Proof. apply Qltb_lt. Qed.

Lemma not_in_time_dec w k :
  Qltb (time_time w (S k) - time_time w 0) FLASK_STARTUP_TIMEOUT = false
  <-> ~ in_time w k.
Proof.
  unfold in_time. rewrite Qltb_ge. split.
  - apply Qle_not_lt.
  - apply Qnot_lt_le.
Qed.

(** Whatever the loop comes to is one of its four exits. *)
Lemma polling_loop_sound w fuel : forall i r p,
  quiet_until w i ->
  polling_loop w (time_time w 0) fuel i (polled i) = Some (r, p) ->
  (exists k, quiet_until w k /\ in_time w k /\ child_status w k = None /\
             connect_ex w k = Connect 0%Z /\
             r = Return true /\ p = polled (S k)) \/
  (exists k code, quiet_until w k /\ in_time w k /\
                  child_status w k = Some code /\
                  r = Raise (exit_message (Some code)) /\
                  p = {| returncode := Some code; status_queries := S k;
                         delivered := [] |}) \/
  (exists k, quiet_until w k /\ ~ in_time w k /\
             r = Return false /\ p = polled k) \/
  (exists k e, quiet_until w k /\ in_time w k /\ child_status w k = None /\
               connect_ex w k = OtherException e /\
               r = Raise e /\ p = polled (S k)).
Proof.
  induction fuel as [|fuel IH]; intros i r p Hq; simpl; [discriminate|].
  destruct (Qltb _ _) eqn:Ht.
  - apply in_time_dec in Ht.
    unfold _check_process_alive, poll; simpl.
    destruct (child_status w i) as [code|] eqn:Hc; simpl.
    + intros [= <- <-]. right; left. exists i, code. auto.
    + destruct (connect_ex w i) as [z| |e] eqn:Hp.
      * destruct z as [|z'|z'].
        -- intros [= <- <-]. left. exists i. auto 10.
        -- intros Hloop. apply (IH (S i)); [|exact Hloop].
           apply quiet_until_S; auto. rewrite Hp. simpl. discriminate.
        -- intros Hloop. apply (IH (S i)); [|exact Hloop].
           apply quiet_until_S; auto. rewrite Hp. simpl. discriminate.
      * intros Hloop. apply (IH (S i)); [|exact Hloop].
        apply quiet_until_S; auto. rewrite Hp. exact I.
      * intros [= <- <-]. right; right; right. exists i, e. auto 10.
  - apply not_in_time_dec in Ht.
    intros [= <- <-]. right; right; left. exists i. auto.
Qed.

(** The loop is over by the first test that finds the timeout reached. *)
Lemma polling_loop_terminates w start n : forall fuel i p,
  (i <= n)%nat ->
  Qltb (time_time w (S n) - start) FLASK_STARTUP_TIMEOUT = false ->
  (n - i < fuel)%nat ->
  polling_loop w start fuel i p <> None.
Proof.
  induction fuel as [|fuel IH]; intros i p Hin Hn Hfuel; [lia|].
  simpl.
  destruct (Qltb (time_time w (S i) - start) FLASK_STARTUP_TIMEOUT) eqn:Ht;
    [|discriminate].
  assert (i <> n) by (intros ->; congruence).
  destruct (_check_process_alive w p) as [alive p1].
  destruct alive; simpl; [|discriminate].
  destruct (connect_ex w i) as [[|z|z]| |e]; try discriminate;
    apply IH; auto; lia.
Qed.

Lemma clock_lower_bound w :
  clock_advances w ->
  forall i, (time_time w 0 + inject_Z (Z.of_nat i) * (1 # 2)
             <= time_time w (S i))%Q.
Proof.
  intros [H0 Hs]. induction i as [|i IH].
  - change (inject_Z (Z.of_nat 0)) with 0%Q. lra.
  - specialize (Hs i).
    rewrite Nat2Z.inj_succ. unfold Z.succ. rewrite inject_Z_plus.
    change (inject_Z 1) with 1%Q. lra.
Qed.

Lemma timeout_by_60 w :
  clock_advances w ->
  Qltb (time_time w 61 - time_time w 0) FLASK_STARTUP_TIMEOUT = false.
Proof.
  intros H. apply Qltb_ge. unfold FLASK_STARTUP_TIMEOUT.
  pose proof (clock_lower_bound w H 60) as Hb.
  change (inject_Z (Z.of_nat 60)) with 60%Q in Hb. lra.
Qed.

Lemma leaves_at_unique w k k' : leaves_at w k -> leaves_at w k' -> k = k'.
Proof.
  intros [Hq Hs] [Hq' Hs'].
  destruct (Nat.lt_trichotomy k k') as [Hlt|[Heq|Hgt]]; [|exact Heq|].
  - exfalso. apply Hs. apply Hq'. exact Hlt.
  - exfalso. apply Hs'. apply Hq. exact Hgt.
Qed.

Lemma started_leaves w r p :
  started w r p ->
  exists k, leaves_at w k /\ in_time w k /\ child_status w k = None /\
            connect_ex w k = Connect 0%Z.
Proof.
  intros (k & Hq & Ht & Hc & Hp & _). exists k.
  split; [split; [exact Hq|]|auto].
  intros (_ & _ & Hr). rewrite Hp in Hr. simpl in Hr. congruence.
Qed.

Lemma child_exited_leaves w r p :
  child_exited w r p ->
  exists k code, leaves_at w k /\ in_time w k /\ child_status w k = Some code.
Proof.
  intros (k & code & Hq & Ht & Hc & _). exists k, code.
  split; [split; [exact Hq|]|auto].
  intros (_ & Hn & _). congruence.
Qed.

Lemma timed_out_leaves w r p :
  timed_out w r p -> exists k, leaves_at w k /\ ~ in_time w k.
Proof.
  intros (k & Hq & Ht & _). exists k.
  split; [split; [exact Hq|]|exact Ht].
  intros (Hin & _). exact (Ht Hin).
Qed.

Lemma attempt_raised_leaves w r p :
  attempt_raised w r p ->
  exists k e, leaves_at w k /\ in_time w k /\ child_status w k = None /\
              connect_ex w k = OtherException e.
Proof.
  intros (k & e & Hq & Ht & Hc & Hp & _). exists k, e.
  split; [split; [exact Hq|]|auto].
  intros (_ & _ & Hr). rewrite Hp in Hr. exact Hr.
Qed.

(** No two of the four endings of the loop hold of the same world. *)
Lemma loop_endings_exclusive w r1 p1 r2 p2 :
  ~ (started w r1 p1 /\ child_exited w r2 p2) /\
  ~ (started w r1 p1 /\ timed_out w r2 p2) /\
  ~ (started w r1 p1 /\ attempt_raised w r2 p2) /\
  ~ (child_exited w r1 p1 /\ timed_out w r2 p2) /\
  ~ (child_exited w r1 p1 /\ attempt_raised w r2 p2) /\
  ~ (timed_out w r1 p1 /\ attempt_raised w r2 p2).
Proof.
  repeat split.
  - intros [(k & Hl & Ht & Hc & Hp)%started_leaves
            (k' & code & Hl' & Ht' & Hc')%child_exited_leaves].
    pose proof (leaves_at_unique w k k' Hl Hl'). subst k'. congruence.
  - intros [(k & Hl & Ht & Hc & Hp)%started_leaves
            (k' & Hl' & Ht')%timed_out_leaves].
    pose proof (leaves_at_unique w k k' Hl Hl'). subst k'. tauto.
  - intros [(k & Hl & Ht & Hc & Hp)%started_leaves
            (k' & e & Hl' & Ht' & Hc' & Hp')%attempt_raised_leaves].
    pose proof (leaves_at_unique w k k' Hl Hl'). subst k'. congruence.
  - intros [(k & code & Hl & Ht & Hc)%child_exited_leaves
            (k' & Hl' & Ht')%timed_out_leaves].
    pose proof (leaves_at_unique w k k' Hl Hl'). subst k'. tauto.
  - intros [(k & code & Hl & Ht & Hc)%child_exited_leaves
            (k' & e & Hl' & Ht' & Hc' & Hp')%attempt_raised_leaves].
    pose proof (leaves_at_unique w k k' Hl Hl'). subst k'. congruence.
  - intros [(k & Hl & Ht)%timed_out_leaves
            (k' & e & Hl' & Ht' & Hc' & Hp')%attempt_raised_leaves].
    pose proof (leaves_at_unique w k k' Hl Hl'). subst k'. tauto.
Qed.

Section WithFilesystem.

Variable fs : Executables.filesystem.

(** Every run of [start_flask_app] that ends does so in one of the five
    ways. *)
Lemma start_flask_app_sound w fuel before r after :
  start_flask_app fs w fuel before = Some (r, after) ->
  exists how, ends_as fs w before how r after.
Proof.
  unfold start_flask_app.
  destruct (subprocess_Popen w (flask_command w (Executables.find_uv_executable fs)))
    as [[]|e] eqn:Hlaunch.
  2:{ intros [= <- <-]. exists LaunchFailed. exists e. auto. }
  destruct (polling_loop w (time_time w 0) fuel 0 launched)
    as [[r0 p0]|] eqn:Hloop; [|discriminate].
  destruct (polling_loop_sound w fuel 0 r0 p0 (quiet_until_0 w) Hloop)
    as [(k & Hq & Ht & Hc & Hp & -> & ->)
       |[(k & code & Hq & Ht & Hc & -> & ->)
        |[(k & Hq & Ht & -> & ->)
         |(k & e & Hq & Ht & Hc & Hp & -> & ->)]]]; intros [= <- <-].
  - exists Started. split; [exact Hlaunch|]. eexists. split; [reflexivity|].
    exists k. auto 10.
  - exists ChildExited. split; [exact Hlaunch|]. eexists.
    split; [reflexivity|]. exists k, code. auto 10.
  - exists TimedOut. split; [exact Hlaunch|]. eexists.
    split; [reflexivity|]. exists k. auto.
  - exists AttemptRaised. split; [exact Hlaunch|]. eexists.
    split; [reflexivity|]. exists k, e. auto 10.
Qed.

(** No result is an ending in two ways. *)
Lemma ends_as_unique w before how how' r after :
  ends_as fs w before how r after -> ends_as fs w before how' r after ->
  how = how'.
Proof.
  pose proof (loop_endings_exclusive w) as Hex.
  destruct how, how'; try reflexivity; simpl; unfold launch_succeeds;
    intros H1 H2; exfalso;
    repeat match goal with
    | H : launch_failed _ _ _ _ _ |- _ => destruct H as (? & ? & _)
    | H : _ = Return tt /\ _ |- _ => destruct H as [? H]
    | H : exists p, _ = Some p /\ _ |- _ => destruct H as (? & ? & H)
    end; try congruence;
    repeat match goal with
    | H1 : ?a = Some ?p, H2 : ?a = Some ?q |- _ =>
        assert (p = q) by congruence; subst q; clear H2
    end;
    match goal with
    | Ha : started w r ?p, Hb : child_exited w r ?p |- _ =>
        exact (proj1 (Hex r p r p) (conj Ha Hb))
    | Ha : started w r ?p, Hb : timed_out w r ?p |- _ =>
        exact (proj1 (proj2 (Hex r p r p)) (conj Ha Hb))
    | Ha : started w r ?p, Hb : attempt_raised w r ?p |- _ =>
        exact (proj1 (proj2 (proj2 (Hex r p r p))) (conj Ha Hb))
    | Ha : child_exited w r ?p, Hb : timed_out w r ?p |- _ =>
        exact (proj1 (proj2 (proj2 (proj2 (Hex r p r p)))) (conj Ha Hb))
    | Ha : child_exited w r ?p, Hb : attempt_raised w r ?p |- _ =>
        exact (proj1 (proj2 (proj2 (proj2 (proj2 (Hex r p r p))))) (conj Ha Hb))
    | Ha : timed_out w r ?p, Hb : attempt_raised w r ?p |- _ =>
        exact (proj2 (proj2 (proj2 (proj2 (proj2 (Hex r p r p))))) (conj Ha Hb))
    end.
Qed.

(** With a clock that moves on, 61 turns of the loop are always enough. *)
Lemma start_flask_app_ends w fuel before :
  clock_advances w -> (61 <= fuel)%nat ->
  exists r after, start_flask_app fs w fuel before = Some (r, after).
Proof.
  intros Hclock Hfuel.
  assert (Hterm : polling_loop w (time_time w 0) fuel 0 launched <> None).
  { apply (polling_loop_terminates w (time_time w 0) 60); [lia| |lia].
    now apply timeout_by_60. }
  unfold start_flask_app.
  destruct (subprocess_Popen w _) as [[]|e]; [|eauto].
  destruct (polling_loop w (time_time w 0) fuel 0 launched)
    as [[[[|]|e] p0]|]; [eauto..|contradiction].
Qed.

(** C2, as the code has it.  [start_flask_app] ends in exactly one of
    five ways.  Launching the child raises (the program is not found, for
    one) and the exception leaves the function before any polling.  Or
    the child is launched and the function returns once a connection
    attempt succeeds; or it raises with the child's exit code from inside
    the loop, at the first poll that finds the child gone, before the
    timeout; or it finds the 30 seconds used up, calls [terminate()] on
    the child and raises the timeout error; or a connection attempt
    raises an exception other than [socket.error], which leaves the loop
    with the child still running.  No run ends otherwise, and with a
    clock that moves on every run ends: 61 turns of the loop are always
    enough.  When the launch succeeds and the attempts raise nothing but
    [socket.error], the run ends in one of the three ways of the
    specification. *)
Theorem start_flask_app_determination w before :
  (forall fuel r after,
     start_flask_app fs w fuel before = Some (r, after) ->
     exists how,
       ends_as fs w before how r after /\
       forall how', ends_as fs w before how' r after -> how' = how) /\
  (clock_advances w ->
   forall fuel, (61 <= fuel)%nat ->
   exists r after, start_flask_app fs w fuel before = Some (r, after)) /\
  (launch_succeeds fs w -> only_socket_errors w ->
   forall fuel, ends_in_three_ways fs w fuel before).
Proof.
  split; [|split].
  - intros fuel r after Hrun.
    destruct (start_flask_app_sound w fuel before r after Hrun) as [how Hhow].
    exists how. split; [exact Hhow|].
    intros how' Hhow'. exact (ends_as_unique w before how' how r after Hhow' Hhow).
  - intros Hclock fuel Hfuel. now apply start_flask_app_ends.
  - intros Hlaunch Honly fuel r after Hrun.
    destruct (start_flask_app_sound w fuel before r after Hrun) as [how Hhow].
    destruct how; simpl in Hhow.
    + destruct Hhow as (e & He & _). unfold launch_succeeds in Hlaunch.
      congruence.
    + destruct Hhow as (_ & p & -> & H). exists p. auto.
    + destruct Hhow as (_ & p & -> & H). exists p. auto.
    + destruct Hhow as (_ & p & -> & H). exists p. auto.
    + destruct Hhow as (_ & p & -> & k & e & _ & _ & _ & Hp & _).
      exfalso. exact (Honly k e Hp).
Qed.

End WithFilesystem.

(** [send_signal] on a handle whose child is known to be gone does
    nothing at all. *)
Lemma send_signal_completed w sig p :
  returncode p <> None -> send_signal w sig p = p.
Proof.
  unfold send_signal, poll. destruct (returncode p); [reflexivity|congruence].
Qed.

Lemma wait_completed w p rc :
  returncode p = Some rc -> wait w p = (Return rc, p).
Proof. unfold wait, poll. now intros ->. Qed.

(** A handle with a known exit status is left alone by
    [shutdown_flask_app]. *)
Lemma shutdown_completed w p :
  returncode p <> None ->
  shutdown_flask_app w (Some p) = (Return tt, Some p).
Proof.
  intros H. unfold shutdown_flask_app, terminate.
  rewrite (send_signal_completed w SIGTERM p H).
  destruct (returncode p) as [rc|] eqn:Hrc; [|congruence].
  now rewrite (wait_completed w p rc Hrc).
Qed.

(** A handle without a known exit status whose child still runs is sent
    SIGTERM. *)
Lemma shutdown_running w p :
  returncode p = None -> child_status w (status_queries p) = None ->
  exists p2 rest, snd (shutdown_flask_app w (Some p)) = Some p2 /\
                  delivered p2 = delivered p ++ SIGTERM :: rest.
Proof.
  intros Hrc Hst.
  unfold shutdown_flask_app, terminate, kill, send_signal, wait, poll.
  rewrite Hrc, Hst. simpl.
  destruct (child_status w (S (status_queries p))) as [rc|]; simpl.
  - eexists _, []. split; reflexivity.
  - destruct (child_status w (S (S (status_queries p)))) as [rc|]; simpl.
    + eexists _, []. split; reflexivity.
    + eexists _, [SIGKILL]. split; [reflexivity|]. simpl.
      now rewrite <- app_assoc.
Qed.

Lemma shutdown_returns w fp : fst (shutdown_flask_app w fp) = Return tt.
Proof.
  destruct fp as [p|]; [|reflexivity]. unfold shutdown_flask_app.
  destruct (wait w (terminate w p)) as [[rc|e] p2]; reflexivity.
Qed.

Lemma shutdown_keeps_handle w p :
  exists p1, snd (shutdown_flask_app w (Some p)) = Some p1.
Proof.
  unfold shutdown_flask_app.
  destruct (wait w (terminate w p)) as [[rc|e] p2]; eauto.
Qed.

(** C8, as the code has it.  Two calls in a row raise nothing.  The handle
    is never cleared, so the second call runs [terminate()] again: it
    hands the child no signal when no child was started, or when the
    first call has seen the child exit (its [wait] returned); when the
    first call ended with [kill()] and the child is still not seen gone
    at the next status query, the second call sends SIGTERM once more. *)
Theorem shutdown_twice w fp :
  let fp1 := snd (shutdown_flask_app w fp) in
  let fp2 := snd (shutdown_flask_app w fp1) in
  fst (shutdown_flask_app w fp) = Return tt /\
  fst (shutdown_flask_app w fp1) = Return tt /\
  (fp = None -> fp1 = None /\ fp2 = None) /\
  (forall p rc, fp = Some p ->
     fst (wait w (terminate w p)) = Return rc -> fp2 = fp1) /\
  (forall p1, fp1 = Some p1 -> returncode p1 <> None -> fp2 = fp1) /\
  (forall p1, fp1 = Some p1 -> returncode p1 = None ->
     child_status w (status_queries p1) = None ->
     exists p2 rest, fp2 = Some p2 /\
                     delivered p2 = delivered p1 ++ SIGTERM :: rest).
Proof.
  intros fp1 fp2.
  split; [apply shutdown_returns|]. split; [apply shutdown_returns|].
  split; [intros ->; split; reflexivity|].
  assert (Hdone : forall p1, fp1 = Some p1 -> returncode p1 <> None ->
                             fp2 = fp1).
  { intros p1 H1 Hrc. subst fp2. rewrite H1.
    now rewrite (shutdown_completed w p1 Hrc). }
  split; [|split; [exact Hdone|]].
  - intros p rc -> Hwait.
    assert (H1 : fp1 = Some (snd (wait w (terminate w p)))).
    { subst fp1 fp2. unfold shutdown_flask_app.
      destruct (wait w (terminate w p)) as [[rc'|e] p2]; [reflexivity|].
      discriminate. }
    apply (Hdone _ H1).
    revert Hwait. unfold wait, poll.
    destruct (returncode (terminate w p)) as [rc0|] eqn:Hrc0; simpl.
    + intros _. congruence.
    + destruct (child_status w (status_queries (terminate w p)));
        simpl; [discriminate|discriminate].
  - intros p1 H1 Hrc Hst. subst fp2. rewrite H1.
    exact (shutdown_running w p1 Hrc Hst).
Qed.

End SupervisorFacts.

Section SupervisorRuns.

Import Supervisor Samples.

Lemma whole_seconds_advance (w : world) :
  (forall k, time_time w k = inject_Z (Z.of_nat k)) -> clock_advances w.
Proof.
  intros H. split.
  - rewrite !H. vm_compute. discriminate.
  - intros i. rewrite !H. rewrite (Nat2Z.inj_succ (S i)). unfold Z.succ.
    rewrite inject_Z_plus. change (inject_Z 1) with 1%Q. lra.
Qed.

Lemma start_flask_app_determination_witness :
  clock_advances port_opens_third /\
  (exists r after,
     start_flask_app tools_in_path port_opens_third 61 None = Some (r, after)) /\
  three_ways tools_in_path port_opens_third (Return tt) (Some (polled 3)).
Proof.
  assert (H : clock_advances port_opens_third)
    by (apply whole_seconds_advance; reflexivity).
  split; [exact H|]. split.
  - apply (proj1 (proj2 (start_flask_app_determination tools_in_path
                           port_opens_third None)) H 61). lia.
  - apply (proj2 (proj2 (start_flask_app_determination tools_in_path
                           port_opens_third None))
             eq_refl ltac:(intros k e; simpl; destruct (k <? 2)%nat; discriminate)
             61).
    reflexivity.
Defined.

(** The five endings on the sample worlds. *)
Example start_returns_when_port_opens :
  start_flask_app tools_in_path port_opens_third 61 None
  = Some (Return tt, Some (polled 3)).
Proof. reflexivity. Qed.

Example start_raises_exit_code :
  start_flask_app tools_in_path child_crashes_third 61 None
  = Some (Raise "Flask backend failed to start. Exit code: 1",
          Some {| returncode := Some 1%Z; status_queries := 3;
                  delivered := [] |}).
Proof. reflexivity. Qed.

Example start_raises_timeout :
  start_flask_app tools_in_path never_ready 61 None
  = Some (Raise "Flask backend did not start within 30 seconds",
          Some {| returncode := None; status_queries := 30;
                  delivered := [SIGTERM] |}).
Proof. vm_compute. reflexivity. Qed.

Example start_raises_from_attempt :
  start_flask_app tools_in_path port_out_of_range 61 None
  = Some (Raise "connect_ex(): port must be 0-65535.", Some (polled 1)).
Proof. reflexivity. Qed.

Example start_raises_from_launch :
  start_flask_app nothing_installed never_ready 61 None
  = Some (Raise "[Errno 2] No such file or directory: 'uv'", None).
Proof. reflexivity. Qed.

(** The three ways are not all: with [uv] nowhere to be found the launch
    raises, no child exists, and the run has ended in none of them. *)
Lemma start_ends_in_a_fourth_way :
  ~ ends_in_three_ways nothing_installed never_ready 61 None.
Proof.
  intros H.
  destruct (H (Raise "[Errno 2] No such file or directory: 'uv'") None
              eq_refl) as (p & Hp & _).
  discriminate Hp.
Qed.

(** Idempotence fails on the stubborn child: it ignores SIGTERM for the
    grace period, is sent SIGKILL, and is not yet seen gone when the
    second call polls it; the second call sends SIGTERM again. *)
Lemma shutdown_repeats_signal :
  ~ second_call_is_silent stubborn_child (Some launched).
Proof. unfold second_call_is_silent. vm_compute. discriminate. Qed.

Lemma shutdown_twice_witness :
  snd (shutdown_flask_app obedient_child
         (snd (shutdown_flask_app obedient_child (Some launched))))
  = snd (shutdown_flask_app obedient_child (Some launched)) /\
  exists p2 rest,
    snd (shutdown_flask_app stubborn_child
           (snd (shutdown_flask_app stubborn_child (Some launched))))
    = Some p2 /\
    delivered p2 = [SIGTERM; SIGKILL] ++ SIGTERM :: rest.
Proof.
  split.
  - destruct (shutdown_twice obedient_child (Some launched))
      as (_ & _ & _ & H & _).
    apply (H launched (-15)%Z); reflexivity.
  - destruct (shutdown_twice stubborn_child (Some launched))
      as (_ & _ & _ & _ & _ & H).
    apply (H {| returncode := None; status_queries := 3;
                delivered := [SIGTERM; SIGKILL] |}); reflexivity.
Defined.

End SupervisorRuns.

(** ** Batch search *)

(** A dict that answers for a key is not empty, and holds the key. *)
Lemma dict_get_truthy d key v :
  dict_get d key = Some v -> truthy (JDict d) = true.
Proof. destruct d; [discriminate|reflexivity]. Qed.

Lemma lacks_key d key v :
  dict_get d key = Some v -> lacks (JDict d) key = Return false.
Proof.
  intros H. unfold lacks. rewrite (dict_get_truthy d key v H). simpl.
  now rewrite H.
Qed.

Lemma lacks_no_key d key :
  dict_get d key = None -> lacks (JDict d) key = Return true.
Proof.
  intros H. unfold lacks. destruct (truthy (JDict d)); simpl; [|reflexivity].
  now rewrite H.
Qed.

Section BatchSearchFacts.

Import BatchSearch.

Variable search : nat -> json -> option (list model) -> json -> outcome search_results.
Variable py_repr : json -> string.
Context {unicode : UnicodeLower}.

(** [search_single] hands every exception of its [try] block back as a
    value, so the handler in the loop is never entered. *)
Lemma search_single_returns limit i q :
  exists r, search_single search py_repr limit i q = Return r.
Proof.
  unfold search_single.
  destruct (truthy (query_of py_repr q)); simpl; [|eauto].
  destruct (search_and_format search limit i _ _); simpl; eauto.
Qed.

(** The loop appends one slot per query, in the order of the queries. *)
Lemma batch_loop_imap limit : forall qs i results,
  batch_loop search py_repr limit i qs results
  = results ++ imap (fun j q => batch_step search py_repr limit (i + j) q) qs.
Proof.
  induction qs as [|q qs IH]; intros i results; simpl.
  - now rewrite app_nil_r.
  - rewrite IH, <- app_assoc. simpl. rewrite Nat.add_0_r.
    do 2 f_equal. apply imap_ext. intros j x _. simpl. f_equal. lia.
Qed.

Lemma batch_loop_length limit qs :
  length (batch_loop search py_repr limit 0 qs []) = length qs.
Proof. rewrite batch_loop_imap. simpl. apply length_imap. Qed.

Lemma batch_loop_lookup limit qs i q :
  qs !! i = Some q ->
  batch_loop search py_repr limit 0 qs [] !! i = Some (batch_step search py_repr limit i q).
Proof.
  intros H. rewrite batch_loop_imap. simpl.
  rewrite list_lookup_imap, H. reflexivity.
Qed.

(** Each slot carries the query of its own item. *)
Lemma batch_step_query limit i q :
  result_query (batch_step search py_repr limit i q) = query_of py_repr q.
Proof.
  unfold batch_step, search_single.
  destruct (truthy (query_of py_repr q)); simpl; [|reflexivity].
  unfold search_and_format.
  destruct (lower (search_type_of q)) as [lowered|e]; simpl; [|reflexivity].
  destruct (search i _ _ limit); reflexivity.
Qed.

(** What the route does with a body that is a dict holding a list under
    ['queries']. *)
Lemma batch_search_body_of_dict d qs :
  dict_get d "queries" = Some (JList qs) ->
  batch_search_body search py_repr (Return (JDict d))
  = if (length qs =? 0)%nat then
      Return (ErrorResponse 400 "'queries' must be a non-empty list")
    else if (100 <? length qs)%nat then
      Return (ErrorResponse 400 "Maximum 100 queries per batch")
    else
      limit ← limit_of d;
      Return (BatchResults (batch_loop search py_repr limit 0 qs [])
                           (length (batch_loop search py_repr limit 0 qs []))).
Proof.
  intros Hq. unfold batch_search_body. simpl.
  rewrite (lacks_key d "queries" _ Hq). simpl. rewrite Hq. reflexivity.
Qed.

Lemma batch_search_accepts d qs limit :
  dict_get d "queries" = Some (JList qs) ->
  (1 <= length qs <= 100)%nat ->
  limit_of d = Return limit ->
  batch_search search py_repr (Return (JDict d))
  = BatchResults (batch_loop search py_repr limit 0 qs []) (length qs).
Proof.
  intros Hq [Hlo Hhi] Hl. unfold batch_search.
  rewrite (batch_search_body_of_dict d qs Hq).
  destruct (Nat.eqb_spec (length qs) 0) as [H0|_]; [lia|].
  destruct (Nat.ltb_spec 100 (length qs)) as [H1|_]; [lia|].
  rewrite Hl. simpl. now rewrite batch_loop_length.
Qed.

Lemma batch_search_bad_limit d qs e :
  dict_get d "queries" = Some (JList qs) ->
  (1 <= length qs <= 100)%nat ->
  limit_of d = Raise e ->
  batch_search search py_repr (Return (JDict d))
  = ErrorResponse 500 ("Batch search failed: " ++ e)%string.
Proof.
  intros Hq [Hlo Hhi] Hl. unfold batch_search.
  rewrite (batch_search_body_of_dict d qs Hq).
  destruct (Nat.eqb_spec (length qs) 0) as [H0|_]; [lia|].
  destruct (Nat.ltb_spec 100 (length qs)) as [H1|_]; [lia|].
  rewrite Hl. reflexivity.
Qed.

(** C3, as the code has it.  A request whose body is a dict with N
    queries, 1 <= N <= 100, and a ['limit_per_query'] that is absent, a
    number or a boolean is answered with exactly N slots; slot [i] is
    what the loop computed for the query at position [i], carries that
    query, and this holds whatever the client answers or raises for any
    item.  With any other value under ['limit_per_query'] the same
    queries are answered with status 500 and no list of results. *)
Theorem batch_search_preserves_order d qs :
  dict_get d "queries" = Some (JList qs) ->
  (1 <= length qs <= 100)%nat ->
  (forall limit, limit_of d = Return limit ->
     exists results,
       batch_search search py_repr (Return (JDict d))
       = BatchResults results (length qs) /\
       length results = length qs /\
       forall i q, qs !! i = Some q ->
         results !! i = Some (batch_step search py_repr limit i q) /\
         result_query (batch_step search py_repr limit i q)
         = query_of py_repr q) /\
  (forall e, limit_of d = Raise e ->
     batch_search search py_repr (Return (JDict d))
     = ErrorResponse 500 ("Batch search failed: " ++ e)%string) /\
  (limit_of d
   = match dict_get d "limit_per_query" with
     | None => Return (JNum 5)
     | Some (JNum z) => Return (JNum (Z.min (Z.max 1 z) 20))
     | Some (JBool _) => Return (JNum 1)
     | Some (JFloat f) =>
         Return (if PrimFloat.ltb 1 f
                 then if PrimFloat.ltb 20 f then JNum 20 else JFloat f
                 else JNum 1)
     | Some v => Raise ("'>' not supported between instances of '"
                          ++ type_name v ++ "' and 'int'")%string
     end).
Proof.
  intros Hq Hlen. split; [|split].
  - intros limit Hl. eexists.
    split; [exact (batch_search_accepts d qs limit Hq Hlen Hl)|].
    split; [apply batch_loop_length|].
    intros i q Hi.
    split; [now apply batch_loop_lookup|apply batch_step_query].
  - intros e Hl. now apply (batch_search_bad_limit d qs).
  - unfold limit_of. destruct (dict_get d "limit_per_query") as [[]|];
      try reflexivity.
    simpl. destruct (PrimFloat.ltb 1 f); [destruct (PrimFloat.ltb 20 f)|];
      reflexivity.
Qed.

Lemma batch_step_failure limit i q e :
  item_fails search py_repr limit i q e ->
  batch_step search py_repr limit i q = ErrorResult (query_of py_repr q) e.
Proof.
  unfold item_fails, batch_step, search_single.
  intros [[Hq ->]|[Hq Hraise]]; rewrite Hq; simpl; [reflexivity|].
  now rewrite Hraise.
Qed.

Lemma batch_step_success limit i q lowered r :
  truthy (query_of py_repr q) = true ->
  lower (search_type_of q) = Return lowered ->
  search i (query_of py_repr q) (model_map_get lowered) limit = Return r ->
  batch_step search py_repr limit i q
  = hits_of (query_of py_repr q) (search_type_of q) r.
Proof.
  intros Hq Hl Hs. unfold batch_step, search_single, search_and_format.
  rewrite Hq, Hl. simpl. now rewrite Hs.
Qed.

(** C5. When the item at position [i] fails, its slot holds its query and
    the error text; the batch is answered all the same, and every other
    slot holds what its own item gives: the formatted hits wherever that
    item's own search returned. *)
Theorem batch_search_isolates_failures d qs limit i q e :
  dict_get d "queries" = Some (JList qs) ->
  (1 <= length qs <= 100)%nat ->
  limit_of d = Return limit ->
  qs !! i = Some q ->
  item_fails search py_repr limit i q e ->
  exists results,
    batch_search search py_repr (Return (JDict d))
    = BatchResults results (length qs) /\
    results !! i = Some (ErrorResult (query_of py_repr q) e) /\
    forall j q', j <> i -> qs !! j = Some q' ->
      results !! j
      = Some (batch_step search py_repr limit j q') /\
      forall lowered r,
        truthy (query_of py_repr q') = true ->
        lower (search_type_of q') = Return lowered ->
        search j (query_of py_repr q') (model_map_get lowered) limit
        = Return r ->
        results !! j
        = Some (hits_of (query_of py_repr q') (search_type_of q') r).
Proof.
  intros Hd Hlen Hl Hq Hfail. eexists.
  split; [exact (batch_search_accepts d qs limit Hd Hlen Hl)|].
  split.
  - rewrite (batch_loop_lookup _ _ _ _ Hq). f_equal.
    now apply batch_step_failure.
  - intros j q' _ Hq'. rewrite (batch_loop_lookup _ _ _ _ Hq').
    split; [reflexivity|].
    intros lowered r Ht Hlow Hs. f_equal.
    now apply (batch_step_success _ _ _ lowered).
Qed.

End BatchSearchFacts.

(** A slot depends on the client only through the search call made for
    its own item. *)
Lemma batch_slot_depends_on_own_call {unicode : UnicodeLower} search1 search2 py_repr
    limit j q :
  (forall query models l, search1 j query models l = search2 j query models l) ->
  BatchSearch.batch_step search1 py_repr limit j q
  = BatchSearch.batch_step search2 py_repr limit j q.
Proof.
  intros H.
  unfold BatchSearch.batch_step, BatchSearch.search_single,
    BatchSearch.search_and_format.
  destruct (truthy _); simpl; [|reflexivity].
  destruct (lower _); simpl; [|reflexivity].
  now rewrite H.
Qed.

Section BatchSearchRuns.

Import BatchSearch Samples.

#[local] Existing Instance unicode_unchanged.

Lemma batch_search_preserves_order_witness :
  exists results,
    batch_search second_item_fails no_repr
      (Return (JDict [("queries", JList three_queries)]))
    = BatchResults results 3 /\
    length results = 3%nat /\
    forall i q, three_queries !! i = Some q ->
      results !! i = Some (batch_step second_item_fails no_repr (JNum 5) i q) /\
      result_query (batch_step second_item_fails no_repr (JNum 5) i q)
      = query_of no_repr q.
Proof.
  apply (proj1 (batch_search_preserves_order second_item_fails no_repr
                  [("queries", JList three_queries)] three_queries
                  eq_refl ltac:(simpl; lia))).
  reflexivity.
Defined.

(** The order property fails as the specification words it: three
    queries sent with the limit as a text are answered with an error and
    no results. *)
Lemma batch_search_refuses_text_limit :
  ~ answered_in_order second_item_fails no_repr
      (JDict [("queries", JList three_queries);
              ("limit_per_query", JStr "5")])
      three_queries.
Proof. intros (results & Hres & _). discriminate Hres. Qed.

Example batch_with_text_limit :
  batch_search second_item_fails no_repr
    (Return (JDict [("queries", JList three_queries);
                    ("limit_per_query", JStr "5")]))
  = ErrorResponse 500
      "Batch search failed: '>' not supported between instances of 'str' and 'int'".
Proof. reflexivity. Qed.

(** A limit written with a fraction is not refused: between 1 and 20 it
    is passed to the client as it is. *)
Example limit_with_fraction :
  limit_of [("queries", JList three_queries);
            ("limit_per_query", JFloat 2.5)]
  = Return (JFloat 2.5) /\
  limit_of [("limit_per_query", JFloat 0.5)] = Return (JNum 1) /\
  limit_of [("limit_per_query", JFloat 20.5)] = Return (JNum 20).
Proof. repeat split. Qed.

Lemma batch_search_isolates_failures_witness :
  exists results,
    batch_search second_item_fails no_repr
      (Return (JDict [("queries", JList three_queries)]))
    = BatchResults results 3 /\
    results !! 1%nat = Some (ErrorResult (JStr "b") "503 Server Error") /\
    forall j q', j <> 1%nat -> three_queries !! j = Some q' ->
      results !! j = Some (batch_step second_item_fails no_repr (JNum 5) j q') /\
      forall lowered r,
        truthy (query_of no_repr q') = true ->
        lower (search_type_of q') = Return lowered ->
        second_item_fails j (query_of no_repr q') (model_map_get lowered)
          (JNum 5)
          = Return r ->
        results !! j
        = Some (hits_of (query_of no_repr q') (search_type_of q') r).
Proof.
  apply (batch_search_isolates_failures second_item_fails no_repr
           [("queries", JList three_queries)] three_queries (JNum 5) 1
           (JDict [("query", JStr "b"); ("type", JStr "track")])
           "503 Server Error").
  - reflexivity.
  - simpl. lia.
  - reflexivity.
  - reflexivity.
  - right. split; reflexivity.
Defined.

(** The same batch, run: the failure sits in the middle slot between two
    normal results. *)
Example batch_with_failing_item :
  batch_search second_item_fails no_repr
    (Return (JDict [("queries", JList three_queries)]))
  = BatchResults
      [hits_of (JStr "a") (JStr "track") (found 0);
       ErrorResult (JStr "b") "503 Server Error";
       hits_of (JStr "c") (JStr "track") (found 2)]
      3.
Proof. reflexivity. Qed.

End BatchSearchRuns.

(** ** The tool in front of the batch search *)

Section ToolServerFacts.

Import BatchSearch ToolServer.

Context {unicode : UnicodeLower}.

Lemma normalize_all_omap : forall qs normalized_queries,
  normalize_all qs normalized_queries
  = normalized_queries ++ omap normalize qs.
Proof.
  induction qs as [|q qs IH]; intros acc; simpl; fold_omap.
  - now rewrite app_nil_r.
  - rewrite IH. destruct (normalize q) as [n|]; simpl; [|reflexivity].
    now rewrite <- app_assoc.
Qed.

Lemma normalize_valid q : normalize q = None <-> valid_item q = false.
Proof.
  destruct q as [| | | | |l|d]; simpl; try tauto; try (split; discriminate).
  destruct (dict_get d "query") as [v|]; [|tauto].
  destruct (truthy v); split; auto; discriminate.
Qed.

Lemma kept_length_le (qs : list json) :
  (length (omap normalize qs) <= length qs)%nat.
Proof.
  induction qs as [|q qs IH]; simpl; [lia|]. fold_omap.
  destruct (normalize q); simpl; fold_omap; lia.
Qed.

Lemma kept_length_lt (qs : list json) q :
  q ∈ qs -> valid_item q = false ->
  (length (omap normalize qs) < length qs)%nat.
Proof.
  intros Hin Hbad. apply normalize_valid in Hbad.
  induction Hin as [q qs|q q' qs Hin IH]; simpl; fold_omap.
  - rewrite Hbad. pose proof (kept_length_le qs). lia.
  - specialize (IH Hbad). destruct (normalize q'); simpl; fold_omap; lia.
Qed.

Lemma kept_nil (qs : list json) :
  omap normalize qs = [] <-> forall q, q ∈ qs -> valid_item q = false.
Proof.
  induction qs as [|q qs IH]; simpl; fold_omap.
  - split; [intros _ q Hq; inversion Hq|reflexivity].
  - destruct (normalize q) as [n|] eqn:Hn.
    + split; [discriminate|]. intros H.
      assert (Hv : valid_item q = false) by (apply H; left).
      apply normalize_valid in Hv. congruence.
    + rewrite IH. apply normalize_valid in Hn. split.
      * intros H q' Hq'. inversion Hq'; subst; auto.
      * intros H q' Hq'. apply H. now right.
Qed.

(** C10. The tool keeps, in order, the items that are strings or dicts
    with a non-empty ['query'] and drops the others without a trace.  When
    nothing is kept it answers with an error and sends nothing.
    Otherwise the backend is asked about the kept items only, and the
    results have one slot per kept item: fewer than were submitted as
    soon as one item was dropped. *)
Theorem tool_batch_search_drops_invalid_items search py_repr qs limit :
  (1 <= length qs <= 100)%nat ->
  let kept := omap normalize qs in
  normalize_all qs [] = kept /\
  (forall q, normalize q = None <-> valid_item q = false) /\
  (length kept <= length qs)%nat /\
  ((forall q, q ∈ qs -> valid_item q = false) ->
   forall post,
     batch_search_tidal post (JList qs) limit
     = ToolError "No valid queries provided") /\
  ((exists q, q ∈ qs /\ valid_item q = true) ->
   exists results,
     batch_search_tidal (post_to_backend search py_repr) (JList qs) limit
     = ToolSuccess (BodyResults results (length kept)) /\
     length results = length kept /\
     (forall i n, kept !! i = Some n ->
        results !! i
        = Some (batch_step search py_repr
                  (JNum (Z.min (Z.max 1 (Z.min (Z.max 1 limit) 20)) 20))
                  i n)) /\
     ((exists q, q ∈ qs /\ valid_item q = false) ->
      (length results < length qs)%nat)).
Proof.
  intros Hlen kept.
  assert (Hnorm : normalize_all qs [] = kept) by apply normalize_all_omap.
  split; [exact Hnorm|]. split; [apply normalize_valid|].
  split; [apply kept_length_le|].
  assert (Hhead : forall post,
    batch_search_tidal post (JList qs) limit
    = match kept with
      | [] => ToolError "No valid queries provided"
      | _ :: _ =>
          match post kept (Z.min (Z.max 1 limit) 20) with
          | HttpTimeout =>
              ToolError "Batch search timed out. Try with fewer queries."
          | HttpConnectionError =>
              ToolError "Cannot connect to TIDAL backend service."
          | HttpException e => ToolError ("Batch search failed: " ++ e)%string
          | HttpResponse status_code json_body =>
              if (status_code =? 401)%Z then
                ToolError "Not authenticated with TIDAL. Please login first using tidal_login()."
              else if (status_code =? 200)%Z then
                match _safe_json json_body with
                | BodyEmpty =>
                    ToolError "Empty response from batch search - Flask may have crashed"
                | data => ToolSuccess data
                end
              else
                match _safe_json json_body with
                | BodyError e => ToolError e
                | _ => ToolError ("Batch search failed (HTTP "
                                    ++ str_of_Z status_code ++ ")")%string
                end
          end
      end).
  { intros post. unfold batch_search_tidal. rewrite Hnorm.
    destruct qs as [|q0 qs0]; [simpl in Hlen; lia|]. simpl truthy. simpl negb.
    cbv iota.
    destruct (Nat.ltb_spec 100 (length (q0 :: qs0))) as [H1|_]; [lia|].
    reflexivity. }
  split.
  - intros Hall post. rewrite Hhead.
    pose proof (proj2 (kept_nil qs) Hall) as Hnil. fold kept in Hnil.
    now rewrite Hnil.
  - intros (q & Hin & Hok).
    assert (Hne : kept <> []).
    { intros Hnil. pose proof (proj1 (kept_nil qs) Hnil q Hin) as Hv.
      rewrite Hv in Hok. discriminate. }
    assert (Hklen : (1 <= length kept <= 100)%nat).
    { pose proof (kept_length_le qs). fold kept in H.
      destruct kept; [congruence|simpl in *; lia]. }
    exists (batch_loop search py_repr
              (JNum (Z.min (Z.max 1 (Z.min (Z.max 1 limit) 20)) 20)) 0 kept []).
    rewrite Hhead. unfold post_to_backend, posted_body.
    rewrite (batch_search_accepts search py_repr
               [("queries", JList kept);
                ("limit_per_query", JNum (Z.min (Z.max 1 limit) 20))]
               kept (JNum (Z.min (Z.max 1 (Z.min (Z.max 1 limit) 20)) 20))
               eq_refl Hklen eq_refl).
    destruct kept as [|k0 ks] eqn:Hk; [congruence|].
    split; [reflexivity|].
    split; [apply batch_loop_length|].
    split; [intros i n Hi; now apply batch_loop_lookup|].
    intros (q' & Hin' & Hbad). rewrite batch_loop_length.
    rewrite <- Hk. apply (kept_length_lt qs q' Hin' Hbad).
Qed.

End ToolServerFacts.

Section ToolServerRuns.

Import BatchSearch ToolServer Samples.

#[local] Existing Instance unicode_unchanged.

Lemma tool_batch_search_drops_invalid_items_witness :
  batch_search_tidal (post_to_backend always_found no_repr)
    (JList unusable_queries) 5
  = ToolError "No valid queries provided" /\
  exists results,
    batch_search_tidal (post_to_backend always_found no_repr)
      (JList mixed_queries) 5
    = ToolSuccess (BodyResults results 2) /\
    length results = 2%nat /\
    (length results < length mixed_queries)%nat.
Proof.
  split.
  - apply (tool_batch_search_drops_invalid_items (unicode := unicode_unchanged)
             always_found no_repr unusable_queries 5).
    + simpl. lia.
    + intros q Hq. unfold unusable_queries in Hq.
      repeat (apply elem_of_cons in Hq as [->|Hq]; [reflexivity|]).
      inversion Hq.
  - destruct (tool_batch_search_drops_invalid_items
                (unicode := unicode_unchanged) always_found no_repr
                mixed_queries 5) as (_ & _ & _ & _ & H).
    + simpl. lia.
    + destruct H as (results & Hr & Hl & _ & Hlt).
      * exists (JStr "a"). split; [left|reflexivity].
      * exists results. split; [exact Hr|]. split; [exact Hl|].
        apply Hlt. exists (JNum 5). split; [right; left|reflexivity].
Defined.

(** The mixed batch, run: two slots come back for four items. *)
Example tool_batch_with_dropped_items :
  batch_search_tidal (post_to_backend always_found no_repr)
    (JList mixed_queries) 5
  = ToolSuccess
      (BodyResults
         [hits_of (JStr "a") (JStr "track") (found 0);
          hits_of (JStr "b") (JStr "track") (found 1)]
         2).
Proof. reflexivity. Qed.

End ToolServerRuns.

(** ** Batch recommendations *)

Section RecommendationsFacts.

Import Recommendations.

Implicit Types (l : list track_data) (acc : accumulator) (x : Z).

(** The loop over the completed futures is one pass over their results
    laid end to end. *)
Lemma merge_concat remove_duplicates : forall completed acc,
  fold_left (accumulate remove_duplicates) completed acc
  = fold_left (accumulate_track remove_duplicates) (concat completed) acc.
Proof.
  induction completed as [|recs completed IH]; intros acc; simpl.
  - reflexivity.
  - rewrite IH. unfold accumulate. now rewrite fold_left_app.
Qed.

(** Without deduplication everything is kept. *)
Lemma accumulate_all : forall l acc,
  all_recommendations (fold_left (accumulate_track false) l acc)
  = all_recommendations acc ++ l.
Proof.
  induction l as [|d l IH]; intros acc; simpl.
  - now rewrite app_nil_r.
  - rewrite IH. simpl. now rewrite <- app_assoc.
Qed.

(** With deduplication the pass keeps the first occurrence of each
    identifier not seen before. *)
Lemma accumulate_first : forall l acc,
  all_recommendations (fold_left (accumulate_track true) l acc)
  = all_recommendations acc ++ first_occurrences (seen_track_ids acc) l.
Proof.
  induction l as [|d l IH]; intros acc; simpl.
  - now rewrite app_nil_r.
  - rewrite IH. unfold accumulate_track. simpl.
    destruct (bool_decide (id d ∈ seen_track_ids acc)); simpl.
    + reflexivity.
    + now rewrite <- app_assoc.
Qed.

(** An identifier already seen is not kept again. *)
Lemma first_occurrences_seen x : forall l seen,
  x ∈ seen -> filter (fun d => id d = x) (first_occurrences seen l) = [].
Proof.
  induction l as [|d l IH]; intros seen Hx; simpl; [reflexivity|].
  destruct (bool_decide_reflect (id d ∈ seen)) as [Hin|Hout].
  - now apply IH.
  - rewrite filter_cons. destruct (decide (id d = x)) as [Heq|Hne].
    + rewrite Heq in Hout. contradiction.
    + apply IH. apply elem_of_union. now right.
Qed.

(** Of the entries with a given identifier, the first one is kept and no
    other. *)
Lemma first_occurrences_filter x : forall l seen,
  x ∉ seen ->
  filter (fun d => id d = x) (first_occurrences seen l)
  = take 1 (filter (fun d => id d = x) l).
Proof.
  induction l as [|d l IH]; intros seen Hx; simpl; [reflexivity|].
  rewrite (filter_cons _ d l).
  destruct (bool_decide_reflect (id d ∈ seen)) as [Hin|Hout].
  - destruct (decide (id d = x)) as [Heq|Hne];
      [rewrite Heq in Hin; contradiction|].
    now apply IH.
  - rewrite filter_cons. destruct (decide (id d = x)) as [Heq|Hne].
    + simpl. rewrite take_0. f_equal. apply first_occurrences_seen.
      apply elem_of_union. left. apply elem_of_singleton. congruence.
    + apply IH. intros [H1|H2]%elem_of_union; [|contradiction].
      apply elem_of_singleton in H1. congruence.
Qed.

Lemma occurrences_app x l1 l2 :
  occurrences x (l1 ++ l2) = (occurrences x l1 + occurrences x l2)%nat.
Proof. unfold occurrences. now rewrite filter_app, length_app. Qed.

Lemma occurrences_concat x (ls : list (list track_data)) :
  occurrences x (concat ls) = sum_list_with (occurrences x) ls.
Proof.
  induction ls as [|l ls IH]; simpl; [reflexivity|].
  now rewrite occurrences_app, IH.
Qed.

Lemma producers_sum x (futures : list (list track_data)) :
  (forall f, f ∈ futures -> (occurrences x f <= 1)%nat) ->
  sum_list_with (occurrences x) futures = producers x futures.
Proof.
  unfold producers. induction futures as [|f fs IH]; intros H; simpl.
  - reflexivity.
  - rewrite filter_cons.
    assert (Hf : (occurrences x f <= 1)%nat) by (apply H; left).
    rewrite IH by (intros g Hg; apply H; now right).
    destruct (decide (0 < occurrences x f)%nat); simpl; lia.
Qed.

(** Taking the futures in a completion order that names every seed once
    yields every seed's result once. *)
Lemma lookup_all_positions {A} : forall (l pre : list A),
  omap (fun i => (pre ++ l) !! i) (seq (length pre) (length l)) = l.
Proof.
  induction l as [|a l IH]; intros pre; simpl; [reflexivity|].
  rewrite lookup_app_r by lia. rewrite Nat.sub_diag. simpl.
  f_equal.
  specialize (IH (pre ++ [a])).
  rewrite length_app, <- app_assoc in IH. simpl in IH.
  rewrite Nat.add_1_r in IH. exact IH.
Qed.

Lemma as_completed_permutation futures completion :
  completion ≡ₚ seq 0 (length futures) ->
  as_completed futures completion ≡ₚ futures.
Proof.
  intros H. unfold as_completed. rewrite H.
  pose proof (lookup_all_positions futures []) as E. simpl in E.
  now rewrite E.
Qed.


Variable session_track : json -> outcome Track.
Variable get_track_radio : Track -> json -> outcome (list Track).

(** What the route does with a body that is a dict holding a list under
    ['track_ids']. *)
Lemma get_batch_recommendations_of_dict completion d ids :
  dict_get d "track_ids" = Some (JList ids) ->
  get_batch_recommendations_body session_track get_track_radio completion
    (Return (JDict d))
  = (limit ← limit_of d;
     match ids with
     | [] => Raise "max_workers must be greater than 0"
     | _ :: _ =>
         Return (RecommendationsResponse
                   (all_recommendations
                      (merge (remove_of d)
                         (as_completed
                            (map (get_track_recommendations session_track
                                    get_track_radio limit) ids)
                            completion))))
     end).
Proof.
  intros Hids. unfold get_batch_recommendations_body. simpl.
  rewrite (lacks_key d "track_ids" _ Hids). simpl. rewrite Hids.
  reflexivity.
Qed.

Lemma get_batch_recommendations_accepts completion d ids limit :
  dict_get d "track_ids" = Some (JList ids) -> ids <> [] ->
  limit_of d = Return limit ->
  get_batch_recommendations session_track get_track_radio completion
    (Return (JDict d))
  = RecommendationsResponse
      (all_recommendations
         (merge (remove_of d)
            (as_completed
               (map (get_track_recommendations session_track
                       get_track_radio limit) ids)
               completion))).
Proof.
  intros Hids Hne Hl. unfold get_batch_recommendations.
  rewrite (get_batch_recommendations_of_dict completion d ids Hids), Hl.
  destruct ids; [congruence|reflexivity].
Qed.

(** C6. Take the seeds' radios in any order of completion.  With
    [remove_duplicates] true, the entries of the output that carry a given
    identifier are the first such entry in completion order and nothing
    else, so an identifier that some seed produced appears exactly once.
    With [remove_duplicates] false the output is all the radios laid end
    to end: an identifier appears as many times as the seeds' radios
    contain it together, once per seed that produced it when no radio
    lists a track twice. *)
Theorem batch_recommendations_dedup completion request_data ids limit x :
  dict_get request_data "track_ids" = Some (JList ids) ->
  ids <> [] ->
  limit_of request_data = Return limit ->
  completion ≡ₚ seq 0 (length ids) ->
  let futures :=
    map (get_track_recommendations session_track get_track_radio limit) ids in
  let completed := as_completed futures completion in
  exists recs,
    get_batch_recommendations session_track get_track_radio completion
      (Return (JDict request_data))
    = RecommendationsResponse recs /\
    (remove_of request_data = true ->
       filter (fun d => id d = x) recs
       = take 1 (filter (fun d => id d = x) (concat completed)) /\
       ((exists f, f ∈ futures /\ (0 < occurrences x f)%nat) ->
        occurrences x recs = 1%nat)) /\
    (remove_of request_data = false ->
       recs = concat completed /\
       occurrences x recs = sum_list_with (occurrences x) futures /\
       ((forall f, f ∈ futures -> (occurrences x f <= 1)%nat) ->
        occurrences x recs = producers x futures)).
Proof.
  intros Hids Hne Hl Hperm futures completed.
  assert (Hcompleted : completed ≡ₚ futures).
  { apply as_completed_permutation. subst futures.
    now rewrite length_map. }
  assert (Hsum : occurrences x (concat completed)
                 = sum_list_with (occurrences x) futures).
  { rewrite occurrences_concat. now rewrite Hcompleted. }
  rewrite (get_batch_recommendations_accepts completion request_data ids limit
             Hids Hne Hl).
  eexists. split; [reflexivity|].
  fold futures. fold completed.
  unfold merge. rewrite merge_concat.
  split; intros Hremove; rewrite Hremove.
  - rewrite accumulate_first. simpl.
    assert (Hfirst : filter (fun d => id d = x)
                       (first_occurrences ∅ (concat completed))
                     = take 1 (filter (fun d => id d = x) (concat completed)))
      by (apply first_occurrences_filter; apply not_elem_of_empty).
    split; [exact Hfirst|].
    intros (f & Hf & Hpos).
    unfold occurrences at 1. rewrite Hfirst.
    assert (Hge : (1 <= occurrences x (concat completed))%nat).
    { rewrite Hsum.
      pose proof (sum_list_with_in f (occurrences x) futures Hf). lia. }
    unfold occurrences in Hge.
    destruct (filter (fun d => id d = x) (concat completed));
      simpl in *; [lia|reflexivity].
  - rewrite accumulate_all. simpl.
    split; [reflexivity|]. split; [exact Hsum|].
    intros Honce. rewrite Hsum. now apply producers_sum.
Qed.

End RecommendationsFacts.

Section RecommendationsRuns.

Import Recommendations Samples.

Lemma batch_recommendations_dedup_witness :
  exists recs,
    get_batch_recommendations seed_track radio second_seed_first
      (Return (JDict [("track_ids", JList two_seeds)]))
    = RecommendationsResponse recs /\
    occurrences 20 recs = 1%nat.
Proof.
  destruct (batch_recommendations_dedup seed_track radio second_seed_first
              [("track_ids", JList two_seeds)] two_seeds (JNum 20) 20)
    as (recs & Hr & Hdedup & _).
  - reflexivity.
  - discriminate.
  - reflexivity.
  - simpl. apply Permutation_swap.
  - exists recs. split; [exact Hr|].
    apply Hdedup; [reflexivity|].
    eexists. split; [left|]. vm_compute. lia.
Defined.

(** The sample batch, run both ways: track 20, shared by the two radios,
    is kept from seed 2, whose worker completed first. *)
Example shared_track_kept_once :
  match
    get_batch_recommendations seed_track radio second_seed_first
      (Return (JDict [("track_ids", JList two_seeds);
                      ("remove_duplicates", JBool true)]))
  with
  | RecommendationsResponse recs =>
      map (fun d => (id d, source_track_id d)) recs
      = [(20%Z, Some (JNum 2)); (30%Z, Some (JNum 2)); (10%Z, Some (JNum 1))]
  | ErrorResponse _ _ => False
  end.
Proof. vm_compute. reflexivity. Qed.

Example shared_track_kept_per_seed :
  match
    get_batch_recommendations seed_track radio second_seed_first
      (Return (JDict [("track_ids", JList two_seeds);
                      ("remove_duplicates", JBool false)]))
  with
  | RecommendationsResponse recs =>
      map (fun d => (id d, source_track_id d)) recs
      = [(20%Z, Some (JNum 2)); (30%Z, Some (JNum 2));
         (10%Z, Some (JNum 1)); (20%Z, Some (JNum 1))]
  | ErrorResponse _ _ => False
  end.
Proof. vm_compute. reflexivity. Qed.

End RecommendationsRuns.

(** ** Listing playlists *)

Section PlaylistsFacts.

Import Playlists.

Implicit Types (x y : playlist_info) (l s : list playlist_info).

Lemma py_lt_true x y :
  py_lt (key_of y) (key_of x) = Return true -> older_or_equal y x.
Proof.
  unfold py_lt, key_of, older_or_equal, flip, newer_or_equal.
  destruct (pi_last_updated y), (pi_last_updated x); try discriminate.
  intros [= H]. apply Z.ltb_lt in H. lia.
Qed.

Lemma py_lt_false x y :
  py_lt (key_of y) (key_of x) = Return false -> older_or_equal x y.
Proof.
  unfold py_lt, key_of, older_or_equal, flip, newer_or_equal.
  destruct (pi_last_updated y), (pi_last_updated x); try discriminate.
  intros [= H]. apply Z.ltb_ge in H. lia.
Qed.

Lemma insert_sorted_permutation x : forall s r,
  insert_sorted key_of x s = Return r -> r ≡ₚ x :: s.
Proof.
  induction s as [|y s IH]; intros r; simpl.
  - now intros [= <-].
  - destruct (py_lt (key_of y) (key_of x)) as [[|]|e]; simpl;
      try discriminate.
    + destruct (insert_sorted key_of x s) as [placed|e];
        simpl; [|discriminate].
      intros [= <-]. rewrite (IH placed eq_refl). apply Permutation_swap.
    + now intros [= <-].
Qed.

Lemma insert_sorted_sorted x : forall s r,
  Sorted older_or_equal s ->
  insert_sorted key_of x s = Return r ->
  Sorted older_or_equal r /\
  forall y, older_or_equal y x -> HdRel older_or_equal y s ->
            HdRel older_or_equal y r.
Proof.
  induction s as [|y s IH]; intros r Hs; simpl.
  - intros [= <-]. split; [repeat constructor|]. intros; now constructor.
  - destruct (py_lt (key_of y) (key_of x)) as [[|]|e] eqn:Hlt; simpl;
      try discriminate.
    + destruct (insert_sorted key_of x s) as [placed|e] eqn:Hins;
        simpl; [|discriminate].
      intros [= <-]. apply Sorted_inv in Hs as [Hs Hhd].
      destruct (IH placed Hs eq_refl) as [Hplaced Hhead].
      split.
      * constructor; [exact Hplaced|].
        apply Hhead; [now apply py_lt_true|exact Hhd].
      * intros z _ Hz. apply HdRel_inv in Hz. now constructor.
    + intros [= <-]. split.
      * constructor; [exact Hs|]. constructor. now apply py_lt_false.
      * intros z Hzx _. now constructor.
Qed.

Lemma sort_ascending_spec : forall l s,
  sort_ascending key_of l = Return s ->
  Sorted older_or_equal s /\ s ≡ₚ l.
Proof.
  induction l as [|x l IH]; intros s; simpl.
  - intros [= <-]. split; constructor.
  - destruct (sort_ascending key_of l) as [sorted_tail|e];
      simpl; [|discriminate].
    intros Hins. destruct (IH sorted_tail eq_refl) as [Hsorted Hperm].
    split.
    + exact (proj1 (insert_sorted_sorted x _ _ Hsorted Hins)).
    + rewrite (insert_sorted_permutation x _ _ Hins). now rewrite Hperm.
Qed.

(** Whenever the sort goes through, its result is the input put most
    recently updated first. *)
Lemma sorted_reverse_spec l r :
  sorted_reverse key_of l = Return r ->
  sorted_descending r /\ r ≡ₚ l.
Proof.
  unfold sorted_reverse.
  destruct (sort_ascending key_of (rev l)) as [s|e] eqn:Hs;
    simpl; [|discriminate].
  intros [= <-]. destruct (sort_ascending_spec _ _ Hs) as [Hsorted Hperm].
  split.
  - unfold sorted_descending. rewrite rev_alt.
    apply (Sorted_reverse older_or_equal s Hsorted).
  - rewrite <- (Permutation_rev s), Hperm. symmetry. apply Permutation_rev.
Qed.

(** [None] against anything, and anything against [None], raises. *)
Lemma py_lt_none x y :
  key_of x = KeyNone \/ key_of y = KeyNone ->
  exists e, py_lt (key_of y) (key_of x) = Raise e.
Proof.
  unfold py_lt.
  destruct (key_of x), (key_of y); intros [H|H]; try discriminate; eauto.
Qed.

(** Two or more items, one of them without a timestamp: some comparison
    meets [None] and the sort raises. *)
Lemma sort_ascending_raises : forall l,
  (2 <= length l)%nat ->
  (exists x, x ∈ l /\ key_of x = KeyNone) ->
  exists e, sort_ascending key_of l = Raise e.
Proof.
  induction l as [|x l IH]; intros Hlen (z & Hz & Hnone);
    simpl in *; [lia|].
  destruct (sort_ascending key_of l) as [s|e] eqn:Hs; simpl; [|eauto].
  destruct (sort_ascending_spec _ _ Hs) as [_ Hperm].
  destruct s as [|y s'].
  { apply Permutation_nil_l in Hperm. subst l. simpl in Hlen. lia. }
  simpl.
  destruct (key_of x) eqn:Hx.
  - destruct (py_lt_none x y (or_introl Hx)) as [e He].
    rewrite Hx in He. rewrite He. simpl. eauto.
  - destruct (key_of y) eqn:Hy.
    + simpl. eauto.
    + (* neither [x] nor [y] lacks the timestamp: it is missing deeper
         in [l], which then has two items and cannot have been sorted *)
      exfalso.
      assert (Hzl : z ∈ l).
      { apply elem_of_cons in Hz as [->|Hz]; [congruence|exact Hz]. }
      assert (Hyl : y ∈ l) by (rewrite <- Hperm; left).
      assert (Hyz : y <> z) by congruence.
      assert (Hlen2 : (2 <= length l)%nat).
      { destruct l as [|a [|b l']]; simpl; try lia.
        - inversion Hzl.
        - apply list_elem_of_singleton in Hzl, Hyl. congruence. }
      destruct (IH Hlen2) as [e He]; [eauto|]. congruence.
Qed.

Lemma sorted_reverse_raises l :
  (2 <= length l)%nat ->
  (exists x, x ∈ l /\ key_of x = KeyNone) ->
  exists e, sorted_reverse key_of l = Raise e.
Proof.
  intros Hlen (x & Hx & Hnone). unfold sorted_reverse.
  destruct (sort_ascending_raises (rev l)) as [e He].
  - now rewrite length_rev.
  - exists x. split; [|exact Hnone].
    apply list_elem_of_In. apply -> in_rev. now apply list_elem_of_In.
  - rewrite He. simpl. eauto.
Qed.

(** A listing that succeeds is sorted, and holds the user's playlists. *)
Lemma get_user_playlists_sorted playlists sorted_playlists :
  get_user_playlists (Return playlists) = PlaylistsResponse sorted_playlists ->
  sorted_descending sorted_playlists /\
  sorted_playlists ≡ₚ map make_playlist_info playlists.
Proof.
  unfold get_user_playlists. simpl.
  destruct (sorted_reverse key_of (map make_playlist_info playlists))
    as [r|e] eqn:Hr; simpl; [|discriminate].
  intros [= <-]. now apply sorted_reverse_spec.
Qed.

(** With two playlists or more, one playlist without a last-updated
    value turns the whole listing into an error. *)
Lemma get_user_playlists_fails playlists :
  (2 <= length playlists)%nat ->
  (exists p, p ∈ playlists /\ playlist_last_updated p = None) ->
  exists e, get_user_playlists (Return playlists) = ErrorResponse 500 e.
Proof.
  intros Hlen (p & Hp & Hnone). unfold get_user_playlists. simpl.
  destruct (sorted_reverse_raises (map make_playlist_info playlists))
    as [e He].
  - now rewrite length_map.
  - exists (make_playlist_info p). split.
    + apply list_elem_of_fmap. eauto.
    + unfold key_of. simpl. now rewrite Hnone.
  - rewrite He. simpl. eauto.
Qed.

End PlaylistsFacts.

Section PlaylistsRuns.

Import Playlists Samples.

(** C9 at work on two playlists, the second without a last-updated
    value: the comparison of its [None] with a timestamp raises inside
    [sorted], and the route answers 500 instead of a sorted list. *)
Theorem list_playlists_missing_timestamp :
  get_user_playlists (Return one_without_timestamp)
  = ErrorResponse 500
      "Error fetching playlists: '<' not supported between instances of 'datetime.datetime' and 'NoneType'".
Proof. reflexivity. Qed.

(** Playlists that all have a timestamp come back most recent first,
    equal timestamps in the order they were listed. *)
Example list_playlists_sorted :
  match get_user_playlists (Return all_with_timestamps) with
  | PlaylistsResponse l =>
      map (fun x => (pi_id x, pi_last_updated x)) l
      = [("b", Some 3%Z); ("d", Some 2%Z); ("a", Some 1%Z); ("c", Some 1%Z)]
  | ErrorResponse _ _ => False
  end.
Proof. reflexivity. Qed.

End PlaylistsRuns.

(** * Further properties of the code *)

(** ** Limits *)

Lemma bound_limit_bounds (limit max_n : Z) :
  (1 <= max_n)%Z -> (1 <= bound_limit limit max_n <= max_n)%Z.
Proof.
  intros Hmax. unfold bound_limit.
  destruct (Z.ltb_spec limit 1); [lia|].
  destruct (Z.gtb_spec limit max_n); lia.
Qed.

(** X1. [bound_limit] keeps a limit that lies between 1 and [max_n],
    raises a smaller one to 1 and lowers a larger one to [max_n]; with
    [max_n] at least 1 the result always lies between 1 and [max_n], and
    bounding twice changes nothing. *)
Theorem bound_limit_range (limit max_n : Z) :
  (1 <= max_n)%Z ->
  (1 <= bound_limit limit max_n <= max_n)%Z /\
  ((1 <= limit <= max_n)%Z -> bound_limit limit max_n = limit) /\
  ((limit < 1)%Z -> bound_limit limit max_n = 1%Z) /\
  ((max_n < limit)%Z -> bound_limit limit max_n = max_n) /\
  bound_limit (bound_limit limit max_n) max_n = bound_limit limit max_n.
Proof.
  intros Hmax. unfold bound_limit.
  destruct (Z.ltb_spec limit 1) as [Hlo|Hlo].
  - destruct (Z.ltb_spec 1 1); [lia|].
    destruct (Z.gtb_spec 1 max_n); [lia|].
    repeat split; try lia.
  - destruct (Z.gtb_spec limit max_n) as [Hhi|Hhi].
    + destruct (Z.ltb_spec max_n 1); [lia|].
      destruct (Z.gtb_spec max_n max_n); [lia|].
      repeat split; try lia.
    + destruct (Z.ltb_spec limit 1); [lia|].
      destruct (Z.gtb_spec limit max_n); [lia|].
      repeat split; try lia.
Qed.

Lemma bound_limit_range_witness :
  bound_limit 1000 50 = 50%Z /\ bound_limit 0 50 = 1%Z /\
  bound_limit 7 50 = 7%Z.
Proof.
  destruct (bound_limit_range 1000 50) as (_ & _ & _ & H1 & _); [lia|].
  destruct (bound_limit_range 0 50) as (_ & _ & H2 & _); [lia|].
  destruct (bound_limit_range 7 50) as (_ & H3 & _); [lia|].
  split; [apply H1; lia|]. split; [apply H2; lia|apply H3; lia].
Defined.

(** ** Session cache, call after call *)

Section SessionCallsFacts.

Import SessionCache SessionCalls.

Context {BrowserSession : Type}.
Implicit Types (w : world BrowserSession) (c : cache BrowserSession).

(** X2. A session validated at [t0] serves every request that arrives
    before [t0 + TTL], however many there are: each call returns that
    session, none looks at the credential file, and the cache stays as
    it was. *)
Theorem session_reused_until_ttl (s : BrowserSession) (t0 : Q)
    (ws : list (world BrowserSession)) :
  let c := {| _cached_session := Some s; _session_last_validated := t0 |} in
  Forall (fun w => (time_time w - t0 < SESSION_CACHE_TTL)%Q) ws ->
  Forall (fun r => result r = Return (Some s) /\ trace r = [] /\ after r = c)
         (calls ws c) /\
  cache_after ws c = c /\
  length (calls ws c) = length ws.
Proof.
  intros c Hws. induction Hws as [|w ws Hw Hws IH]; simpl.
  - repeat split. constructor.
  - assert (Hf : cache_fresh c (time_time w) = true)
      by (apply cache_fresh_true; exists s; split; [reflexivity|exact Hw]).
    rewrite (get_or_create_session_hit w c Hf). simpl.
    destruct IH as (IH1 & IH2 & IH3).
    split; [constructor; [repeat split|exact IH1]|].
    split; [exact IH2|now rewrite IH3].
Qed.

(** X3. A failure is not remembered: when a call has returned no session,
    the next call goes to the credential file again, at whatever time
    it is made, and returns the session found there if the file is valid
    by then. *)
Theorem no_session_is_not_cached w1 w2 c :
  result (get_or_create_session w1 c) = Return None ->
  let r2 := get_or_create_session w2 (after (get_or_create_session w1 c)) in
  _cached_session (after (get_or_create_session w1 c)) = None /\
  (exists evs, trace r2 = FileExists :: evs) /\
  (forall s, session_file_exists w2 = true ->
     new_BrowserSession w2 = Return s ->
     login_session_file_auto w2 s = Return true ->
     result r2 = Return (Some s)).
Proof.
  intros Hnone r2.
  assert (Hcleared : _cached_session (after (get_or_create_session w1 c)) = None).
  { destruct (cache_fresh c (time_time w1)) eqn:Hf.
    - rewrite (get_or_create_session_hit w1 c Hf) in Hnone |- *. simpl in *.
      congruence.
    - destruct (get_or_create_session_miss w1 c Hf)
        as (evs & _ & _ & _ & [(s & _ & _ & _ & Hr & _)|(_ & Ha & _)]).
      + congruence.
      + now rewrite Ha. }
  split; [exact Hcleared|].
  destruct (session_cache_ttl_aux w2 _ (or_introl Hcleared))
    as (H1 & _ & _ & _ & H5).
  split; [exact H1|].
  intros s He Hn Hl. exact (proj1 (H5 s He Hn Hl)).
Qed.

(** X4. What a call returns is what the cache holds afterwards, and the
    timestamp moves only in the step that stores a session validated in
    this call: otherwise it keeps its value, also when the entry is
    cleared. *)
Theorem result_is_cache_entry w c :
  let r := get_or_create_session w c in
  result r = Return (_cached_session (after r)) /\
  (_session_last_validated (after r) = _session_last_validated c \/
   exists s, new_BrowserSession w = Return s /\
             login_session_file_auto w s = Return true /\
             after r = {| _cached_session := Some s;
                          _session_last_validated := time_time w |}).
Proof.
  intros r. destruct (cache_fresh c (time_time w)) eqn:Hf.
  - subst r. rewrite (get_or_create_session_hit w c Hf). simpl. auto.
  - destruct (get_or_create_session_miss w c Hf)
      as (evs & _ & _ & _ & [(s & _ & Hn & Hl & Hr & Ha & _)|(Hr & Ha & _)]);
      fold r in Hr, Ha; rewrite Hr, Ha; simpl.
    + split; [reflexivity|]. right. exists s. auto.
    + auto.
Qed.

End SessionCallsFacts.

Section SessionCallsRuns.

Import SessionCache SessionCalls Samples.

Lemma session_reused_until_ttl_witness :
  Forall (fun r => result r = Return (Some 3%nat) /\ trace r = [] /\
                   after r = validated_at_200)
         (calls [file_valid_at_400; file_missing_at_400; file_corrupt_at_400]
                validated_at_200).
Proof.
  apply (session_reused_until_ttl 3%nat 200
           [file_valid_at_400; file_missing_at_400; file_corrupt_at_400]).
  repeat constructor.
Defined.

Lemma no_session_is_not_cached_witness :
  result (get_or_create_session file_valid_at_400
            (after (get_or_create_session file_missing_at_400
                      validated_at_100)))
  = Return (Some 7%nat).
Proof.
  apply (no_session_is_not_cached file_missing_at_400 file_valid_at_400
           validated_at_100); reflexivity.
Defined.

End SessionCallsRuns.

(** ** Supervisor: signals, waiting, executables *)

Section SupervisorToolsFacts.

Import Supervisor SupervisorTools.

Implicit Types (w : world) (p : popen).

(** X5. [shutdown_flask_app] asks before it forces: to what the child
    had been sent before, one call adds nothing, SIGTERM alone, or
    SIGTERM followed by SIGKILL, and SIGKILL only after the wait for
    the child has timed out. *)
Theorem shutdown_signal_order w p :
  exists p' sent,
    shutdown_flask_app w (Some p) = (Return tt, Some p') /\
    delivered p' = delivered p ++ sent /\
    (sent = [] \/ sent = [SIGTERM] \/ sent = [SIGTERM; SIGKILL]) /\
    (In SIGKILL sent ->
     fst (wait w (terminate w p)) = Raise TimeoutExpired) /\
    (forall rc, fst (wait w (terminate w p)) = Return rc ->
                ~ In SIGKILL sent).
Proof.
  unfold shutdown_flask_app, terminate, kill, send_signal, wait, poll.
  destruct (returncode p) as [rc|] eqn:Hrc; simpl.
  - rewrite Hrc. simpl. exists p, []. rewrite app_nil_r.
    repeat split; auto; try (intros []); intros ? _ [].
  - destruct (child_status w (status_queries p)) as [rc|]; simpl.
    + eexists _, []. simpl. rewrite app_nil_r.
      repeat split; auto; try (intros []); intros ? _ [].
    + destruct (child_status w (S (status_queries p))) as [rc|]; simpl.
      * eexists _, [SIGTERM]. simpl.
        repeat split; auto.
        -- intros [H|[]]. discriminate.
        -- intros ? _ [H|[]]. discriminate.
      * destruct (child_status w (S (S (status_queries p)))) as [rc|]; simpl.
        -- eexists _, [SIGTERM]. simpl.
           repeat split; auto. intros ? H. discriminate.
        -- eexists _, [SIGTERM; SIGKILL]. simpl.
           rewrite <- app_assoc. simpl.
           repeat split; auto. intros ? H. discriminate.
Qed.

Lemma wait_loop_sound w timeout fuel : forall i r,
  port_closed_until w timeout i ->
  wait_loop w timeout (time_time w 0) fuel i = Some r ->
  exists k, port_closed_until w timeout k /\
    match r with
    | Return true =>
        (time_time w (S k) - time_time w 0 < timeout)%Q /\
        connect_ex w k = Connect 0%Z
    | Return false => (timeout <= time_time w (S k) - time_time w 0)%Q
    | Raise e =>
        (time_time w (S k) - time_time w 0 < timeout)%Q /\
        connect_ex w k = OtherException e
    end.
Proof.
  induction fuel as [|fuel IH]; intros i r Hq; simpl; [discriminate|].
  destruct (Qltb _ _) eqn:Ht.
  - apply Qltb_lt in Ht.
    assert (Hnext : refused (connect_ex w i) ->
                    port_closed_until w timeout (S i)).
    { intros Hc j Hj. destruct (decide (j = i)) as [->|Hne]; [auto|].
      apply Hq. lia. }
    destruct (connect_ex w i) as [[|z|z]| |e] eqn:Hc.
    + intros [= <-]. exists i. auto.
    + apply IH, Hnext. simpl. discriminate.
    + apply IH, Hnext. simpl. discriminate.
    + apply IH, Hnext. exact I.
    + intros [= <-]. exists i. auto.
  - apply Qltb_ge in Ht. intros [= <-]. exists i. auto.
Qed.

Lemma wait_loop_ends w timeout start n : forall fuel i,
  (i <= n)%nat ->
  Qltb (time_time w (S n) - start) timeout = false ->
  (n - i < fuel)%nat ->
  wait_loop w timeout start fuel i <> None.
Proof.
  induction fuel as [|fuel IH]; intros i Hin Hn Hfuel; [lia|].
  simpl.
  destruct (Qltb (time_time w (S i) - start) timeout) eqn:Ht; [|discriminate].
  assert (i <> n) by (intros ->; congruence).
  destruct (connect_ex w i) as [[|z|z]| |e]; try discriminate;
    apply IH; auto; lia.
Qed.

(** With attempts that raise nothing but [socket.error] the loop ends
    with a value. *)
Lemma wait_loop_returns w timeout start :
  only_socket_errors w ->
  forall fuel i e, wait_loop w timeout start fuel i <> Some (Raise e).
Proof.
  intros Honly. induction fuel as [|fuel IH]; intros i e; simpl;
    [discriminate|].
  destruct (Qltb _ _); [|discriminate].
  destruct (connect_ex w i) as [[|z|z]| |e'] eqn:Hc;
    try discriminate; try apply IH.
  exfalso. exact (Honly i e' Hc).
Qed.

(** X6. [_wait_for_port] answers [True] only for a port that accepted a
    connection before the timeout, after attempts that all failed, and
    [False] only once the timeout is reached with every attempt failed;
    an exception leaves it only when a connection attempt made before
    the timeout raised it past the handler.  With a clock that moves on
    and the default timeout it ends within 61 turns of its loop, with an
    answer when the attempts raise nothing but [socket.error]. *)
Theorem wait_for_port_answer w timeout :
  (forall fuel b,
     _wait_for_port w timeout fuel = Some (Return b) ->
     exists k, port_closed_until w timeout k /\
       if b then (time_time w (S k) - time_time w 0 < timeout)%Q /\
                 connect_ex w k = Connect 0%Z
       else (timeout <= time_time w (S k) - time_time w 0)%Q) /\
  (forall fuel e,
     _wait_for_port w timeout fuel = Some (Raise e) ->
     exists k, port_closed_until w timeout k /\
       (time_time w (S k) - time_time w 0 < timeout)%Q /\
       connect_ex w k = OtherException e) /\
  (clock_advances w ->
   forall fuel, (61 <= fuel)%nat ->
   exists r, _wait_for_port w FLASK_STARTUP_TIMEOUT fuel = Some r /\
             (only_socket_errors w -> exists b, r = Return b)).
Proof.
  split; [|split].
  - intros fuel b Hw.
    destruct (wait_loop_sound w timeout fuel 0 (Return b)) as (k & Hq & Hk);
      [intros j Hj; lia|exact Hw|].
    exists k. split; [exact Hq|]. destruct b; exact Hk.
  - intros fuel e Hw.
    destruct (wait_loop_sound w timeout fuel 0 (Raise e)) as (k & Hq & Hk);
      [intros j Hj; lia|exact Hw|].
    exists k. split; [exact Hq|exact Hk].
  - intros Hclock fuel Hfuel. unfold _wait_for_port.
    destruct (wait_loop w FLASK_STARTUP_TIMEOUT (time_time w 0) fuel 0)
      as [r|] eqn:Hw.
    + exists r. split; [reflexivity|]. intros Honly.
      destruct r as [b|e]; [eauto|]. exfalso.
      exact (wait_loop_returns w _ _ Honly fuel 0 e Hw).
    + exfalso. revert Hw.
      apply (wait_loop_ends w FLASK_STARTUP_TIMEOUT (time_time w 0) 60);
        [lia| |lia].
      now apply timeout_by_60.
Qed.

End SupervisorToolsFacts.

Section SupervisorToolsRuns.

Import Supervisor SupervisorTools Samples.

Lemma wait_for_port_answer_witness :
  _wait_for_port port_opens_third FLASK_STARTUP_TIMEOUT 61
  = Some (Return true) /\
  exists r, _wait_for_port never_ready FLASK_STARTUP_TIMEOUT 61 = Some r /\
            (only_socket_errors never_ready -> exists b, r = Return b).
Proof.
  split; [reflexivity|].
  apply (proj2 (proj2 (wait_for_port_answer never_ready FLASK_STARTUP_TIMEOUT)));
    [|lia].
  apply whole_seconds_advance. reflexivity.
Defined.

End SupervisorToolsRuns.
Section ExecutablesFacts.

Import Executables.

Variable fs : filesystem.

Lemma first_executable_some matches p :
  first_executable fs matches = Some p ->
  p ∈ matches /\ executable_file fs p = true.
Proof.
  induction matches as [|m rest IH]; simpl; [discriminate|].
  destruct (executable_file fs m) eqn:Hm.
  - intros [= <-]. split; [left|exact Hm].
  - intros H. destruct (IH H). split; [now right|assumption].
Qed.

Lemma first_executable_none matches :
  first_executable fs matches = None <->
  forall m, m ∈ matches -> executable_file fs m = false.
Proof.
  induction matches as [|m rest IH]; simpl.
  - split; [intros _ m Hm; inversion Hm|reflexivity].
  - destruct (executable_file fs m) eqn:Hm.
    + split; [discriminate|]. intros H.
      specialize (H m (list_elem_of_here _ _)). congruence.
    + rewrite IH. split.
      * intros H x Hx. apply elem_of_cons in Hx as [->|Hx]; auto.
      * intros H x Hx. apply H. now right.
Qed.

(** Scanning the locations is taking the first executable candidate. *)
Lemma scan_locations_candidates locations :
  scan_locations fs locations
  = first_executable fs (candidates fs locations).
Proof.
  unfold candidates.
  induction locations as [|location rest IH]; simpl; [reflexivity|].
  destruct (contains "*" location).
  - rewrite IH. clear IH.
    induction (glob fs location) as [|m ms IHm]; simpl; [reflexivity|].
    destruct (executable_file fs m); [reflexivity|exact IHm].
  - simpl. destruct (executable_file fs location); [reflexivity|exact IH].
Qed.

(** X7. [find_uv_executable] always has an answer: the search path's
    when it gives one; else an executable file among the well-known
    locations; else the bare name [uv], and that only when none of those
    locations holds an executable file. *)
Theorem find_uv_executable_answer :
  (forall p, which fs "uv" = Some p -> p <> "" ->
             find_uv_executable fs = p) /\
  (found_in_path fs "uv" = None ->
   (exists p, p ∈ candidates fs (uv_locations fs) /\
              executable_file fs p = true /\
              find_uv_executable fs = p) \/
   ((forall c, c ∈ candidates fs (uv_locations fs) ->
               executable_file fs c = false) /\
    find_uv_executable fs = "uv")).
Proof.
  unfold find_uv_executable. split.
  - intros p Hp Hne. unfold found_in_path. rewrite Hp.
    destruct (String.eqb_spec p ""); [contradiction|reflexivity].
  - intros ->. rewrite scan_locations_candidates.
    destruct (first_executable fs (candidates fs (uv_locations fs)))
      as [p|] eqn:Hscan.
    + left. exists p. destruct (first_executable_some _ _ Hscan). auto.
    + right. split; [now apply first_executable_none|reflexivity].
Qed.

(** X8. [find_tdn_executable] answers with the search path's entry for
    [tdn], else for [tidal-dl-ng], else with an executable file among
    the well-known locations; it answers [None] exactly when the search
    path knows neither name and none of the locations holds an
    executable file. *)
Theorem find_tdn_executable_answer :
  (forall p, find_tdn_executable fs = Some p ->
     found_in_path fs "tdn" = Some p \/
     (found_in_path fs "tdn" = None /\
      found_in_path fs "tidal-dl-ng" = Some p) \/
     (found_in_path fs "tdn" = None /\
      found_in_path fs "tidal-dl-ng" = None /\
      p ∈ candidates fs (tdn_locations fs) /\
      executable_file fs p = true)) /\
  (find_tdn_executable fs = None <->
   found_in_path fs "tdn" = None /\
   found_in_path fs "tidal-dl-ng" = None /\
   forall c, c ∈ candidates fs (tdn_locations fs) ->
             executable_file fs c = false).
Proof.
  unfold find_tdn_executable.
  destruct (found_in_path fs "tdn") as [p1|].
  { split; [intros p [= <-]; auto|].
    split; [discriminate|intros (H & _); discriminate]. }
  destruct (found_in_path fs "tidal-dl-ng") as [p2|].
  { split; [intros p [= <-]; auto|].
    split; [discriminate|intros (_ & H & _); discriminate]. }
  rewrite scan_locations_candidates. split.
  - intros p Hp. destruct (first_executable_some _ _ Hp). auto 10.
  - rewrite first_executable_none. tauto.
Qed.

End ExecutablesFacts.

(** ** Downloads *)

Section DownloadsFacts.

Import Executables Downloads.
Import Stdlib.Strings.Ascii.

Context {unicode : UnicodeLower}.

(** A needle that starts with a character is not found in a text
    without that character, and is found behind such a text only if it is
    found in what follows. *)
Lemma contains_skip (c0 : Ascii.ascii) (needle' : string) :
  forall skipped s,
    (forall c, In c (list_ascii_of_string skipped) -> c <> c0) ->
    contains (String c0 needle') (skipped ++ s)%string
    = contains (String c0 needle') s.
Proof.
  induction skipped as [|c rest IH]; intros s Hno; [reflexivity|].
  change ((String c rest ++ s)%string) with (String c (rest ++ s)%string).
  cbn [contains String.prefix].
  destruct (Ascii.ascii_dec c0 c) as [->|_].
  - exfalso. apply (Hno c); [left|]; reflexivity.
  - simpl. apply IH. intros c' Hc'. apply Hno. now right.
Qed.

Lemma numeral_uint (d : Decimal.uint) : numeral (NilEmpty.string_of_uint d).
Proof. induction d; simpl; auto 20. Qed.

Lemma numeral_str_of_Z (z : Z) : numeral (str_of_Z z).
Proof.
  unfold str_of_Z, NilZero.string_of_int.
  destruct (Z.to_int z) as [d|d]; unfold NilZero.string_of_uint.
  - destruct d; simpl; auto 20 using numeral_uint.
  - simpl. split; [auto 20|].
    destruct d; simpl; auto 20 using numeral_uint.
Qed.

Lemma numeral_has_no_n s :
  numeral s -> forall c, In c (list_ascii_of_string s) -> c <> "n"%char.
Proof.
  induction s as [|a s IH]; simpl; [intros _ c []|].
  intros [Ha Hs] c [<-|Hc]; [|now apply IH].
  repeat (destruct Ha as [<-|Ha]; [discriminate|]). destruct Ha.
Qed.

(** The four types are texts in lower case already. *)
Lemma valid_types_lowered t : t ∈ valid_types -> str_lower t = t.
Proof.
  intros Ht. apply list_elem_of_In in Ht.
  destruct Ht as [<-|[<-|[<-|[<-|[]]]]]; reflexivity.
Qed.

Lemma append_empty (s : string) : (s ++ "")%string = s.
Proof.
  induction s as [|c s IH]; [reflexivity|].
  change ((String c s ++ "")%string) with (String c (s ++ "")%string).
  now rewrite IH.
Qed.

(** The messages about a run that was made never say "not installed". *)
Lemma exit_code_message_status (rc : Z) :
  contains "not installed"
    ("Download failed with exit code " ++ str_of_Z rc)%string = false.
Proof.
  simpl. change ("" ++ str_of_Z rc)%string with (str_of_Z rc).
  rewrite <- (append_empty (str_of_Z rc)).
  rewrite contains_skip by apply numeral_has_no_n, numeral_str_of_Z.
  reflexivity.
Qed.

Lemma timeout_message_status (timeout : Z) :
  contains "not installed"
    ("Download timed out after " ++ str_of_Z timeout ++ " seconds")%string
  = false.
Proof.
  simpl.
  change ("" ++ (str_of_Z timeout ++ " seconds"))%string
    with (str_of_Z timeout ++ " seconds")%string.
  rewrite contains_skip by apply numeral_has_no_n, numeral_str_of_Z.
  reflexivity.
Qed.

(** A run that was made is never reported as a missing installation. *)
Lemma report_status done timeout r :
  (forall e, r <> RunError e) ->
  status (report done timeout r) <> "success" ->
  failure_status (report done timeout r) = 400%Z.
Proof.
  intros Hr. unfold failure_status, report.
  destruct r as [rc out err| |e].
  - destruct (rc =? 0)%Z; [simpl; congruence|]. intros _.
    destruct (mentions_login out err); cbn [message].
    + reflexivity.
    + now rewrite exit_code_message_status.
  - intros _. cbn [message]. now rewrite timeout_message_status.
  - now destruct (Hr e).
Qed.

Lemma report_success done timeout r :
  status (report done timeout r) = "success" <->
  exists out err, r = Completed 0 out err.
Proof.
  unfold report. destruct r as [rc out err| |e].
  - destruct (Z.eqb_spec rc 0) as [->|Hne].
    + split; [eauto|reflexivity].
    + split.
      * destruct (mentions_login out err); discriminate.
      * intros (o & e & [= ? _ _]). contradiction.
  - split; [discriminate|intros (? & ? & [=])].
  - split; [discriminate|intros (? & ? & [=])].
Qed.

Section WithSystem.

Variable fs : filesystem.
Variable subprocess_run : list string -> Z -> run_outcome.
Variable py_repr : json -> string.

(** X9. [execute_tdn_download] runs at most one command, and only
    [<tdn> dl <url>] with the executable that was found; without an
    executable it runs nothing and says that the tool is not installed.
    It reports success exactly when that command finished with exit
    code 0, and then hands on its output. *)
Theorem execute_tdn_download_runs url timeout :
  let e := execute_tdn_download fs subprocess_run url timeout in
  (find_tdn_executable fs = None ->
   result e = not_installed /\ commands e = []) /\
  (forall tdn_path, find_tdn_executable fs = Some tdn_path ->
     commands e = [[tdn_path; "dl"; url]]) /\
  (status (result e) = "success" <->
   exists tdn_path out err,
     find_tdn_executable fs = Some tdn_path /\
     subprocess_run [tdn_path; "dl"; url] timeout = Completed 0 out err /\
     stdout (result e) = Some out /\ stderr (result e) = Some err).
Proof.
  intros e. subst e. unfold execute_tdn_download.
  destruct (find_tdn_executable fs) as [p|]; cbn [result commands].
  - split; [discriminate|]. split; [now intros ? [= <-]|].
    rewrite report_success. split.
    + intros (out & err & Hrun). exists p, out, err. rewrite Hrun. auto.
    + intros (p' & out & err & [= <-] & Hrun & _). eauto.
  - split; [auto|]. split; [discriminate|].
    split; [discriminate|intros (? & ? & ? & [=] & _)].
Qed.

(** What a route makes of a body that is a dict holding the key. *)
Lemma download_content_of_dict key content_type label timeout d v :
  dict_get d key = Some v ->
  download_content fs subprocess_run py_repr key content_type label timeout
    (Return (JDict d))
  = let url := build_tidal_url content_type (py_str py_repr v) in
    let run := execute_tdn_download fs subprocess_run url timeout in
    if (status (result run) =? "success")%string then
      (Downloaded (label ++ " " ++ py_str py_repr v
                     ++ " downloaded successfully")%string
                  (Some url) (default "" (stdout (result run))),
       commands run)
    else (Failed (failure_status (result run)) (result run), commands run).
Proof.
  intros Hv. unfold download_content. simpl.
  rewrite (lacks_key d key v Hv). simpl. rewrite Hv. simpl.
  destruct (status _ =? "success")%string; reflexivity.
Qed.

(** X10. The routes [download_track], [download_album] and
    [download_playlist_content].  A request without a JSON body is
    answered 500 and runs nothing.  A body that is not true (null, an
    empty dict) and a dict without the key are answered 400 and run
    nothing; a body that is not a dict runs nothing either and is
    answered 400 when the key is not in it, 500 otherwise.  For a dict
    with the key, the one command run is
    [<tdn> dl https://tidal.com/browse/<type>/<id>]; the answer is 200
    exactly when that command finished with exit code 0, 500 when the
    tool is not found, and 400 when the command finished with another
    exit code or timed out. *)
Theorem download_content_status key content_type label timeout get_json :
  let answer :=
    download_content fs subprocess_run py_repr key content_type label timeout
      get_json in
  let code := status_code_of (fst answer) in
  (forall e, get_json = Raise e ->
     answer = (ErrorBody 500 ("Error downloading " ++ content_type ++ ": "
                                ++ e)%string, [])) /\
  (forall v, get_json = Return v -> truthy v = false ->
     code = 400%Z /\ snd answer = []) /\
  (forall d, get_json = Return (JDict d) -> dict_get d key = None ->
     code = 400%Z /\ snd answer = []) /\
  (forall v, get_json = Return v -> truthy v = true ->
     (forall d, v <> JDict d) ->
     snd answer = [] /\
     code = match py_in key v with
            | Return false => 400%Z
            | _ => 500%Z
            end) /\
  (forall d v, get_json = Return (JDict d) -> dict_get d key = Some v ->
     let url := build_tidal_url content_type (py_str py_repr v) in
     (find_tdn_executable fs = None -> code = 500%Z /\ snd answer = []) /\
     (forall tdn_path, find_tdn_executable fs = Some tdn_path ->
        snd answer = [[tdn_path; "dl"; url]] /\
        (code = 200%Z <->
         exists out err,
           subprocess_run [tdn_path; "dl"; url] timeout
           = Completed 0 out err) /\
        (forall rc out err,
           subprocess_run [tdn_path; "dl"; url] timeout
           = Completed rc out err -> rc <> 0%Z -> code = 400%Z) /\
        (subprocess_run [tdn_path; "dl"; url] timeout = RunTimeout ->
         code = 400%Z))).
Proof.
  intros answer code. split; [|split; [|split; [|split]]].
  - intros e ->. reflexivity.
  - intros v -> Hv. subst code answer. unfold download_content, lacks.
    simpl. rewrite Hv. split; reflexivity.
  - intros d -> Hd. subst code answer. unfold download_content. simpl.
    rewrite (lacks_no_key d key Hd). split; reflexivity.
  - intros v -> Hv Hnd. subst code answer. unfold download_content, lacks.
    simpl. rewrite Hv. simpl.
    destruct v as [| | | |s|l|d]; try discriminate Hv;
      try (split; reflexivity).
    + simpl. destruct (contains key s); split; reflexivity.
    + simpl. destruct (existsb _ l); split; reflexivity.
    + now destruct (Hnd d).
  - intros d v -> Hv url.
    assert (Hanswer : answer =
      let run := execute_tdn_download fs subprocess_run url timeout in
      if (status (result run) =? "success")%string then
        (Downloaded (label ++ " " ++ py_str py_repr v
                       ++ " downloaded successfully")%string
                    (Some url) (default "" (stdout (result run))),
         commands run)
      else (Failed (failure_status (result run)) (result run), commands run)).
    { subst answer. now apply download_content_of_dict. }
    subst code. rewrite Hanswer. clear Hanswer answer.
    unfold execute_tdn_download.
    destruct (find_tdn_executable fs) as [p|]; cbn [result commands].
    + split; [discriminate|]. intros ? [= <-].
      set (r := subprocess_run [p; "dl"; url] timeout).
      destruct (String.eqb_spec
                  (status (report "Download completed" timeout r)) "success")
        as [Hs|Hs]; cbn [fst snd status_code_of].
      * apply report_success in Hs as (out & err & Hr).
        split; [reflexivity|]. split; [split; eauto|].
        split; [intros rc o e' Hr' Hrc; congruence|congruence].
      * split; [reflexivity|].
        assert (Hno : ~ exists out err, r = Completed 0 out err)
          by (intros Hex; apply Hs; now apply report_success).
        split; [|split].
        -- split; [|intros Hex; contradiction].
           intros Hc. exfalso. revert Hc. unfold failure_status.
           destruct (contains _ _); discriminate.
        -- intros rc out err Hr _. apply report_status; [|exact Hs].
           intros e. rewrite Hr. discriminate.
        -- intros Hr. apply report_status; [|exact Hs].
           intros e. rewrite Hr. discriminate.
    + split; [intros _; split; reflexivity|discriminate].
Qed.

(** X11. Favorites are downloaded for the four known types only.
    [execute_tdn_download_favorites] compares the type lowered by
    [str.lower()]: when that is none of the four it runs nothing and
    answers with an error (a 400 for the route), whatever is installed;
    any command that it runs is [<tdn> dl_fav <type>] with the lowered
    type, one of the four.  The route lowers the type of the body
    itself before it hands it on: a body whose lowered type is one of
    the four runs [<tdn> dl_fav] with exactly that text when the tool is
    found, and a body whose type is still none of the four after both
    lowerings is answered 400 with nothing run. *)
Theorem download_favorites_commands favorite_type timeout :
  let e := execute_tdn_download_favorites fs subprocess_run favorite_type
             timeout in
  (str_lower favorite_type ∉ valid_types ->
   commands e = [] /\ status (result e) = "error" /\
   failure_status (result e) = 400%Z) /\
  (forall argv, argv ∈ commands e ->
     exists tdn_path t,
       find_tdn_executable fs = Some tdn_path /\ t ∈ valid_types /\
       t = str_lower favorite_type /\ argv = [tdn_path; "dl_fav"; t]) /\
  (forall d v, dict_get d "type" = Some v ->
     let fav_type := str_lower (py_str py_repr v) in
     (fav_type ∈ valid_types ->
      forall tdn_path, find_tdn_executable fs = Some tdn_path ->
        snd (download_favorites fs subprocess_run py_repr (Return (JDict d)))
        = [[tdn_path; "dl_fav"; fav_type]]) /\
     (str_lower fav_type ∉ valid_types ->
      download_favorites fs subprocess_run py_repr (Return (JDict d))
      = (Failed 400
           {| status := "error";
              message := "Invalid favorite type. Must be one of: tracks, albums, artists, videos";
              stdout := None; stderr := None |}, []))).
Proof.
  intros e. subst e. unfold execute_tdn_download_favorites. split; [|split].
  - intros Hbad. rewrite bool_decide_eq_false_2 by exact Hbad. simpl.
    repeat split.
  - intros argv. destruct (bool_decide_reflect
                             (str_lower favorite_type ∈ valid_types))
      as [Hok|Hbad]; simpl; [|intros Hin; inversion Hin].
    destruct (find_tdn_executable fs) as [p|]; simpl;
      [|intros Hin; inversion Hin].
    intros Hin. apply list_elem_of_singleton in Hin as ->.
    exists p, (str_lower favorite_type). auto.
  - intros d v Hv. cbv zeta.
    set (fav_type := str_lower (py_str py_repr v)).
    assert (Hroute :
      download_favorites fs subprocess_run py_repr (Return (JDict d))
      = let run := execute_tdn_download_favorites fs subprocess_run fav_type
                     1800 in
        if (status (result run) =? "success")%string then
          (Downloaded ("Favorite " ++ fav_type
                         ++ " downloaded successfully")%string
                      None (default "" (stdout (result run))),
           commands run)
        else (Failed (failure_status (result run)) (result run),
              commands run)).
    { unfold download_favorites. simpl.
      rewrite (lacks_key d "type" v Hv). simpl. rewrite Hv. simpl.
      fold fav_type.
      destruct (status _ =? "success")%string; reflexivity. }
    rewrite Hroute. clear Hroute. unfold execute_tdn_download_favorites.
    split.
    + intros Hok tdn_path Hp.
      rewrite (valid_types_lowered fav_type Hok).
      rewrite bool_decide_eq_true_2 by exact Hok. simpl. rewrite Hp.
      cbv zeta. cbn [result commands].
      destruct (status _ =? "success")%string; reflexivity.
    + intros Hbad.
      rewrite bool_decide_eq_false_2 by exact Hbad. reflexivity.
Qed.

End WithSystem.

End DownloadsFacts.

(** ** Searching *)

Section SearchFacts.

Import BatchSearch Search.

Context {unicode : UnicodeLower}.

(** The route either accepts the request, or answers with an error that
    is the same for every client. *)
Lemma batch_search_cases py_repr get_json :
  (exists d qs limit,
      get_json = Return (JDict d) /\ dict_get d "queries" = Some (JList qs) /\
      (1 <= length qs <= 100)%nat /\ limit_of d = Return limit) \/
  (exists status e,
      (status = 400%Z \/ status = 500%Z) /\
      forall search,
        batch_search search py_repr get_json
        = BatchSearch.ErrorResponse status e).
Proof.
  destruct get_json as [v|e];
    [|right; exists 500%Z; eexists; split; [auto|reflexivity]].
  destruct (truthy v) eqn:Hv.
  2:{ right. exists 400%Z. eexists. split; [auto|]. intros search.
      unfold batch_search, batch_search_body, lacks. simpl. rewrite Hv.
      reflexivity. }
  destruct v as [|b|z|f|s|l|d]; try discriminate Hv.
  - simpl in Hv. subst b.
    right. exists 500%Z. eexists. split; [auto|reflexivity].
  - right. exists 500%Z. eexists. split; [auto|]. intros search.
    unfold batch_search, batch_search_body, lacks.
    cbn [mbind outcome_bind Py.bind]. rewrite Hv. reflexivity.
  - right. exists 500%Z. eexists. split; [auto|]. intros search.
    unfold batch_search, batch_search_body, lacks.
    cbn [mbind outcome_bind Py.bind]. rewrite Hv. reflexivity.
  - destruct (contains "queries" s) eqn:Hc;
      right; [exists 500%Z|exists 400%Z]; eexists; (split; [auto|]);
      intros search; unfold batch_search, batch_search_body, lacks;
      cbn [mbind outcome_bind Py.bind]; rewrite Hv; simpl; rewrite Hc;
      reflexivity.
  - destruct (existsb (fun x => match x with
                                | JStr s => (s =? "queries")%string
                                | _ => false
                                end) l) eqn:Hc;
      right; [exists 500%Z|exists 400%Z]; eexists; (split; [auto|]);
      intros search; unfold batch_search, batch_search_body, lacks;
      cbn [mbind outcome_bind Py.bind]; rewrite Hv; simpl; rewrite Hc;
      reflexivity.
  - destruct (dict_get d "queries") as [q|] eqn:Hq.
    2:{ right. exists 400%Z. eexists. split; [auto|]. intros search.
        unfold batch_search, batch_search_body. simpl.
        rewrite (lacks_no_key d "queries" Hq). reflexivity. }
    assert (Hbody : forall search,
      batch_search_body search py_repr (Return (JDict d))
      = match q with
        | JList qs =>
            if (length qs =? 0)%nat then
              Return (BatchSearch.ErrorResponse 400
                        "'queries' must be a non-empty list")
            else if (100 <? length qs)%nat then
              Return (BatchSearch.ErrorResponse 400
                        "Maximum 100 queries per batch")
            else
              limit ← limit_of d;
              Return (BatchResults
                        (batch_loop search py_repr limit 0 qs [])
                        (length (batch_loop search py_repr limit 0 qs [])))
        | _ => Return (BatchSearch.ErrorResponse 400
                         "'queries' must be a non-empty list")
        end).
    { intros search. unfold batch_search_body. simpl.
      rewrite (lacks_key d "queries" q Hq). simpl. rewrite Hq.
      destruct q; reflexivity. }
    destruct q as [| | | | |qs|];
      try (right; exists 400%Z; eexists; split; [auto|]; intros search;
           unfold batch_search; rewrite Hbody; reflexivity).
    destruct (Nat.eqb_spec (length qs) 0) as [H0|H0].
    { right. exists 400%Z. eexists. split; [auto|]. intros search.
      unfold batch_search. rewrite Hbody.
      destruct (Nat.eqb_spec (length qs) 0); [reflexivity|contradiction]. }
    destruct (Nat.ltb_spec 100 (length qs)) as [H1|H1].
    { right. exists 400%Z. eexists. split; [auto|]. intros search.
      unfold batch_search. rewrite Hbody.
      destruct (Nat.eqb_spec (length qs) 0); [contradiction|].
      destruct (Nat.ltb_spec 100 (length qs)); [reflexivity|lia]. }
    destruct (limit_of d) as [limit|e] eqn:Hl.
    + left. exists d, qs, limit. repeat split; auto; lia.
    + right. exists 500%Z. eexists. split; [auto|]. intros search.
      apply (batch_search_bad_limit search py_repr d qs e Hq); [lia|exact Hl].
Qed.

(** X12. [batch_search] answers with results exactly for a body that is
    a dict whose ['queries'] is a list of 1 to 100 items and whose
    ['limit_per_query'] is absent, a number or a boolean.  Every
    other request is answered with an error of status 400 or 500 that
    does not depend on the client: 500 for a request without a JSON
    body, and for such a list of queries sent with any other value as
    the limit. *)
Theorem batch_search_accepts_only_lists search py_repr get_json :
  ((exists results total,
      batch_search search py_repr get_json = BatchResults results total) <->
   (exists d qs limit,
      get_json = Return (JDict d) /\ dict_get d "queries" = Some (JList qs) /\
      (1 <= length qs <= 100)%nat /\ limit_of d = Return limit)) /\
  ((forall results total,
      batch_search search py_repr get_json <> BatchResults results total) ->
   (exists status e,
      batch_search search py_repr get_json
      = BatchSearch.ErrorResponse status e /\
      (status = 400%Z \/ status = 500%Z)) /\
   forall search', batch_search search' py_repr get_json
                   = batch_search search py_repr get_json) /\
  (forall e, get_json = Raise e ->
     batch_search search py_repr get_json
     = BatchSearch.ErrorResponse 500 ("Batch search failed: " ++ e)%string) /\
  (forall d qs e,
     get_json = Return (JDict d) -> dict_get d "queries" = Some (JList qs) ->
     (1 <= length qs <= 100)%nat -> limit_of d = Raise e ->
     batch_search search py_repr get_json
     = BatchSearch.ErrorResponse 500 ("Batch search failed: " ++ e)%string).
Proof.
  pose proof (batch_search_cases py_repr get_json) as Hcases.
  split; [|split; [|split]].
  - split.
    + intros (results & total & Hr).
      destruct Hcases as [Hok|(status & e & _ & He)]; [exact Hok|].
      rewrite He in Hr. discriminate.
    + intros (d & qs & limit & -> & Hq & Hlen & Hl).
      rewrite (batch_search_accepts search py_repr d qs limit Hq Hlen Hl).
      eauto.
  - intros Hno.
    destruct Hcases as [(d & qs & limit & -> & Hq & Hlen & Hl)
                       |(status & e & Hst & He)].
    + exfalso. eapply Hno.
      apply (batch_search_accepts search py_repr d qs limit Hq Hlen Hl).
    + split; [exists status, e; split; [apply He|exact Hst]|].
      intros search'. now rewrite !He.
  - intros e ->. reflexivity.
  - intros d qs e -> Hq Hlen Hl.
    now apply (batch_search_bad_limit search py_repr d qs e).
Qed.

(** X13. The search route rejects an empty query and a type that is not
    one of the five known ones (compared in lower case) with 400,
    whatever the client would answer; otherwise its answer is made from
    the client's answer to the query, searched with a limit between 1 and
    300, and an exception of the client becomes a 500. *)
Theorem search_validates session_search a :
  let query := default "" (Search.q a) in
  let search_type := str_lower (default "all" (Search.type a)) in
  let limit := bound_limit (default 50%Z (Search.limit a)) 300 in
  (1 <= limit <= 300)%Z /\
  (query = "" ->
   search session_search a
   = Search.ErrorResponse 400 "Query parameter 'q' is required") /\
  (query <> "" -> ~ In search_type ["track"; "album"; "artist"; "playlist"; "all"] ->
   search session_search a
   = Search.ErrorResponse 400
       ("Invalid search type '" ++ search_type
          ++ "'. Must be one of: track, album, artist, playlist, all")%string) /\
  (query <> "" -> In search_type ["track"; "album"; "artist"; "playlist"; "all"] ->
   exists models,
     model_map search_type = Some models /\
     search session_search a
     = match session_search query models limit with
       | Return results => results_of results
       | Raise e => Search.ErrorResponse 500 ("Search failed: " ++ e)%string
       end).
Proof.
  intros query search_type limit.
  split; [apply bound_limit_bounds; lia|].
  unfold search. fold query search_type limit.
  split; [intros ->; reflexivity|].
  assert (Hmap : In search_type ["track"; "album"; "artist"; "playlist"; "all"]
                 <-> exists models, model_map search_type = Some models).
  { unfold model_map. simpl.
    destruct (String.eqb_spec search_type "track"); [split; eauto|].
    destruct (String.eqb_spec search_type "album"); [split; eauto 10|].
    destruct (String.eqb_spec search_type "artist"); [split; eauto 10|].
    destruct (String.eqb_spec search_type "playlist"); [split; eauto 10|].
    destruct (String.eqb_spec search_type "all"); [split; eauto 10|].
    split; [intuition congruence|intros (m & [=])]. }
  split.
  - intros Hq Hty. destruct (String.eqb_spec query ""); [contradiction|].
    destruct (model_map search_type) as [m|] eqn:Hm; [|reflexivity].
    exfalso. apply Hty, Hmap. eauto.
  - intros Hq Hty. destruct (String.eqb_spec query ""); [contradiction|].
    apply Hmap in Hty as (m & Hm). exists m. now rewrite Hm.
Qed.

(** X14. The two searches treat a client's answer alike, with two
    differences.  For the five known types they ask for the same models;
    for any other type the search route refuses and the batch search
    searches tracks.  They format the answer alike, except that a top
    hit that is a playlist is passed on by the search route and left out
    by the batch search. *)
Theorem batch_and_single_search q search_type results :
  (forall lowered,
     (In lowered ["track"; "album"; "artist"; "playlist"; "all"] ->
      model_map lowered = Some (model_map_get lowered)) /\
     (~ In lowered ["track"; "album"; "artist"; "playlist"; "all"] ->
      model_map lowered = None /\
      model_map_get lowered = Some [TrackModel])) /\
  exists top_hit tracks albums artists playlists batch_top_hit,
    results_of results = Results top_hit tracks albums artists playlists /\
    hits_of q search_type results
    = Hits q search_type tracks albums artists playlists batch_top_hit /\
    match sr_top_hit results with
    | Some (TopPlaylist p) =>
        top_hit = Some (HitPlaylist (format_playlist_data p)) /\
        batch_top_hit = None
    | _ => top_hit = of_batch <$> batch_top_hit
    end.
Proof.
  split.
  - intros lowered. unfold model_map, model_map_get. simpl.
    destruct (String.eqb_spec lowered "track");
      [subst; split; [reflexivity|intros H; exfalso; apply H; simpl; auto 10]|].
    destruct (String.eqb_spec lowered "album");
      [subst; split; [reflexivity|intros H; exfalso; apply H; simpl; auto 10]|].
    destruct (String.eqb_spec lowered "artist");
      [subst; split; [reflexivity|intros H; exfalso; apply H; simpl; auto 10]|].
    destruct (String.eqb_spec lowered "playlist");
      [subst; split; [reflexivity|intros H; exfalso; apply H; simpl; auto 10]|].
    destruct (String.eqb_spec lowered "all");
      [subst; split; [reflexivity|intros H; exfalso; apply H; simpl; auto 10]|].
    split; [intuition congruence|auto].
  - unfold results_of, hits_of. do 6 eexists.
    split; [reflexivity|]. split; [reflexivity|].
    destruct (sr_top_hit results) as [[t|a|a|p|]|]; simpl; auto.
Qed.

End SearchFacts.

(** ** Playlist routes *)

Section PlaylistRoutesFacts.

Import PlaylistRoutes.

Variable c : client.

Lemma no_track_ids_of_dict d :
  no_track_ids (JDict d)
  = Return match dict_get d "track_ids" with
           | Some v => negb (truthy v)
           | None => true
           end.
Proof.
  unfold no_track_ids. simpl.
  destruct (dict_get d "track_ids"); reflexivity.
Qed.

(** A body that is not a dict never gets past the test for the track
    identifiers. *)
Lemma no_track_ids_not_dict v :
  (forall d, v <> JDict d) ->
  no_track_ids v = Return true \/ exists e, no_track_ids v = Raise e.
Proof.
  intros Hnd. unfold no_track_ids.
  destruct v as [| | | |s|l|d]; simpl; eauto.
  - destruct (contains "track_ids" s); simpl; eauto.
  - destruct (existsb _ l); simpl; eauto.
  - now destruct (Hnd d).
Qed.

(** What [create_playlist] does with a body that is a dict. *)
Lemma create_playlist_of_dict c0 d :
  create_playlist c0 (Return (JDict d))
  = if negb (truthy (JDict d)) then refused 400 "Missing request body"
    else
      match dict_get d "title" with
      | None => refused 400 "Missing 'title' in request body"
      | Some title =>
          match dict_get d "track_ids" with
          | None =>
              refused 400
                "Missing 'track_ids' in request body or empty track list"
          | Some t =>
              if negb (truthy t) then
                refused 400
                  "Missing 'track_ids' in request body or empty track list"
              else
                match t with
                | JList track_ids =>
                    let description :=
                      default (JStr "") (dict_get d "description") in
                    match user_create_playlist c0 title description with
                    | Raise e =>
                        {| answer := ErrorResponse 500
                                       ("Error creating playlist: " ++ e)%string;
                           calls := [CreatePlaylist title description] |}
                    | Return playlist =>
                        match playlist_add c0 playlist track_ids None with
                        | Raise e =>
                            {| answer := ErrorResponse 500
                                 ("Error creating playlist: " ++ e)%string;
                               calls := [CreatePlaylist title description;
                                         AddTracks playlist track_ids None] |}
                        | Return (_, playlist') =>
                            {| answer := Created title (length track_ids)
                                                 playlist';
                               calls := [CreatePlaylist title description;
                                         AddTracks playlist track_ids None] |}
                        end
                    end
                | _ => refused 400 "'track_ids' must be a list"
                end
          end
      end.
Proof.
  unfold create_playlist. cbn [mbind outcome_bind Py.bind].
  destruct (truthy (JDict d)) eqn:Hv; cbn [negb]; [|reflexivity].
  cbn [py_in mbind outcome_bind Py.bind].
  destruct (dict_get d "title") as [title|] eqn:Ht; cbn [negb];
    [|reflexivity].
  rewrite no_track_ids_of_dict. cbn [mbind outcome_bind Py.bind].
  destruct (dict_get d "track_ids") as [t|] eqn:Hi; [|reflexivity].
  destruct (truthy t); cbn [negb]; [|reflexivity].
  cbn [py_getitem py_get mbind outcome_bind Py.bind].
  rewrite Ht, Hi. cbn [mbind outcome_bind Py.bind].
  destruct t; try reflexivity.
  destruct (user_create_playlist c0 _ _) as [p|e]; [|reflexivity].
  destruct (playlist_add c0 p _ _) as [[a p']|e]; reflexivity.
Qed.

(** A body that is not a dict is refused: with 400 when it is not
    true or does not hold the keys asked for, with 500 when the route
    reaches an operation that only a dict has. *)
Lemma create_playlist_not_dict v :
  (forall d, v <> JDict d) ->
  exists status e,
    (status = 400%Z \/ status = 500%Z) /\
    forall c0, create_playlist c0 (Return v) = refused status e.
Proof.
  intros Hnd.
  assert (Hform : forall c0,
    create_playlist c0 (Return v)
    = if negb (truthy v) then refused 400 "Missing request body"
      else
        match py_in "title" v with
        | Raise e => refused 500 ("Error creating playlist: " ++ e)%string
        | Return false => refused 400 "Missing 'title' in request body"
        | Return true =>
            match no_track_ids v with
            | Raise e => refused 500 ("Error creating playlist: " ++ e)%string
            | Return _ =>
                refused 400
                  "Missing 'track_ids' in request body or empty track list"
            end
        end).
  { intros c0. unfold create_playlist. cbn [mbind outcome_bind Py.bind].
    destruct (truthy v); cbn [negb]; [|reflexivity].
    destruct (py_in "title" v) as [[|]|e];
      cbn [negb mbind outcome_bind Py.bind]; try reflexivity.
    destruct (no_track_ids_not_dict v Hnd) as [Hn|[e Hn]]; rewrite Hn;
      reflexivity. }
  destruct (truthy v).
  2:{ exists 400%Z. eexists. split; [auto|]. intros c0. now rewrite Hform. }
  destruct (py_in "title" v) as [[|]|e].
  - destruct (no_track_ids v) as [b|e].
    + exists 400%Z. eexists. split; [auto|]. intros c0. now rewrite Hform.
    + exists 500%Z. eexists. split; [auto|]. intros c0. now rewrite Hform.
  - exists 400%Z. eexists. split; [auto|]. intros c0. now rewrite Hform.
  - exists 500%Z. eexists. split; [auto|]. intros c0. now rewrite Hform.
Qed.

(** The request that [create_playlist] accepts is a dict with a title and
    a list of track identifiers that is not empty; every other request is
    refused, in the same way for every client. *)
Lemma create_playlist_cases get_json :
  (exists d title id0 ids,
     get_json = Return (JDict d) /\
     dict_get d "title" = Some title /\
     dict_get d "track_ids" = Some (JList (id0 :: ids))) \/
  (exists status e,
     (status = 400%Z \/ status = 500%Z) /\
     (forall d, get_json = Return (JDict d) -> status = 400%Z) /\
     forall c0, create_playlist c0 get_json = refused status e).
Proof.
  destruct get_json as [v|e].
  2:{ right. exists 500%Z. eexists. split; [auto|].
      split; [discriminate|reflexivity]. }
  assert (Hdict : (exists d, v = JDict d) \/ forall d, v <> JDict d).
  { destruct v; try (right; discriminate). left. eauto. }
  destruct Hdict as [[d ->]|Hnd].
  2:{ right. destruct (create_playlist_not_dict v Hnd) as (status & e & Hs & He).
      exists status, e. split; [exact Hs|]. split; [|exact He].
      intros d [= ->]. now destruct (Hnd d). }
  assert (Hrefused : forall e,
    (forall c0, create_playlist c0 (Return (JDict d)) = refused 400 e) ->
    exists status e',
      (status = 400%Z \/ status = 500%Z) /\
      (forall d', Return (JDict d) = Return (JDict d') -> status = 400%Z) /\
      forall c0, create_playlist c0 (Return (JDict d)) = refused status e').
  { intros e He. exists 400%Z, e. auto. }
  destruct (truthy (JDict d)) eqn:Hv.
  2:{ right. eapply Hrefused. intros c0.
      rewrite create_playlist_of_dict, Hv. reflexivity. }
  destruct (dict_get d "title") as [title|] eqn:Ht.
  2:{ right. eapply Hrefused. intros c0.
      rewrite create_playlist_of_dict, Hv, Ht. reflexivity. }
  destruct (dict_get d "track_ids") as [t|] eqn:Hi.
  2:{ right. eapply Hrefused. intros c0.
      rewrite create_playlist_of_dict, Hv, Ht, Hi. reflexivity. }
  destruct (truthy t) eqn:Htt.
  2:{ right. eapply Hrefused. intros c0.
      rewrite create_playlist_of_dict, Hv, Ht, Hi, Htt. reflexivity. }
  destruct t as [| | | | |[|id0 ids]|];
    try (right; eapply Hrefused; intros c0;
         rewrite create_playlist_of_dict, Hv, Ht, Hi, Htt; reflexivity).
  - discriminate Htt.
  - left. exists d, title, id0, ids. auto.
Qed.

(** X15. [create_playlist] touches the account only for a request whose
    body is a dict with a title and a non-empty list of track
    identifiers.  Every other request is answered with an error and no
    call on the client: 500 for a request without a JSON body, 400 for
    a body that is not true and for every other dict, 400 or 500 for a
    body that is not a dict.  For a request that is accepted the first
    call creates the playlist with the given title, and the description
    given or the empty one. *)
Theorem create_playlist_guard get_json :
  let s := create_playlist c get_json in
  (calls s <> [] <->
   exists d title id0 ids,
     get_json = Return (JDict d) /\
     dict_get d "title" = Some title /\
     dict_get d "track_ids" = Some (JList (id0 :: ids))) /\
  (calls s = [] ->
   exists status e,
     answer s = ErrorResponse status e /\
     (status = 400%Z \/ status = 500%Z)) /\
  (forall e, get_json = Raise e ->
     s = refused 500 ("Error creating playlist: " ++ e)%string) /\
  (forall v, get_json = Return v -> truthy v = false ->
     s = refused 400 "Missing request body") /\
  (forall d, get_json = Return (JDict d) -> calls s = [] ->
     exists e, answer s = ErrorResponse 400 e) /\
  (forall d title id0 ids,
     get_json = Return (JDict d) ->
     dict_get d "title" = Some title ->
     dict_get d "track_ids" = Some (JList (id0 :: ids)) ->
     exists rest,
       calls s = CreatePlaylist title
                   (default (JStr "") (dict_get d "description")) :: rest).
Proof.
  intros s.
  assert (Hvalid : forall d title id0 ids,
     get_json = Return (JDict d) ->
     dict_get d "title" = Some title ->
     dict_get d "track_ids" = Some (JList (id0 :: ids)) ->
     exists rest,
       calls s = CreatePlaylist title
                   (default (JStr "") (dict_get d "description")) :: rest).
  { intros d title id0 ids -> Ht Hi. subst s.
    rewrite create_playlist_of_dict, (dict_get_truthy d "title" title Ht),
      Ht, Hi.
    cbn [negb truthy]. cbv zeta.
    destruct (user_create_playlist c _ _) as [p|e]; [|eauto].
    destruct (playlist_add c p _ _) as [[a p']|e]; eauto. }
  assert (Hraise : forall e, get_json = Raise e ->
     s = refused 500 ("Error creating playlist: " ++ e)%string).
  { intros e ->. reflexivity. }
  assert (Hfalse : forall v, get_json = Return v -> truthy v = false ->
     s = refused 400 "Missing request body").
  { intros v -> Hv. subst s. unfold create_playlist.
    cbn [mbind outcome_bind Py.bind]. rewrite Hv. reflexivity. }
  destruct (create_playlist_cases get_json)
    as [(d & title & id0 & ids & Hr & Ht & Hi)|(status & e & Hs & Hd & He)].
  - destruct (Hvalid d title id0 ids Hr Ht Hi) as [rest Hrest].
    split; [split; [eauto 10|rewrite Hrest; discriminate]|].
    split; [rewrite Hrest; discriminate|].
    split; [exact Hraise|]. split; [exact Hfalse|].
    split; [rewrite Hrest; discriminate|exact Hvalid].
  - assert (Hsv : s = refused status e) by apply He.
    split; [split|].
    + rewrite Hsv. simpl. congruence.
    + intros (d & title & id0 & ids & Hr & Ht & Hi).
      destruct (Hvalid d title id0 ids Hr Ht Hi) as [rest Hrest].
      rewrite Hsv in Hrest. discriminate.
    + split; [intros _; rewrite Hsv; simpl; eauto|].
      split; [exact Hraise|]. split; [exact Hfalse|].
      split; [|exact Hvalid].
      intros d Hr _. rewrite Hsv, (Hd d Hr). simpl. eauto.
Qed.

(** X16. [create_playlist] does not undo: when the playlist has been
    created and adding the tracks raises, the answer is a 500 with the
    text of the exception, and the calls made are the creation and the
    failed addition; nothing removes the playlist that was created. *)
Theorem create_playlist_no_rollback d title id0 ids playlist e :
  dict_get d "title" = Some title ->
  dict_get d "track_ids" = Some (JList (id0 :: ids)) ->
  let description := default (JStr "") (dict_get d "description") in
  user_create_playlist c title description = Return playlist ->
  playlist_add c playlist (id0 :: ids) None = Raise e ->
  let s := create_playlist c (Return (JDict d)) in
  answer s = ErrorResponse 500 ("Error creating playlist: " ++ e)%string /\
  calls s = [CreatePlaylist title description;
             AddTracks playlist (id0 :: ids) None] /\
  forall p, ~ In (DeletePlaylist p) (calls s).
Proof.
  intros Ht Hi description Hc Ha s. subst s.
  rewrite create_playlist_of_dict, (dict_get_truthy d "title" title Ht),
    Ht, Hi.
  cbn [negb truthy]. cbv zeta. fold description. rewrite Hc, Ha. simpl.
  repeat split. intros p [H|[H|[]]]; discriminate.
Qed.

(** What [add_tracks_to_playlist] does with a body that is a dict. *)
Lemma add_tracks_of_dict c0 playlist_id d :
  add_tracks_to_playlist c0 playlist_id (Return (JDict d))
  = if negb (truthy (JDict d)) then refused 400 "Missing request body"
    else
      match dict_get d "track_ids" with
      | None =>
          refused 400
            "Missing 'track_ids' in request body or empty track list"
      | Some t =>
          if negb (truthy t) then
            refused 400
              "Missing 'track_ids' in request body or empty track list"
          else
            match t with
            | JList track_ids =>
                let allow_duplicates :=
                  Some (default (JBool false)
                                (dict_get d "allow_duplicates")) in
                match session_playlist c0 playlist_id with
                | Raise e =>
                    {| answer := ErrorResponse 500
                         ("Error adding tracks to playlist: " ++ e)%string;
                       calls := [LookupPlaylist playlist_id] |}
                | Return None =>
                    {| answer := not_found playlist_id;
                       calls := [LookupPlaylist playlist_id] |}
                | Return (Some playlist) =>
                    match playlist_add c0 playlist track_ids
                            allow_duplicates with
                    | Raise e =>
                        {| answer := ErrorResponse 500
                             ("Error adding tracks to playlist: " ++ e)%string;
                           calls := [LookupPlaylist playlist_id;
                                     AddTracks playlist track_ids
                                               allow_duplicates] |}
                    | Return (added_ids, _) =>
                        {| answer := Added playlist_id (length added_ids);
                           calls := [LookupPlaylist playlist_id;
                                     AddTracks playlist track_ids
                                               allow_duplicates] |}
                    end
                end
            | _ => refused 400 "'track_ids' must be a list"
            end
      end.
Proof.
  unfold add_tracks_to_playlist. cbn [mbind outcome_bind Py.bind].
  destruct (truthy (JDict d)) eqn:Hv; cbn [negb]; [|reflexivity].
  rewrite no_track_ids_of_dict. cbn [mbind outcome_bind Py.bind].
  destruct (dict_get d "track_ids") as [t|] eqn:Hi; [|reflexivity].
  destruct (truthy t); cbn [negb]; [|reflexivity].
  cbn [py_getitem py_get mbind outcome_bind Py.bind].
  rewrite Hi. cbn [mbind outcome_bind Py.bind].
  destruct t; try reflexivity.
  destruct (session_playlist c0 playlist_id) as [[p|]|e]; try reflexivity.
  destruct (playlist_add c0 p _ _) as [[a p']|e]; reflexivity.
Qed.

(** A request that [add_tracks_to_playlist] does not accept is refused
    before the lookup. *)
Lemma add_tracks_cases playlist_id get_json :
  (exists d id0 ids,
     get_json = Return (JDict d) /\
     dict_get d "track_ids" = Some (JList (id0 :: ids))) \/
  (exists status e,
     (status = 400%Z \/ status = 500%Z) /\
     forall c0, add_tracks_to_playlist c0 playlist_id get_json
                = refused status e).
Proof.
  destruct get_json as [v|e].
  2:{ right. exists 500%Z. eexists. split; [auto|reflexivity]. }
  assert (Hdict : (exists d, v = JDict d) \/ forall d, v <> JDict d).
  { destruct v; try (right; discriminate). left. eauto. }
  destruct Hdict as [[d ->]|Hnd].
  - destruct (truthy (JDict d)) eqn:Hv.
    2:{ right. exists 400%Z. eexists. split; [auto|]. intros c0.
        rewrite add_tracks_of_dict, Hv. reflexivity. }
    destruct (dict_get d "track_ids") as [t|] eqn:Hi.
    2:{ right. exists 400%Z. eexists. split; [auto|]. intros c0.
        rewrite add_tracks_of_dict, Hv, Hi. reflexivity. }
    destruct (truthy t) eqn:Htt.
    2:{ right. exists 400%Z. eexists. split; [auto|]. intros c0.
        rewrite add_tracks_of_dict, Hv, Hi, Htt. reflexivity. }
    destruct t as [| | | | |[|id0 ids]|];
      try (right; exists 400%Z; eexists; split; [auto|]; intros c0;
           rewrite add_tracks_of_dict, Hv, Hi, Htt; reflexivity).
    + discriminate Htt.
    + left. exists d, id0, ids. auto.
  - right.
    assert (Hform : forall c0,
      add_tracks_to_playlist c0 playlist_id (Return v)
      = if negb (truthy v) then refused 400 "Missing request body"
        else
          match no_track_ids v with
          | Raise e =>
              refused 500 ("Error adding tracks to playlist: " ++ e)%string
          | Return _ =>
              refused 400
                "Missing 'track_ids' in request body or empty track list"
          end).
    { intros c0. unfold add_tracks_to_playlist.
      cbn [mbind outcome_bind Py.bind].
      destruct (truthy v); cbn [negb]; [|reflexivity].
      destruct (no_track_ids_not_dict v Hnd) as [Hn|[e Hn]]; rewrite Hn;
        reflexivity. }
    destruct (truthy v).
    2:{ exists 400%Z. eexists. split; [auto|]. intros c0.
        now rewrite Hform. }
    destruct (no_track_ids v) as [b|e].
    + exists 400%Z. eexists. split; [auto|]. intros c0. now rewrite Hform.
    + exists 500%Z. eexists. split; [auto|]. intros c0. now rewrite Hform.
Qed.

(** X17. [add_tracks_to_playlist] and [delete_playlist] change a
    playlist only if the lookup has returned it.  When the lookup finds
    nothing, deleting is answered 404; adding is answered 404 for a
    request with a non-empty list of track identifiers, and every other
    request is answered 400 or 500 before any lookup.  When the lookup
    finds nothing or raises, no call that changes the account is made;
    any addition or deletion that is made is made on the playlist the
    lookup returned. *)
Theorem mutation_needs_lookup playlist_id get_json :
  let added := add_tracks_to_playlist c playlist_id get_json in
  let deleted := delete_playlist c playlist_id in
  (session_playlist c playlist_id = Return None ->
   answer deleted = not_found playlist_id /\
   calls deleted = [LookupPlaylist playlist_id] /\
   (forall d id0 ids,
      get_json = Return (JDict d) ->
      dict_get d "track_ids" = Some (JList (id0 :: ids)) ->
      answer added = not_found playlist_id /\
      calls added = [LookupPlaylist playlist_id]) /\
   ((forall d id0 ids,
       get_json = Return (JDict d) ->
       dict_get d "track_ids" <> Some (JList (id0 :: ids))) ->
    calls added = [] /\
    exists status e,
      answer added = ErrorResponse status e /\
      (status = 400%Z \/ status = 500%Z))) /\
  ((forall p, session_playlist c playlist_id <> Return (Some p)) ->
   forall k, In k (calls added ++ calls deleted) -> mutation k = false) /\
  (forall k, In k (calls added ++ calls deleted) -> mutation k = true ->
   exists p, session_playlist c playlist_id = Return (Some p) /\
             (k = DeletePlaylist p \/
              exists track_ids allow, k = AddTracks p track_ids allow)).
Proof.
  intros added deleted.
  assert (Hadd : forall k, In k (calls added) -> mutation k = true ->
     exists p, session_playlist c playlist_id = Return (Some p) /\
               exists track_ids allow, k = AddTracks p track_ids allow).
  { subst added.
    destruct (add_tracks_cases playlist_id get_json)
      as [(d & id0 & ids & -> & Hi)|(status & e & _ & He)];
      [|rewrite He; intros k []].
    rewrite add_tracks_of_dict,
      (dict_get_truthy d "track_ids" _ Hi), Hi.
    cbn [negb truthy]. cbv zeta.
    destruct (session_playlist c playlist_id) as [[p|]|e]; simpl.
    - destruct (playlist_add c p _ _) as [[a p']|e]; simpl;
        intros k [<-|[<-|[]]]; try discriminate; intros _; eauto.
    - intros k [<-|[]]. discriminate.
    - intros k [<-|[]]. discriminate. }
  assert (Hdel : forall k, In k (calls deleted) -> mutation k = true ->
     exists p, session_playlist c playlist_id = Return (Some p) /\
               k = DeletePlaylist p).
  { subst deleted. unfold delete_playlist.
    destruct (session_playlist c playlist_id) as [[p|]|e]; simpl.
    - destruct (playlist_delete c p) as [u|e]; simpl;
        intros k [<-|[<-|[]]]; try discriminate; intros _; eauto.
    - intros k [<-|[]]. discriminate.
    - intros k [<-|[]]. discriminate. }
  split; [|split].
  - intros Hnone. subst added deleted.
    unfold delete_playlist. rewrite Hnone.
    split; [reflexivity|]. split; [reflexivity|]. split.
    + intros d id0 ids -> Hi.
      rewrite add_tracks_of_dict,
        (dict_get_truthy d "track_ids" _ Hi), Hi.
      cbn [negb truthy]. cbv zeta. rewrite Hnone. split; reflexivity.
    + intros Hno.
      destruct (add_tracks_cases playlist_id get_json)
        as [(d & id0 & ids & Hr & Hi)|(status & e & Hs & He)].
      * now destruct (Hno d id0 ids Hr).
      * rewrite He. simpl. eauto.
  - intros Hno k Hk. destruct (mutation k) eqn:Hm; [|reflexivity].
    exfalso. apply in_app_or in Hk as [Hk|Hk].
    + destruct (Hadd k Hk Hm) as (p & Hp & _). exact (Hno p Hp).
    + destruct (Hdel k Hk Hm) as (p & Hp & _). exact (Hno p Hp).
  - intros k Hk Hm. apply in_app_or in Hk as [Hk|Hk].
    + destruct (Hadd k Hk Hm) as (p & Hp & H). eauto.
    + destruct (Hdel k Hk Hm) as (p & Hp & H). eauto.
Qed.

(** X18. [get_playlist_tracks] asks the client for a page with a limit
    between 1 and 500 (100 when none is given) and an offset that is not
    negative, reports that limit and offset, and reports as
    [total_tracks] the number of tracks it returns. *)
Theorem get_playlist_tracks_page playlist_id limit offset playlist :
  session_playlist c playlist_id = Return (Some playlist) ->
  let page_limit := bound_limit (default 100%Z limit) 500 in
  let page_offset := Z.max 0 (default 0%Z offset) in
  let s := get_playlist_tracks c playlist_id limit offset in
  (1 <= page_limit <= 500)%Z /\ (0 <= page_offset)%Z /\
  calls s = [LookupPlaylist playlist_id;
             PlaylistItems playlist page_limit page_offset] /\
  (forall tracks,
     playlist_items c playlist page_limit page_offset = Return tracks ->
     answer s = Tracks (Tidal.playlist_id playlist)
                       (map (fun t => format_track_data t None) tracks)
                       (length tracks) (playlist_num_tracks playlist)
                       page_offset page_limit) /\
  (forall e,
     playlist_items c playlist page_limit page_offset = Raise e ->
     answer s = ErrorResponse 500
                  ("Error fetching playlist tracks: " ++ e)%string).
Proof.
  intros Hp page_limit page_offset s.
  split; [apply bound_limit_bounds; lia|]. split; [lia|].
  assert (Hoff : (if (default 0%Z offset <? 0)%Z then 0%Z
                  else default 0%Z offset)
                 = page_offset).
  { subst page_offset. destruct (Z.ltb_spec (default 0%Z offset) 0); lia. }
  subst s. unfold get_playlist_tracks. rewrite Hp, Hoff. fold page_limit.
  destruct (playlist_items c playlist page_limit page_offset) as [tracks|e];
    simpl.
  - split; [reflexivity|]. split; [|discriminate].
    intros ? [= <-]. now rewrite length_map.
  - split; [reflexivity|]. split; [discriminate|]. now intros ? [= <-].
Qed.

End PlaylistRoutesFacts.

(** ** Tools: a playlist from song descriptions *)

Section CreateFromSongsFacts.

Import BatchSearch ToolServer Tools.

Lemma match_results_from (results : list search_result) : forall m,
  track_ids (fold_left match_result results m)
  = track_ids m ++ omap contributed results /\
  map ms_track_id (matched_songs (fold_left match_result results m))
  = map ms_track_id (matched_songs m) ++ omap contributed results /\
  unmatched_songs (fold_left match_result results m)
  = unmatched_songs m
    ++ map result_query (List.filter without_tracks results).
Proof.
  induction results as [|r results IH]; intros m; simpl.
  - now rewrite !app_nil_r.
  - fold_omap. destruct (IH (match_result m r)) as (H1 & H2 & H3).
    rewrite H1, H2, H3. clear IH H1 H2 H3.
    unfold match_result, contributed, without_tracks.
    destruct (tracks_of r) as [|track rest]; simpl.
    + rewrite <- app_assoc. auto.
    + destruct (id track =? 0)%Z; simpl.
      * auto.
      * rewrite map_app, <- !app_assoc. auto.
Qed.

Lemma match_results_spec (results : list search_result) :
  track_ids (match_results results) = omap contributed results /\
  map ms_track_id (matched_songs (match_results results))
  = omap contributed results /\
  unmatched_songs (match_results results)
  = map result_query (List.filter without_tracks results).
Proof.
  unfold match_results.
  destruct (match_results_from results
              {| track_ids := []; matched_songs := [];
                 unmatched_songs := [] |}) as (H1 & H2 & H3).
  simpl in H1, H2, H3. auto.
Qed.

(** X19. The loop over the search results keeps the order of the
    results: the track identifiers are those of the first track of each
    result that has one (and whose identifier is not 0), the matched
    songs carry the same identifiers one for one, and the unmatched
    songs are the queries of the results without tracks.  A result is
    counted once at most, and exactly once unless its first track has
    identifier 0. *)
Theorem match_results_accounting (results : list search_result) :
  let m := match_results results in
  track_ids m = omap contributed results /\
  map ms_track_id (matched_songs m) = track_ids m /\
  unmatched_songs m = map result_query (List.filter without_tracks results) /\
  (length (matched_songs m) + length (unmatched_songs m)
   <= length results)%nat /\
  ((forall r track rest, r ∈ results -> tracks_of r = track :: rest ->
                         id track <> 0%Z) ->
   (length (matched_songs m) + length (unmatched_songs m)
    = length results)%nat).
Proof.
  intros m. subst m.
  destruct (match_results_spec results) as (H1 & H2 & H3).
  rewrite H1, H3.
  split; [reflexivity|]. split; [exact H2|]. split; [reflexivity|].
  assert (Hlen : length (matched_songs (match_results results))
                 = length (omap contributed results)).
  { rewrite <- H2. now rewrite length_map. }
  rewrite Hlen, length_map. clear H1 H2 H3 Hlen.
  split.
  - induction results as [|r results IH]; simpl; [lia|]. fold_omap.
    unfold contributed at 1, without_tracks at 1.
    destruct (tracks_of r) as [|track rest]; simpl; [lia|].
    destruct (id track =? 0)%Z; simpl; lia.
  - induction results as [|r results IH]; intros Hnz; simpl; [lia|].
    fold_omap.
    assert (IH' : (length (omap contributed results)
                   + length (List.filter without_tracks results)
                   = length results)%nat).
    { apply IH. intros r0 track rest Hr0. apply Hnz. now right. }
    unfold contributed at 1, without_tracks at 1.
    destruct (tracks_of r) as [|track rest] eqn:Ht; simpl; [lia|].
    destruct (Z.eqb_spec (id track) 0) as [H0|_]; simpl; [|lia].
    exfalso. eapply Hnz; [left|exact Ht|exact H0].
Qed.


Lemma omap_imap {A B C} (f : B -> option C) : forall (l : list A) (g : nat -> A -> B),
  omap f (imap g l) = omap (fun o => o) (imap (fun i x => f (g i x)) l).
Proof.
  induction l as [|x l IH]; intros g; simpl; [reflexivity|]. fold_omap.
  rewrite IH. reflexivity.
Qed.

Section WithTransport.

Variable post_search : list json -> Z -> http_result.
Variable post_playlists : string -> string -> list Z -> http playlist_body.

Lemma create_playlist_from_songs_cases title songs description :
  let out := create_playlist_from_songs post_search post_playlists title songs
               description in
  (is_failure out.1 /\
   (out.2 = [] \/
    exists qs, songs = JList qs /\ out.2 = [PostSearchBatch (song_queries qs) 1]))
  \/
  (exists qs results total,
      title <> "" /\ songs = JList qs /\ (1 <= length qs <= 100)%nat /\
      post_search (song_queries qs) 1
      = HttpResponse 200 (Some (BodyResults results total)) /\
      let m := match_results results in
      track_ids m <> [] /\
      out.2 = [PostSearchBatch (song_queries qs) 1;
               PostPlaylists title description (track_ids m)] /\
      (is_failure out.1 \/
       exists playlist,
         out.1 = PlaylistSuccess title (length (track_ids m)) playlist
                   (playlist_url_of playlist) (matched_songs m)
                   (unmatched_songs m) (length (matched_songs m), length qs))).
Proof.
  intros out. subst out. unfold create_playlist_from_songs.
  destruct (String.eqb_spec title "") as [Ht|Ht].
  { left. simpl. auto. }
  destruct songs as [| | | | |qs|]; try (left; simpl; auto; fail).
  destruct qs as [|q0 qs0] eqn:Hqs; [left; simpl; auto|]. rewrite <- Hqs.
  assert (Htr : truthy (JList qs) = true) by (subst qs; reflexivity).
  rewrite Htr. cbn [negb].
  destruct (Nat.ltb_spec 100 (length qs)) as [Hlen|Hlen].
  { left. simpl. auto. }
  assert (Hpos : (1 <= length qs)%nat) by (subst qs; simpl; lia).
  cbv zeta.
  destruct (post_search (song_queries qs) 1) as [| |e|status body] eqn:Hpost;
    try (left; simpl; eauto; fail).
  destruct (Z.eqb_spec status 401) as [H401|H401]; [left; simpl; eauto|].
  destruct (Z.eqb_spec status 200) as [H200|H200]; cbn [negb];
    [|left; simpl; eauto].
  subst status.
  destruct body as [[results total|e|]|]; cbn [_safe_json];
    try (left; simpl; eauto; fail).
  destruct (track_ids (match_results results)) as [|i0 ids0] eqn:Hids;
    [left; simpl; eauto|].
  rewrite <- Hids.
  right. exists qs, results, total.
  split; [exact Ht|]. split; [reflexivity|]. split; [lia|].
  split; [exact Hpost|]. cbv zeta.
  split; [rewrite Hids; discriminate|].
  destruct (post_playlists title description (track_ids (match_results results)))
    as [| |e|status body]; try (simpl; split; [reflexivity|left; exact I]).
  destruct (Z.eqb_spec status 401) as [H401'|H401'];
    [simpl; split; [reflexivity|left; exact I]|].
  destruct (Z.eqb_spec status 200) as [H200'|H200']; cbn [negb];
    [|simpl; split; [reflexivity|left; exact I]].
  destruct body as [[playlist|e|]|e]; simpl;
    (split; [reflexivity|]); eauto.
Qed.

Lemma create_playlist_from_songs_searched title qs description results total :
  title <> "" -> (1 <= length qs <= 100)%nat ->
  post_search (song_queries qs) 1
  = HttpResponse 200 (Some (BodyResults results total)) ->
  let out := create_playlist_from_songs post_search post_playlists title
               (JList qs) description in
  let m := match_results results in
  (track_ids m = [] ->
   out = (PlaylistFailure "Could not find any matching tracks on TIDAL"
            (Some (unmatched_songs m)), [PostSearchBatch (song_queries qs) 1]))
  /\
  (track_ids m <> [] ->
   out.2 = [PostSearchBatch (song_queries qs) 1;
            PostPlaylists title description (track_ids m)] /\
   (is_failure out.1 \/
    exists playlist,
      out.1 = PlaylistSuccess title (length (track_ids m)) playlist
                (playlist_url_of playlist) (matched_songs m)
                (unmatched_songs m) (length (matched_songs m), length qs))).
Proof.
  intros Ht Hlen Hpost out m.
  destruct (create_playlist_from_songs_cases title (JList qs) description)
    as [[Hfail Hsent]
       |(qs' & results' & total' & _ & Hs & _ & Hpost' & Hne & Hsent & Hres)];
    fold out in Hfail, Hsent || fold out in Hsent, Hres.
  - assert (Hout : out = (PlaylistFailure
                            "Could not find any matching tracks on TIDAL"
                            (Some (unmatched_songs m)),
                          [PostSearchBatch (song_queries qs) 1])
                   \/ exists x y, out.2 = x :: y :: []).
    { subst out. unfold create_playlist_from_songs.
      destruct (String.eqb_spec title "") as [|_]; [contradiction|].
      destruct qs as [|q0 qs0] eqn:Hqs; [simpl in Hlen; lia|].
      rewrite <- Hqs in *.
      replace (truthy (JList qs)) with true by (subst qs; reflexivity).
      cbn [negb]. destruct (Nat.ltb_spec 100 (length qs)); [lia|].
      cbv zeta. rewrite Hpost. cbn [Z.eqb Pos.eqb negb _safe_json].
      fold m. destruct (track_ids m) as [|i0 ids0]; [now left|].
      right.
      destruct (post_playlists title description (i0 :: ids0))
        as [| |e|status body]; simpl; eauto.
      destruct (status =? 401)%Z; simpl; eauto.
      destruct (status =? 200)%Z; simpl; eauto.
      destruct body as [[playlist|e|]|e]; simpl; eauto. }
    destruct Hout as [Hout|(x & y & Hout)].
    + split; [intros _; exact Hout|].
      intros Hne. rewrite Hout in Hsent. simpl in Hsent.
      destruct Hsent as [Hsent|(qs' & _ & Hsent)]; [discriminate|].
      exfalso. apply Hne.
      subst out. revert Hout. unfold create_playlist_from_songs.
      destruct (String.eqb_spec title "") as [|_]; [contradiction|].
      destruct qs as [|q0 qs0] eqn:Hqs; [simpl in Hlen; lia|].
      rewrite <- Hqs in *.
      replace (truthy (JList qs)) with true by (subst qs; reflexivity).
      cbn [negb]. destruct (Nat.ltb_spec 100 (length qs)); [lia|].
      cbv zeta. rewrite Hpost. cbn [Z.eqb Pos.eqb negb _safe_json].
      fold m. destruct (track_ids m) as [|i0 ids0]; [reflexivity|].
      destruct (post_playlists title description (i0 :: ids0))
        as [| |e|status body]; simpl; try discriminate.
      destruct (status =? 401)%Z; simpl; try discriminate.
      destruct (status =? 200)%Z; simpl; try discriminate.
      destruct body as [[playlist|e|]|e]; simpl; discriminate.
    + rewrite Hout in Hsent.
      destruct Hsent as [Hsent|(qs' & _ & Hsent)]; discriminate.
  - injection Hs as <-. rewrite Hpost in Hpost'.
    injection Hpost' as <- <-. cbv zeta in Hne, Hsent, Hres. fold m in Hne, Hsent, Hres.
    split; [intros Hnil; contradiction|].
    intros _. split; [exact Hsent|exact Hres].
Qed.

Lemma create_playlist_from_songs_refused title qs description status e :
  title <> "" -> (1 <= length qs <= 100)%nat ->
  status <> 401%Z -> status <> 200%Z ->
  post_search (song_queries qs) 1
  = HttpResponse status (Some (BodyError e)) ->
  create_playlist_from_songs post_search post_playlists title (JList qs)
    description
  = (PlaylistFailure ("Failed to search for songs: " ++ e)%string None,
     [PostSearchBatch (song_queries qs) 1]).
Proof.
  intros Ht Hlen H401 H200 Hpost. unfold create_playlist_from_songs.
  destruct (String.eqb_spec title "") as [|_]; [contradiction|].
  destruct qs as [|q0 qs0] eqn:Hqs; [simpl in Hlen; lia|].
  rewrite <- Hqs in *.
  replace (truthy (JList qs)) with true by (subst qs; reflexivity).
  cbn [negb]. destruct (Nat.ltb_spec 100 (length qs)); [lia|].
  cbv zeta. rewrite Hpost.
  destruct (Z.eqb_spec status 401); [contradiction|].
  destruct (Z.eqb_spec status 200); [contradiction|].
  reflexivity.
Qed.

(** X20. The tool asks the backend to create a playlist only after a
    search that answered 200 with results, only when at least one track
    matched, and with the title and the description it was given; the
    identifiers posted are those of the first track of each result, in
    the order of the results.  The search and this request are then all
    it has sent. *)
Theorem playlist_posted_only_with_matches title songs description t d ids :
  let out := create_playlist_from_songs post_search post_playlists title songs
               description in
  PostPlaylists t d ids ∈ out.2 ->
  t = title /\ d = description /\ ids <> [] /\ title <> "" /\
  exists qs results total,
    songs = JList qs /\ (1 <= length qs <= 100)%nat /\
    post_search (song_queries qs) 1
    = HttpResponse 200 (Some (BodyResults results total)) /\
    ids = omap contributed results /\
    out.2 = [PostSearchBatch (song_queries qs) 1;
             PostPlaylists title description ids].
Proof.
  intros out Hin.
  destruct (create_playlist_from_songs_cases title songs description)
    as [[_ [Hsent|(qs & _ & Hsent)]]
       |(qs & results & total & Ht & Hs & Hlen & Hpost & Hne & Hsent & _)];
    fold out in Hsent; rewrite Hsent in Hin.
  - inversion Hin.
  - apply list_elem_of_singleton in Hin. discriminate.
  - destruct (match_results_spec results) as (Hids & _).
    cbv zeta in Hne, Hsent. rewrite Hids in Hne, Hsent, Hin.
    apply elem_of_cons in Hin as [Hin|Hin]; [discriminate|].
    apply list_elem_of_singleton in Hin. injection Hin as -> -> ->.
    split; [reflexivity|]. split; [reflexivity|]. split; [exact Hne|].
    split; [exact Ht|].
    exists qs, results, total.
    split; [exact Hs|]. split; [exact Hlen|]. split; [exact Hpost|].
    split; [reflexivity|exact Hsent].
Qed.

(** X21. A success of [create_playlist_from_songs] carries the title
    given, at least one track, as many matched songs as tracks, and a
    match rate of that number over the number of descriptions given
    (the empty ones included); the playlist was posted with the
    identifiers of the matched songs, in their order, and the unmatched
    songs are the queries of the results without tracks. *)
Theorem playlist_success_accounting title songs description t n p u ms um rate :
  let out := create_playlist_from_songs post_search post_playlists title songs
               description in
  out.1 = PlaylistSuccess t n p u ms um rate ->
  t = title /\ u = playlist_url_of p /\ n = length ms /\ (0 < n)%nat /\
  exists qs results total,
    songs = JList qs /\
    post_search (song_queries qs) 1
    = HttpResponse 200 (Some (BodyResults results total)) /\
    rate = (n, length qs) /\
    map ms_track_id ms = omap contributed results /\
    um = map result_query (List.filter without_tracks results) /\
    out.2 = [PostSearchBatch (song_queries qs) 1;
             PostPlaylists title description (map ms_track_id ms)].
Proof.
  intros out Hout.
  destruct (create_playlist_from_songs_cases title songs description)
    as [[Hfail _]
       |(qs & results & total & Ht & Hs & Hlen & Hpost & Hne & Hsent & Hres)];
    fold out in Hfail || fold out in Hsent, Hres.
  - rewrite Hout in Hfail. destruct Hfail.
  - destruct (match_results_spec results) as (Hids & Hms & Hum).
    cbv zeta in Hne, Hsent, Hres.
    destruct Hres as [Hfail|(playlist & Hsucc)].
    { rewrite Hout in Hfail. destruct Hfail. }
    rewrite Hout in Hsucc. injection Hsucc as -> -> -> -> -> -> ->.
    assert (Hn : length (track_ids (match_results results))
                 = length (matched_songs (match_results results))).
    { rewrite Hids, <- Hms. now rewrite length_map. }
    split; [reflexivity|]. split; [reflexivity|]. split; [exact Hn|].
    split.
    { destruct (track_ids (match_results results)); [congruence|simpl; lia]. }
    exists qs, results, total.
    split; [exact Hs|]. split; [exact Hpost|].
    split; [now rewrite Hn|]. split; [exact Hms|]. split; [exact Hum|].
    rewrite Hms, <- Hids. exact Hsent.
Qed.

End WithTransport.

(** *** The tool in front of the backend route *)

Section ThroughBackend.

Variable search : nat -> json -> option (list model) -> json -> outcome search_results.
Variable py_repr : json -> string.
Variable post_playlists : string -> string -> list Z -> http playlist_body.
Context {unicode : UnicodeLower}.

(** The query dict that the tool builds for a song. *)
Lemma batch_step_song limit i s :
  truthy s = true ->
  batch_step search py_repr limit i (JDict [("query", s); ("type", JStr "track")])
  = match search i s (Some [TrackModel]) limit with
    | Return r => hits_of s (JStr "track") r
    | Raise e => ErrorResult s e
    end.
Proof.
  intros Hs. unfold batch_step, search_single.
  change (query_of py_repr (JDict [("query", s); ("type", JStr "track")]))
    with s.
  change (search_type_of (JDict [("query", s); ("type", JStr "track")]))
    with (JStr "track").
  rewrite Hs. cbn [negb].
  assert (Hsf : search_and_format search limit i s (JStr "track")
                = (search i s (Some [TrackModel]) limit
                   ≫= fun results => Return (hits_of s (JStr "track") results)))
    by reflexivity.
  rewrite Hsf.
  destruct (search i s (Some [TrackModel]) limit) as [r|e]; reflexivity.
Qed.

Lemma contributed_song i s :
  truthy s = true ->
  contributed
    (batch_step search py_repr (JNum 1) i (JDict [("query", s); ("type", JStr "track")]))
  = found_id search i s.
Proof.
  intros Hs. rewrite batch_step_song by exact Hs.
  unfold found_id, best_match, contributed.
  destruct (search i s (Some [TrackModel]) (JNum 1)) as [r|e]; [|reflexivity].
  unfold hits_of, tracks_of, formatted.
  destruct (sr_tracks r) as [|t rest]; [reflexivity|]. simpl.
  destruct (track_id t =? 0)%Z; reflexivity.
Qed.

Lemma unmatched_song i s :
  truthy s = true ->
  (let r := batch_step search py_repr (JNum 1) i
              (JDict [("query", s); ("type", JStr "track")]) in
   if without_tracks r then Some (result_query r) else None)
  = not_found search i s.
Proof.
  intros Hs. cbv zeta. rewrite batch_step_song by exact Hs.
  unfold not_found, best_match, without_tracks.
  destruct (search i s (Some [TrackModel]) (JNum 1)) as [r|e]; [|reflexivity].
  unfold hits_of, tracks_of, formatted.
  destruct (sr_tracks r) as [|t rest]; reflexivity.
Qed.

Lemma map_filter_omap {A B} (p : A -> bool) (f : A -> B) (l : list A) :
  map f (List.filter p l) = omap (fun x => if p x then Some (f x) else None) l.
Proof.
  induction l as [|x l IH]; simpl; [reflexivity|]. fold_omap.
  destruct (p x); simpl; now rewrite IH.
Qed.

Lemma filter_truthy_lookup (songs : list json) i s :
  List.filter truthy songs !! i = Some s -> truthy s = true.
Proof.
  intros H. apply list_elem_of_lookup_2 in H. apply list_elem_of_In in H.
  apply filter_In in H. tauto.
Qed.

(** The results of the backend for the songs the tool asks for. *)
Lemma backend_results_for_songs (songs : list json) :
  let asked := List.filter truthy songs in
  let results := batch_loop search py_repr (JNum 1) 0 (song_queries songs) [] in
  omap contributed results = omap (fun o => o) (imap (found_id search) asked) /\
  map result_query (List.filter without_tracks results)
  = omap (fun o => o) (imap (not_found search) asked).
Proof.
  intros asked results. subst results. rewrite batch_loop_imap. simpl.
  unfold song_queries. fold asked. rewrite imap_fmap.
  split.
  - rewrite omap_imap. f_equal. apply imap_ext. intros i s Hi. simpl.
    apply contributed_song. eapply filter_truthy_lookup. exact Hi.
  - rewrite map_filter_omap, omap_imap. f_equal. apply imap_ext.
    intros i s Hi. simpl.
    apply (unmatched_song i s). eapply filter_truthy_lookup. exact Hi.
Qed.

(** X22. The tool in front of the backend route, for a title and 1 to
    100 descriptions.  When every description is empty the backend
    refuses the empty batch and nothing is created.  Otherwise the
    songs asked for are the non-empty descriptions, in their order; the
    identifiers collected are those of the first track the client finds
    for each (a song whose search raises or finds nothing, or whose
    first track has identifier 0, gives none).  With no identifier the
    tool fails with the unmatched songs and sends nothing more; with
    some, it posts the playlist with exactly these identifiers, and a
    success reports them with a match rate over all the descriptions. *)
Theorem create_from_songs_through_backend title songs description :
  title <> "" -> (1 <= length songs <= 100)%nat ->
  let asked := List.filter truthy songs in
  let ids := omap (fun o => o) (imap (found_id search) asked) in
  let unmatched := omap (fun o => o) (imap (not_found search) asked) in
  let out := create_playlist_from_songs (post_to_backend search py_repr)
               post_playlists title (JList songs) description in
  (asked = [] ->
   out = (PlaylistFailure
            "Failed to search for songs: 'queries' must be a non-empty list"
            None, [PostSearchBatch [] 1])) /\
  (asked <> [] -> ids = [] ->
   out = (PlaylistFailure "Could not find any matching tracks on TIDAL"
            (Some unmatched), [PostSearchBatch (song_queries songs) 1])) /\
  (asked <> [] -> ids <> [] ->
   out.2 = [PostSearchBatch (song_queries songs) 1;
            PostPlaylists title description ids] /\
   (is_failure out.1 \/
    exists playlist matched,
      map ms_track_id matched = ids /\
      out.1 = PlaylistSuccess title (length ids) playlist
                (playlist_url_of playlist) matched unmatched
                (length ids, length songs))).
Proof.
  intros Ht Hlen asked ids unmatched out.
  assert (Hasked_len : (length (song_queries songs) = length asked)%nat)
    by (unfold song_queries; now rewrite length_map).
  assert (Hle : (length asked <= length songs)%nat).
  { pose proof (filter_length truthy songs). fold asked in H. lia. }
  assert (Hspec := backend_results_for_songs songs).
  cbv zeta in Hspec. fold asked in Hspec. fold ids in Hspec.
  fold unmatched in Hspec. destruct Hspec as [Hfound Hnot].
  split; [|split].
  - intros Hnil.
    assert (Hq : song_queries songs = [])
      by (unfold song_queries; fold asked; now rewrite Hnil).
    rewrite <- Hq. subst out.
    apply (create_playlist_from_songs_refused _ post_playlists title songs
             description 400 "'queries' must be a non-empty list");
      try assumption; try discriminate.
    rewrite Hq. reflexivity.
  - intros Hne Hids.
    assert (Hpost : post_to_backend search py_repr (song_queries songs) 1
                    = HttpResponse 200
                        (Some (BodyResults
                                 (batch_loop search py_repr (JNum 1) 0
                                    (song_queries songs) [])
                                 (length (song_queries songs))))).
    { unfold post_to_backend, posted_body.
      rewrite (batch_search_accepts search py_repr
                 [("queries", JList (song_queries songs));
                  ("limit_per_query", JNum 1)]
                 (song_queries songs) (JNum 1) eq_refl);
        [reflexivity| |reflexivity].
      rewrite Hasked_len. destruct asked; [contradiction|simpl in *; lia]. }
    destruct (create_playlist_from_songs_searched _ post_playlists
                title songs description _ _ Ht Hlen Hpost) as [Hnone _].
    destruct (match_results_spec
                (batch_loop search py_repr (JNum 1) 0 (song_queries songs) []))
      as (H1 & _ & H3).
    fold out in Hnone. rewrite H1, H3, Hfound, Hnot in Hnone. now apply Hnone.
  - intros Hne Hids.
    assert (Hpost : post_to_backend search py_repr (song_queries songs) 1
                    = HttpResponse 200
                        (Some (BodyResults
                                 (batch_loop search py_repr (JNum 1) 0
                                    (song_queries songs) [])
                                 (length (song_queries songs))))).
    { unfold post_to_backend, posted_body.
      rewrite (batch_search_accepts search py_repr
                 [("queries", JList (song_queries songs));
                  ("limit_per_query", JNum 1)]
                 (song_queries songs) (JNum 1) eq_refl);
        [reflexivity| |reflexivity].
      rewrite Hasked_len. destruct asked; [contradiction|simpl in *; lia]. }
    destruct (create_playlist_from_songs_searched _ post_playlists
                title songs description _ _ Ht Hlen Hpost) as [_ Hsome].
    destruct (match_results_spec
                (batch_loop search py_repr (JNum 1) 0 (song_queries songs) []))
      as (H1 & H2 & H3).
    fold out in Hsome. rewrite H1, H3, Hfound, Hnot in Hsome.
    destruct (Hsome Hids) as [Hsent Hres]. split; [exact Hsent|].
    destruct Hres as [Hfail|(playlist & Hsucc)]; [now left|].
    right. exists playlist, (matched_songs (match_results
             (batch_loop search py_repr (JNum 1) 0 (song_queries songs) []))).
    split; [now rewrite H2, Hfound|].
    rewrite Hsucc. f_equal. f_equal.
    rewrite <- (length_map ms_track_id), H2, Hfound. reflexivity.
Qed.

End ThroughBackend.

End CreateFromSongsFacts.

(** ** Tools: recommendations *)

Section RecommendFacts.

Import Tools.

Variable get_tracks : Z -> http tracks_body.
Variable post_recommendations : list json -> Z -> bool -> http tracks_body.

(** What [_get_tidal_recommendations] makes of the answer of the
    backend: the list under ['recommendations'] of a 200, or a failure. *)
Lemma _get_tidal_recommendations_cases ids limit filter :
  ids <> [] ->
  let out := _get_tidal_recommendations post_recommendations ids limit filter in
  out.2 = [PostRecommendationsBatch ids limit true] /\
  ((exists message, out.1 = RecommendationsFailure message) \/
   (exists body f,
       post_recommendations ids limit true = Response 200 (Return body) /\
       out.1 = RawRecommendations (default [] (listed body))
                 (length (default [] (listed body))) f)).
Proof.
  intros Hne out. subst out. unfold _get_tidal_recommendations.
  destruct ids as [|id0 rest]; [contradiction|]. simpl.
  split; [reflexivity|].
  destruct (post_recommendations (id0 :: rest) limit true)
    as [| |e|status [body|e]]; eauto.
  destruct (Z.eqb_spec status 200) as [->|]; simpl; eauto.
Qed.

(** A success of [recommend_tracks] hands back the non-empty list that the
    backend answered for the seeds reported. *)
Lemma recommend_tracks_success track_ids filter limit_per_track
    limit_from_favorite seed_tracks seeds recs f n :
  (recommend_tracks get_tracks post_recommendations track_ids filter
     limit_per_track limit_from_favorite).1
  = Recommended seed_tracks seeds recs f n ->
  seeds <> [] /\ recs <> [] /\ n = length seeds /\ f = filter /\
  exists body,
    post_recommendations seeds limit_per_track true
    = Response 200 (Return body) /\
    listed body = Some recs.
Proof.
  assert (Hpost : forall (st : list track_data) (sids : list json) sent,
    sids <> [] ->
    (let '(recommendations_response, sent') :=
       _get_tidal_recommendations post_recommendations sids limit_per_track
         filter in
     (match recommendations_response with
      | RecommendationsFailure message =>
          RecommendationsFailure
            ("Unable to get recommendations: " ++ message)%string
      | RawRecommendations [] _ _ =>
          RecommendationsFailure
            "I couldn't find any recommendations based on the provided tracks. Please try again with different tracks or adjust your filtering criteria."
      | RawRecommendations recommendations _ _ =>
          Recommended st sids recommendations filter (length sids)
      | Recommended _ _ _ _ _ => recommendations_response
      end, sent ++ sent')).1
    = Recommended seed_tracks seeds recs f n ->
    seeds <> [] /\ recs <> [] /\ n = length seeds /\ f = filter /\
    exists body,
      post_recommendations seeds limit_per_track true
      = Response 200 (Return body) /\
      listed body = Some recs).
  { intros st sids sent Hne.
    destruct (_get_tidal_recommendations_cases sids limit_per_track filter Hne)
      as [_ Hres].
    destruct (_get_tidal_recommendations post_recommendations sids
                limit_per_track filter) as [response sent'].
    cbn [fst snd] in Hres |- *.
    destruct Hres as [(message & ->)|(body & f' & Hp & ->)];
      [discriminate|].
    destruct (listed body) as [[|r rs]|] eqn:Hl; cbn [default];
      try discriminate.
    intros H. injection H as <- <- <- <- <-.
    split; [exact Hne|]. split; [discriminate|]. split; [reflexivity|].
    split; [reflexivity|]. exists body. auto. }
  unfold recommend_tracks.
  destruct track_ids as [[|id0 ids]|].
  2:{ apply (Hpost [] (id0 :: ids) []). discriminate. }
  all: unfold get_favorite_tracks;
    destruct (get_tracks limit_from_favorite) as [| |e|status [body|e]];
    try discriminate;
    try (destruct (status =? 200)%Z; [|destruct (status =? 401)%Z];
         try discriminate);
    (destruct (default [] (listed body)) as [|t favorites] eqn:Hd;
     [discriminate|]);
    apply (Hpost (t :: favorites) _ [GetTracks limit_from_favorite]);
    discriminate.
Qed.

(** X23. Given seed identifiers, [recommend_tracks] never reads the
    favourites: the one request it sends is the batch of
    recommendations for exactly these seeds, with the limit given and
    deduplication on.  It succeeds only when the backend answered 200
    with a non-empty list, and then hands this list back with the seeds
    and their number, and no seed details. *)
Theorem recommend_tracks_given_seeds ids filter limit_per_track limit_from_favorite :
  ids <> [] ->
  let out := recommend_tracks get_tracks post_recommendations (Some ids) filter
               limit_per_track limit_from_favorite in
  out.2 = [PostRecommendationsBatch ids limit_per_track true] /\
  ((exists message, out.1 = RecommendationsFailure message) \/
   (exists body recs,
       post_recommendations ids limit_per_track true
       = Response 200 (Return body) /\
       listed body = Some recs /\ recs <> [] /\
       out.1 = Recommended [] ids recs filter (length ids))).
Proof.
  intros Hne out. subst out. unfold recommend_tracks.
  destruct ids as [|id0 rest] eqn:Hids; [contradiction|]. rewrite <- Hids in *.
  assert (Hne' : ids <> []) by (subst ids; discriminate).
  destruct (_get_tidal_recommendations_cases ids limit_per_track filter Hne')
    as [Hsent Hres].
  destruct (_get_tidal_recommendations post_recommendations ids
              limit_per_track filter) as [response sent].
  simpl in Hsent, Hres. subst sent. simpl. split; [reflexivity|].
  destruct Hres as [(message & ->)|(body & f & Hpost & ->)]; [left; eauto|].
  destruct (listed body) as [[|r recs]|] eqn:Hl; simpl; [left; eauto| |left; eauto].
  right. exists body, (r :: recs). auto.
Qed.

(** X24. Without seed identifiers ([None] or an empty list),
    [recommend_tracks] first reads the favourites with the limit given.
    It asks for recommendations only when that answered 200 with a
    non-empty list of tracks, and then for the identifiers of these
    tracks, in their order; a success carries these tracks as the seed
    details. *)
Theorem recommend_tracks_from_favorites track_ids filter limit_per_track
    limit_from_favorite :
  track_ids = None \/ track_ids = Some [] ->
  let out := recommend_tracks get_tracks post_recommendations track_ids filter
               limit_per_track limit_from_favorite in
  (out.2 = [GetTracks limit_from_favorite] /\
   exists message, out.1 = RecommendationsFailure message) \/
  (exists body favorites,
      get_tracks limit_from_favorite = Response 200 (Return body) /\
      listed body = Some favorites /\ favorites <> [] /\
      let seeds := map (fun track => JNum (id track)) favorites in
      out.2 = [GetTracks limit_from_favorite;
               PostRecommendationsBatch seeds limit_per_track true] /\
      ((exists message, out.1 = RecommendationsFailure message) \/
       (exists recs, recs <> [] /\
          out.1 = Recommended favorites seeds recs filter (length favorites)))).
Proof.
  intros Hnone out.
  assert (Hout : out =
    let seeds : (recommendations_result + list track_data * list json)
                * list request :=
        let '(tracks_response, sent) :=
          get_favorite_tracks get_tracks limit_from_favorite in
        match tracks_response with
        | TracksFailure message =>
            (inl (RecommendationsFailure
                    ("Unable to get favorite tracks for recommendations: "
                       ++ message)%string), sent)
        | TracksData body =>
            match default [] (listed body) with
            | [] =>
                (inl (RecommendationsFailure
                        "I couldn't find any favorite tracks in your TIDAL account to use as seeds for recommendations."),
                 sent)
            | favorite_tracks =>
                (inr (favorite_tracks,
                      map (fun track => JNum (id track)) favorite_tracks),
                 sent)
            end
        end in
    match seeds with
    | (inl failure, sent) => (failure, sent)
    | (inr (seed_tracks_info, seed_track_ids), sent) =>
        let '(recommendations_response, sent') :=
          _get_tidal_recommendations post_recommendations seed_track_ids
            limit_per_track filter in
        (match recommendations_response with
         | RecommendationsFailure message =>
             RecommendationsFailure
               ("Unable to get recommendations: " ++ message)%string
         | RawRecommendations [] _ _ =>
             RecommendationsFailure
               "I couldn't find any recommendations based on the provided tracks. Please try again with different tracks or adjust your filtering criteria."
         | RawRecommendations recommendations _ _ =>
             Recommended seed_tracks_info seed_track_ids recommendations
               filter (length seed_track_ids)
         | Recommended _ _ _ _ _ => recommendations_response
         end, sent ++ sent')
    end).
  { subst out. destruct Hnone as [->| ->]; reflexivity. }
  rewrite Hout. clear Hout out Hnone. cbv zeta.
  unfold get_favorite_tracks.
  destruct (get_tracks limit_from_favorite) as [| |e|status [body|e]] eqn:Hget;
    try (left; simpl; eauto; fail).
  2:{ destruct (status =? 200)%Z; [left; simpl; eauto|].
      destruct (status =? 401)%Z; left; simpl; eauto. }
  destruct (Z.eqb_spec status 200) as [->|H200].
  2:{ destruct (status =? 401)%Z; left; simpl; eauto. }
  destruct (listed body) as [[|t favorites]|] eqn:Hl.
  1,3: left; simpl; eauto.
  right. exists body, (t :: favorites).
  split; [reflexivity|]. split; [exact Hl|]. split; [discriminate|].
  change (default [] (Some (t :: favorites))) with (t :: favorites).
  cbv beta iota zeta.
  assert (Hne : map (fun track => JNum (id track)) (t :: favorites) <> [])
    by discriminate.
  destruct (_get_tidal_recommendations_cases _ limit_per_track filter Hne)
    as [Hsent Hres].
  destruct (_get_tidal_recommendations post_recommendations
              (map (fun track => JNum (id track)) (t :: favorites))
              limit_per_track filter) as [response sent].
  cbn [fst snd] in Hsent, Hres. subst sent. cbn [fst snd app].
  split; [reflexivity|].
  destruct Hres as [(message & ->)|(body' & f & Hpost & ->)];
    [left; eauto|].
  destruct (default [] (listed body')) as [|r recs]; [left; eauto|].
  right. exists (r :: recs). split; [discriminate|].
  now rewrite length_map.
Qed.

End RecommendFacts.

(** ** The backend route of the batch recommendations, and the tool in
       front of it *)

Section RecommendationsProvenance.

Import Recommendations Tools.

Variable session_track : json -> outcome Track.
Variable get_track_radio : Track -> json -> outcome (list Track).

Lemma get_track_recommendations_from limit seed d :
  d ∈ get_track_recommendations session_track get_track_radio limit seed ->
  exists track radio r,
    session_track seed = Return track /\
    get_track_radio track limit = Return radio /\ r ∈ radio /\
    d = format_track_data r (Some seed).
Proof.
  unfold get_track_recommendations.
  destruct (session_track seed) as [track|e]; simpl; [|inversion 1].
  destruct (get_track_radio track limit) as [radio|e] eqn:Hradio; simpl;
    [|inversion 1].
  intros Hd. apply list_elem_of_fmap in Hd as (r & -> & Hr).
  exists track, radio, r. auto.
Qed.

Lemma first_occurrences_elem d : forall l seen,
  d ∈ first_occurrences seen l -> d ∈ l /\ id d ∉ seen.
Proof.
  induction l as [|x l IH]; intros seen; simpl; [inversion 1|].
  destruct (bool_decide (id x ∈ seen)) eqn:Hx.
  - intros H. apply IH in H as [H1 H2]. split; [now right|exact H2].
  - apply bool_decide_eq_false in Hx.
    intros [->|H]%elem_of_cons; [split; [left|exact Hx]|].
    apply IH in H as [H1 H2]. split; [now right|].
    intros Hin. apply H2. apply elem_of_union. now right.
Qed.

Lemma first_occurrences_NoDup : forall l seen,
  NoDup (map id (first_occurrences seen l)).
Proof.
  induction l as [|x l IH]; intros seen; simpl; [constructor|].
  destruct (bool_decide (id x ∈ seen)); [apply IH|].
  simpl. constructor; [|apply IH].
  intros Hin. apply list_elem_of_fmap in Hin as (d & Hid & Hd).
  apply first_occurrences_elem in Hd as [_ Hd]. apply Hd.
  apply elem_of_union. left. apply elem_of_singleton. now symmetry.
Qed.

Lemma merge_elem remove completed d :
  d ∈ all_recommendations (merge remove completed) ->
  exists f, f ∈ completed /\ d ∈ f.
Proof.
  unfold merge. rewrite merge_concat.
  intros Hd.
  assert (Hc : d ∈ concat completed).
  { destruct remove.
    - rewrite accumulate_first in Hd. simpl in Hd.
      now apply first_occurrences_elem in Hd as [Hd _].
    - rewrite accumulate_all in Hd. exact Hd. }
  apply list_elem_of_In, in_concat in Hc as (f & Hf1 & Hf2).
  exists f. split; now apply list_elem_of_In.
Qed.

Lemma as_completed_elem (futures : list (list track_data)) completion f :
  f ∈ as_completed futures completion -> f ∈ futures.
Proof.
  unfold as_completed. intros H.
  apply list_elem_of_omap in H as (i & _ & Hi).
  eapply list_elem_of_lookup_2. exact Hi.
Qed.

Lemma batch_recommendations_from completion ids limit remove d :
  d ∈ all_recommendations
        (merge remove
           (as_completed
              (map (get_track_recommendations session_track get_track_radio limit)
                   ids) completion)) ->
  from_radio_of session_track get_track_radio limit ids d.
Proof.
  intros Hd. apply merge_elem in Hd as (f & Hf & Hd).
  apply as_completed_elem in Hf.
  apply list_elem_of_fmap in Hf as (seed & -> & Hseed).
  apply get_track_recommendations_from in Hd as (track & radio & r & H1 & H2 & H3 & H4).
  exists seed, track, radio, r. auto.
Qed.

(** X25. Whatever the order of completion, every entry that the batch
    route returns comes from the radio of one of the seeds submitted: it
    is the formatted form of a track of the radio that the client gave
    for that seed, at the limit that [bound_limit] returned (an integer
    limit bounded to 1..50, 20 when the body has none), and it is tagged
    with that seed.  Seeds whose lookup or radio raises contribute
    nothing: when all of them fail the route still answers with an empty
    list. *)
Theorem batch_recommendations_provenance completion d ids recs :
  dict_get d "track_ids" = Some (JList ids) ->
  get_batch_recommendations session_track get_track_radio completion
    (Return (JDict d))
  = RecommendationsResponse recs ->
  exists limit,
    limit_of d = Return limit /\
    (dict_get d "limit_per_track" = None -> limit = JNum 20) /\
    (forall z, dict_get d "limit_per_track" = Some (JNum z) ->
       limit = JNum (bound_limit z 50) /\ (1 <= bound_limit z 50 <= 50)%Z) /\
    (forall x, x ∈ recs ->
       from_radio_of session_track get_track_radio limit ids x) /\
    ((forall seed, seed ∈ ids ->
        (exists e, session_track seed = Raise e) \/
        (exists track e, session_track seed = Return track /\
                         get_track_radio track limit = Raise e)) ->
     recs = []).
Proof.
  intros Hids Hget.
  unfold get_batch_recommendations in Hget.
  rewrite (get_batch_recommendations_of_dict session_track get_track_radio
             completion d ids Hids) in Hget.
  destruct (limit_of d) as [limit|e] eqn:Hl; [|discriminate].
  cbn [mbind outcome_bind Py.bind] in Hget.
  exists limit. split; [reflexivity|].
  split.
  { intros Hnone. unfold limit_of in Hl. rewrite Hnone in Hl.
    now injection Hl as <-. }
  split.
  { intros z Hz. unfold limit_of in Hl. rewrite Hz in Hl.
    injection Hl as <-. split; [reflexivity|].
    apply bound_limit_bounds. lia. }
  assert (Hfrom : forall x, x ∈ recs ->
            from_radio_of session_track get_track_radio limit ids x).
  { destruct ids as [|id0 rest] eqn:Hi; [discriminate|].
    rewrite <- Hi in *. injection Hget as <-.
    intros x Hx. eapply batch_recommendations_from. exact Hx. }
  split; [exact Hfrom|].
  intros Hfail. destruct recs as [|x recs']; [reflexivity|]. exfalso.
  destruct (Hfrom x) as (seed & track & radio & r & Hs & H1 & H2 & _);
    [left|].
  destruct (Hfail seed Hs) as [(e & He)|(track' & e & Ht & He)]; congruence.
Qed.

Variable get_tracks : Z -> http tracks_body.

(** X26. [recommend_tracks] in front of the batch route: a success never
    lists an identifier twice, and each of its recommendations comes from
    the radio of one of the seeds reported, asked with the limit per
    track bounded to 1..50. *)
Theorem recommend_tracks_through_backend completion track_ids filter
    limit_per_track limit_from_favorite seed_tracks seeds recs f n :
  (recommend_tracks get_tracks
     (recommendations_backend session_track get_track_radio completion)
     track_ids filter limit_per_track limit_from_favorite).1
  = Recommended seed_tracks seeds recs f n ->
  recs <> [] /\ NoDup (map id recs) /\
  forall d, d ∈ recs -> from_radio_of session_track get_track_radio
              (JNum (bound_limit limit_per_track 50)) seeds d.
Proof.
  intros Hout.
  apply recommend_tracks_success in Hout
    as (Hne & Hrecs & _ & _ & body & Hpost & Hl).
  split; [exact Hrecs|].
  unfold recommendations_backend in Hpost.
  rewrite (get_batch_recommendations_accepts session_track get_track_radio
             completion
             [("track_ids", JList seeds);
              ("limit_per_track", JNum limit_per_track);
              ("remove_duplicates", JBool true)]
             seeds (JNum (bound_limit limit_per_track 50))
             eq_refl Hne eq_refl) in Hpost.
  injection Hpost as <-. simpl in Hl. injection Hl as <-.
  split.
  - unfold merge. rewrite merge_concat, accumulate_first. simpl.
    apply first_occurrences_NoDup.
  - intros d Hd. eapply batch_recommendations_from. exact Hd.
Qed.

End RecommendationsProvenance.

(** ** The properties on the sample worlds *)

Section ScenarioRuns.

Import Samples Scenarios.

#[local] Existing Instance unicode_unchanged.

Lemma find_uv_executable_answer_witness :
  Executables.find_uv_executable tools_in_path = "/usr/bin/uv".
Proof.
  apply (proj1 (find_uv_executable_answer tools_in_path));
    [reflexivity|discriminate].
Defined.

Lemma find_tdn_executable_answer_witness :
  Executables.find_tdn_executable nothing_installed = None.
Proof.
  apply (proj2 (find_tdn_executable_answer nothing_installed)).
  split; [reflexivity|]. split; [reflexivity|].
  intros c _. reflexivity.
Defined.

Lemma execute_tdn_download_runs_witness :
  Downloads.status
    (Downloads.result
       (Downloads.execute_tdn_download tools_in_path run_succeeds
          "https://tidal.com/browse/track/5" 300))
  = "success".
Proof.
  apply (proj2 (proj2 (execute_tdn_download_runs tools_in_path run_succeeds
                         "https://tidal.com/browse/track/5" 300))).
  exists "/usr/bin/tdn", "saved", "". repeat split; reflexivity.
Defined.

Lemma download_content_status_witness :
  Downloads.status_code_of
    (fst (Downloads.download_content nothing_installed run_succeeds no_repr
            "track_id" "track" "Track" 300
            (Return (JDict [("track_id", JNum 5)]))))
  = 500%Z /\
  Downloads.status_code_of
    (fst (Downloads.download_content nothing_installed run_succeeds no_repr
            "track_id" "track" "Track" 300 (Return (JStr "my track_id"))))
  = 500%Z.
Proof.
  split.
  - apply (proj1 (proj2 (proj2 (proj2 (proj2
             (download_content_status nothing_installed run_succeeds no_repr
                "track_id" "track" "Track" 300
                (Return (JDict [("track_id", JNum 5)]))))))
             [("track_id", JNum 5)] (JNum 5) eq_refl eq_refl)).
    reflexivity.
  - apply (proj1 (proj2 (proj2 (proj2
             (download_content_status nothing_installed run_succeeds no_repr
                "track_id" "track" "Track" 300
                (Return (JStr "my track_id"))))))
             (JStr "my track_id") eq_refl eq_refl).
    discriminate.
Defined.

Lemma download_favorites_commands_witness :
  Downloads.download_favorites tools_in_path run_succeeds no_repr
    (Return (JDict [("type", JStr "Songs")]))
  = (Downloads.Failed 400
       {| Downloads.status := "error";
          Downloads.message :=
            "Invalid favorite type. Must be one of: tracks, albums, artists, videos";
          Downloads.stdout := None; Downloads.stderr := None |}, []).
Proof.
  apply (proj2 (proj2 (proj2 (download_favorites_commands tools_in_path
                                run_succeeds no_repr "" 0))
                  [("type", JStr "Songs")] (JStr "Songs") eq_refl)).
  apply (proj1 (bool_decide_eq_false _)). reflexivity.
Defined.

Lemma batch_search_accepts_only_lists_witness :
  exists results total,
    BatchSearch.batch_search always_found no_repr
      (Return (JDict [("queries", JList three_queries)]))
    = BatchSearch.BatchResults results total.
Proof.
  apply (proj2 (proj1 (batch_search_accepts_only_lists always_found no_repr
                         (Return (JDict [("queries", JList three_queries)]))))).
  exists [("queries", JList three_queries)], three_queries, (JNum 5).
  split; [reflexivity|]. split; [reflexivity|].
  split; [simpl; lia|reflexivity].
Defined.

Lemma search_validates_witness :
  Search.search search_finds
    {| Search.q := Some "Song"; Search.type := Some "Songs";
       Search.limit := None |}
  = Search.ErrorResponse 400
      "Invalid search type 'songs'. Must be one of: track, album, artist, playlist, all".
Proof.
  apply (proj1 (proj2 (proj2 (search_validates search_finds
           {| Search.q := Some "Song"; Search.type := Some "Songs";
              Search.limit := None |}))));
    [discriminate|].
  intros H. vm_compute in H. repeat destruct H as [H|H]; try discriminate.
  exact H.
Defined.

(** A type written with the Kelvin sign is a track search once lowered. *)
Example search_lowers_kelvin_sign :
  Search.search (unicode := lowers_kelvin_sign) search_finds
    {| Search.q := Some "Song"; Search.type := Some ("trac" ++ kelvin_sign)%string;
       Search.limit := None |}
  = Search.results_of (found 7).
Proof. reflexivity. Qed.

Lemma create_playlist_guard_witness :
  exists rest,
    PlaylistRoutes.calls
      (PlaylistRoutes.create_playlist add_fails
         (Return (JDict [("title", JStr "Mix");
                         ("track_ids", JList [JNum 1])])))
    = PlaylistRoutes.CreatePlaylist (JStr "Mix") (JStr "") :: rest.
Proof.
  apply (proj2 (proj2 (proj2 (proj2 (proj2 (create_playlist_guard add_fails
           (Return (JDict [("title", JStr "Mix");
                           ("track_ids", JList [JNum 1])])))))))
           [("title", JStr "Mix"); ("track_ids", JList [JNum 1])]
           (JStr "Mix") (JNum 1) []); reflexivity.
Defined.

Lemma create_playlist_no_rollback_witness :
  PlaylistRoutes.answer
    (PlaylistRoutes.create_playlist add_fails
       (Return (JDict [("title", JStr "Mix");
                       ("track_ids", JList [JNum 1])])))
  = PlaylistRoutes.ErrorResponse 500 "Error creating playlist: 404 Not Found".
Proof.
  apply (create_playlist_no_rollback add_fails
           [("title", JStr "Mix"); ("track_ids", JList [JNum 1])]
           (JStr "Mix") (JNum 1) [] (some_playlist "new" None)
           "404 Not Found"); reflexivity.
Defined.

Lemma mutation_needs_lookup_witness :
  PlaylistRoutes.answer (PlaylistRoutes.delete_playlist add_fails "p2")
  = PlaylistRoutes.not_found "p2" /\
  PlaylistRoutes.answer
    (PlaylistRoutes.add_tracks_to_playlist add_fails "p2"
       (Return (JDict [("track_ids", JList [JNum 1])])))
  = PlaylistRoutes.not_found "p2".
Proof.
  destruct (proj1 (mutation_needs_lookup add_fails "p2"
                     (Return (JDict [("track_ids", JList [JNum 1])])))
              eq_refl) as (Hdel & _ & Hadd & _).
  split; [exact Hdel|].
  exact (proj1 (Hadd [("track_ids", JList [JNum 1])] (JNum 1) []
                  eq_refl eq_refl)).
Defined.

Lemma get_playlist_tracks_page_witness :
  PlaylistRoutes.calls
    (PlaylistRoutes.get_playlist_tracks add_fails "p1" (Some 1000%Z)
       (Some (-3)%Z))
  = [PlaylistRoutes.LookupPlaylist "p1";
     PlaylistRoutes.PlaylistItems (some_playlist "p1" (Some 5%Z)) 500 0].
Proof.
  apply (get_playlist_tracks_page add_fails "p1" (Some 1000%Z) (Some (-3)%Z)
           (some_playlist "p1" (Some 5%Z))).
  reflexivity.
Defined.

Lemma match_results_accounting_witness :
  (length (Tools.matched_songs (Tools.match_results two_results))
   + length (Tools.unmatched_songs (Tools.match_results two_results))
   = length two_results)%nat.
Proof.
  apply (proj2 (proj2 (proj2 (proj2 (match_results_accounting two_results))))).
  intros r track rest Hr Ht. apply list_elem_of_In in Hr.
  destruct Hr as [<-|[<-|[]]]; simpl in Ht; [discriminate|].
  injection Ht as <- _. discriminate.
Defined.

Lemma playlist_posted_only_with_matches_witness :
  Tools.PostPlaylists "Mix" "two songs" [1%Z]
  ∈ (Tools.create_playlist_from_songs backend_search playlist_created "Mix"
       (JList three_songs) "two songs").2 /\
  (Tools.create_playlist_from_songs backend_search playlist_created "Mix"
     (JList three_songs) "two songs").2
  = [Tools.PostSearchBatch (Tools.song_queries three_songs) 1;
     Tools.PostPlaylists "Mix" "two songs" [1%Z]].
Proof.
  assert (Hin : Tools.PostPlaylists "Mix" "two songs" [1%Z]
                ∈ (Tools.create_playlist_from_songs backend_search
                     playlist_created "Mix" (JList three_songs)
                     "two songs").2).
  { apply list_elem_of_In. right. left. reflexivity. }
  split; [exact Hin|].
  destruct (playlist_posted_only_with_matches backend_search playlist_created
              "Mix" (JList three_songs) "two songs" _ _ _ Hin)
    as (_ & _ & _ & _ & qs & results & total & Hqs & _ & _ & _ & Hsent).
  injection Hqs as <-. exact Hsent.
Defined.

Lemma playlist_success_accounting_witness :
  exists matched unmatched,
    (Tools.create_playlist_from_songs backend_search playlist_created "Mix"
       (JList three_songs) "two songs").1
    = Tools.PlaylistSuccess "Mix" 1 (Some (some_playlist "new" None))
        "https://tidal.com/playlist/new" matched unmatched (1%nat, 3%nat) /\
    1%nat = length matched.
Proof.
  eexists _, _. split; [reflexivity|].
  apply (playlist_success_accounting backend_search playlist_created "Mix"
           (JList three_songs) "two songs" _ _ _ _ _ _ _ eq_refl).
Defined.

Lemma create_from_songs_through_backend_witness :
  (Tools.create_playlist_from_songs
     (ToolServer.post_to_backend always_found no_repr) playlist_created "Mix"
     (JList three_songs) "two songs").2
  = [Tools.PostSearchBatch (Tools.song_queries three_songs) 1;
     Tools.PostPlaylists "Mix" "two songs" [1%Z]].
Proof.
  apply (proj2 (proj2 (create_from_songs_through_backend always_found no_repr
                         playlist_created "Mix" three_songs "two songs"
                         ltac:(discriminate) ltac:(simpl; lia))));
    discriminate.
Defined.

Lemma recommend_tracks_given_seeds_witness :
  (Tools.recommend_tracks one_favorite (radio_backend second_seed_first)
     (Some two_seeds) None 20 20).2
  = [Tools.PostRecommendationsBatch two_seeds 20 true].
Proof.
  apply (recommend_tracks_given_seeds one_favorite
           (radio_backend second_seed_first) two_seeds None 20 20).
  discriminate.
Defined.

Lemma recommend_tracks_from_favorites_witness :
  exists seeds,
    (Tools.recommend_tracks one_favorite (radio_backend [0%nat]) None None
       20 20).2
    = [Tools.GetTracks 20; Tools.PostRecommendationsBatch seeds 20 true].
Proof.
  destruct (recommend_tracks_from_favorites one_favorite
              (radio_backend [0%nat]) None None 20 20 (or_introl eq_refl))
    as [[H _]|(body & favorites & _ & _ & _ & H & _)].
  - discriminate H.
  - eexists. exact H.
Defined.

Lemma batch_recommendations_provenance_witness :
  exists limit,
    Recommendations.limit_of [("track_ids", JList two_seeds)] = Return limit /\
    Tools.from_radio_of seed_track radio limit two_seeds
      (format_track_data (some_track 20) (Some (JNum 2))).
Proof.
  destruct (batch_recommendations_provenance seed_track radio
              second_seed_first [("track_ids", JList two_seeds)] two_seeds _
              eq_refl eq_refl)
    as (limit & Hl & _ & _ & Hfrom & _).
  exists limit. split; [exact Hl|].
  apply Hfrom. apply list_elem_of_In. left. reflexivity.
Defined.

Lemma recommend_tracks_through_backend_witness :
  exists recs,
    (Tools.recommend_tracks one_favorite (radio_backend second_seed_first)
       (Some two_seeds) None 20 20).1
    = Tools.Recommended [] two_seeds recs None 2 /\
    NoDup (map id recs).
Proof.
  eexists. split; [reflexivity|].
  eapply (proj1 (proj2 (recommend_tracks_through_backend seed_track radio
                          one_favorite second_seed_first (Some two_seeds)
                          None 20 20 _ _ _ _ _ eq_refl))).
Defined.

End ScenarioRuns.

